(** * A shallow embedding of the scheduling core

    Source files embedded here:
    - [src/models/schedule.py]    (BlockType, TimeBlock, Schedule)
    - [src/models/assignment.py]  (AssignmentType, Priority, Assignment)
    - [src/models/work_schedule.py] (WorkShift)
    - [src/core/scheduler.py]     (SchedulingConstraints, SmartScheduler)

    Conventions of the embedding.
    - A naive [datetime] is the integer number of microseconds since
      0001-01-01T00:00:00, a [timedelta] a signed number of microseconds and
      a [time] the number of microseconds since midnight.  The range limits
      of Python's datetime (years 1..9999) are not modelled.
    - Python floats are idealised as exact rationals ([Q]): [0.6] is [6/10],
      [total_seconds() / 60] is the exact quotient.
    - Exceptions are values of [result]: [ValueError] is what the pydantic
      validator of TimeBlock raises, [ZeroDivisionError] what a division by
      zero raises.
    - Logging calls have no effect on the data and are left out. *)

From Stdlib Require Import ZArith QArith Qabs List Bool String Lia Lqa.
From Stdlib Require Import Permutation Sorted.
Import ListNotations.

Local Open Scope Z_scope.

(* ------------------------------------------------------------------ *)
(** ** Time *)

Definition datetime := Z.
Definition timedelta := Z.
Definition time := Z.

Definition us_per_second : Z := 1000000.
Definition us_per_minute : Z := 60 * us_per_second.
Definition us_per_hour : Z := 60 * us_per_minute.
Definition us_per_day : Z := 24 * us_per_hour.

(** [datetime.date()]: the calendar day, as a day number. *)
Definition date_of (t : datetime) : Z := t / us_per_day.

(** [datetime.hour]. *)
Definition hour_of (t : datetime) : Z := (t / us_per_hour) mod 24.

(** [timedelta.days]: timedelta normalises so that [days] is the floor. *)
Definition td_days (d : timedelta) : Z := d / us_per_day.

(** [timedelta.total_seconds() / 60]. *)
Definition total_minutes (d : timedelta) : Q := Qmake d 60000000.

(** [timedelta(minutes=m)]. *)
Definition minutes (m : Z) : timedelta := m * us_per_minute.

(** [timedelta(days=n)]. *)
Definition days (n : Z) : timedelta := n * us_per_day.

(** [time(h, m)]. *)
Definition mk_time (h m : Z) : time := h * us_per_hour + m * us_per_minute.

(** [datetime.combine(d, t)], [d] a day number. *)
Definition combine_date (d : Z) (t : time) : datetime := d * us_per_day + t.

(** A clock time on day [d], for writing examples. *)
Definition at_ (d h m : Z) : datetime := combine_date d (mk_time h m).

(* ------------------------------------------------------------------ *)
(** ** Rationals as the model of floats *)

Definition Qlt_bool (a b : Q) : bool := negb (Qle_bool b a).

(* ------------------------------------------------------------------ *)
(** ** Exceptions *)

Inductive exn : Type :=
| ValueError
| ZeroDivisionError.

Inductive result (A : Type) : Type :=
| Ok (a : A)
| Raise (e : exn).
Arguments Ok {A} a.
Arguments Raise {A} e.

Definition bind {A B : Type} (m : result A) (k : A -> result B) : result B :=
  match m with
  | Ok a => k a
  | Raise e => Raise e
  end.

Notation "x <- m ;; k" := (bind m (fun x => k))
  (at level 61, m at next level, right associativity).
Notation "' p <- m ;; k" := (bind m (fun p => k))
  (at level 61, p pattern, m at next level, right associativity).

(* ------------------------------------------------------------------ *)
(** ** models/schedule.py: TimeBlock *)

Inductive BlockType : Type :=
| STUDY | BREAK | CLASS | WORK | PERSONAL | BUFFER.

Definition BlockType_eqb (a b : BlockType) : bool :=
  match a, b with
  | STUDY, STUDY | BREAK, BREAK | CLASS, CLASS
  | WORK, WORK | PERSONAL, PERSONAL | BUFFER, BUFFER => true
  | _, _ => false
  end.

Record TimeBlock : Type := mkTimeBlock {
  start_time : datetime;
  end_time : datetime;
  block_type : BlockType;
  title : string;
  description : option string;
  assignment_id : option Z;
  course_id : option Z;
  is_fixed : bool;
  priority : Z;
  tags : list string
}.

(** The validator [end_time_after_start], run by the constructor. *)
Definition TimeBlock_new (s e : datetime) (ty : BlockType) (ttl : string)
    (descr : option string) (aid cid : option Z) (fixed : bool) (prio : Z)
    (tgs : list string) : result TimeBlock :=
  if e <=? s then Raise ValueError
  else Ok (mkTimeBlock s e ty ttl descr aid cid fixed prio tgs).

(** What the validator guarantees of every constructed block. *)
Definition valid_block (b : TimeBlock) : Prop := start_time b < end_time b.

(** [int(delta.total_seconds() / 60)]: [int] truncates towards zero.  The
    quotient is taken exactly; the double of the code agrees with it for
    every duration below several centuries. *)
Definition duration_minutes (b : TimeBlock) : Z :=
  Z.quot (end_time b - start_time b) us_per_minute.

Definition is_study_block (b : TimeBlock) : bool :=
  BlockType_eqb (block_type b) STUDY.

Definition overlaps_with (self other : TimeBlock) : bool :=
  (start_time self <? end_time other) && (end_time self >? start_time other).

(* ------------------------------------------------------------------ *)
(** ** models/schedule.py: Schedule *)

Record Schedule : Type := mkSchedule {
  date : datetime;
  time_blocks : list TimeBlock;
  total_study_time : Z;
  total_break_time : Z;
  efficiency_score : Q
}.

(** [Schedule(date=d)]: the field defaults. *)
Definition Schedule_new (d : datetime) : Schedule :=
  mkSchedule d [] 0 0 0%Q.

(** [sum(block.duration_minutes for block in blocks)]. *)
Definition sum_durations (l : list TimeBlock) : Z :=
  fold_left (fun acc b => acc + duration_minutes b) l 0.

Definition get_blocks_by_type (s : Schedule) (ty : BlockType) : list TimeBlock :=
  filter (fun b => BlockType_eqb (block_type b) ty) (time_blocks s).

Definition get_study_blocks (s : Schedule) : list TimeBlock :=
  get_blocks_by_type s STUDY.

Definition _update_metrics (s : Schedule) : Schedule :=
  let study :=
    sum_durations
      (filter (fun b => BlockType_eqb (block_type b) STUDY) (time_blocks s)) in
  let brk :=
    sum_durations
      (filter (fun b => BlockType_eqb (block_type b) BREAK) (time_blocks s)) in
  let total_time := sum_durations (time_blocks s) in
  mkSchedule (date s) (time_blocks s) study brk
    (if total_time >? 0 then (inject_Z study / inject_Z total_time)%Q
     else 0%Q).

(** The loop of [_can_add_block], over the existing blocks. *)
Fixpoint can_add_loop (block : TimeBlock) (existing : list TimeBlock) : bool :=
  match existing with
  | [] => true
  | existing_block :: rest =>
      if overlaps_with block existing_block then false
      else can_add_loop block rest
  end.

Definition _can_add_block (s : Schedule) (block : TimeBlock) : bool :=
  can_add_loop block (time_blocks s).

(** [add_block] mutates the schedule and returns a flag: the pair is the
    schedule after the call and the returned flag. *)
Definition add_block (s : Schedule) (block : TimeBlock) : Schedule * bool :=
  if _can_add_block s block then
    (_update_metrics
       (mkSchedule (date s) (time_blocks s ++ [block]) (total_study_time s)
          (total_break_time s) (efficiency_score s)),
     true)
  else (s, false).

(** [list.pop(i)] for an index already checked to be in range. *)
Fixpoint list_pop {A : Type} (l : list A) (i : nat) : list A :=
  match l, i with
  | [], _ => []
  | _ :: t, O => t
  | x :: t, S j => x :: list_pop t j
  end.

Definition remove_block (s : Schedule) (block_id : Z) : Schedule * bool :=
  if (0 <=? block_id) && (block_id <? Z.of_nat (List.length (time_blocks s))) then
    (_update_metrics
       (mkSchedule (date s) (list_pop (time_blocks s) (Z.to_nat block_id))
          (total_study_time s) (total_break_time s) (efficiency_score s)),
     true)
  else (s, false).

(* ------------------------------------------------------------------ *)
(** ** Python's [sorted(l, key=...)]

    [sorted] is stable and compares keys with [<] only.  The model is the
    insertion sort that puts an element before the first element of the
    already sorted tail whose key is not smaller. *)

Section StableSort.
Context {A K : Type}.
Variable key : A -> K.
Variable ltb : K -> K -> bool.

Fixpoint insert_by (x : A) (l : list A) : list A :=
  match l with
  | [] => [x]
  | y :: t => if ltb (key y) (key x) then y :: insert_by x t
              else x :: y :: t
  end.

Definition sorted_by (l : list A) : list A :=
  fold_right insert_by [] l.
End StableSort.

(** A free slot: the tuple [(start, end)]. *)
Definition slot : Type := (datetime * datetime)%type.

(** The loop of [get_available_slots]; the state is the cursor
    [current_time] and the list built so far. *)
Fixpoint slots_loop (duration_minutes : Z) (sorted_blocks : list TimeBlock)
    (current_time : datetime) (available_slots : list slot)
    : datetime * list slot :=
  match sorted_blocks with
  | [] => (current_time, available_slots)
  | block :: rest =>
      let available_slots' :=
        if (start_time block - current_time) >=? duration_minutes * 60 * us_per_second
        then available_slots ++ [(current_time, start_time block)]
        else available_slots in
      slots_loop duration_minutes rest (end_time block) available_slots'
  end.

Definition get_available_slots (s : Schedule) (duration_minutes : Z)
    (start_t end_t : time) : list slot :=
  let start_dt := combine_date (date_of (date s)) start_t in
  let end_dt := combine_date (date_of (date s)) end_t in
  let sorted_blocks := sorted_by start_time Z.ltb (time_blocks s) in
  let '(current_time, available_slots) :=
    slots_loop duration_minutes sorted_blocks start_dt [] in
  if (end_dt - current_time) >=? duration_minutes * 60 * us_per_second
  then available_slots ++ [(current_time, end_dt)]
  else available_slots.

(* ------------------------------------------------------------------ *)
(** ** models/assignment.py *)

Inductive AssignmentType : Type :=
| HOMEWORK | QUIZ | EXAM | PROJECT | DISCUSSION | ESSAY | LAB_REPORT | OTHER.

(** [AssignmentType.value]. *)
Definition AssignmentType_value (t : AssignmentType) : string :=
  match t with
  | HOMEWORK => "homework"
  | QUIZ => "quiz"
  | EXAM => "exam"
  | PROJECT => "project"
  | DISCUSSION => "discussion"
  | ESSAY => "essay"
  | LAB_REPORT => "lab_report"
  | OTHER => "other"
  end.

Inductive Priority : Type :=
| LOW | MEDIUM | HIGH | URGENT.

(** [Priority.value]. *)
Definition Priority_value (p : Priority) : string :=
  match p with
  | LOW => "low"
  | MEDIUM => "medium"
  | HIGH => "high"
  | URGENT => "urgent"
  end.

Record Assignment : Type := mkAssignment {
  a_id : Z;
  name : string;
  a_course_id : Z;
  course_name : string;
  due_date : option datetime;
  points_possible : option Q;
  submission_types : list string;
  a_description : option string;
  assignment_type : AssignmentType;
  a_priority : Priority;
  estimated_duration : Z;
  difficulty : Z;
  requires_preparation : bool;
  preparation_time : Z;
  is_completed : bool;
  started_at : option datetime;
  completed_at : option datetime
}.

Definition total_time_needed (a : Assignment) : Z :=
  estimated_duration a + preparation_time a.

(** [days_until_due]; [now] is the value of [datetime.now()] at the call. *)
Definition days_until_due (now : datetime) (a : Assignment) : option Z :=
  match due_date a with
  | None => None
  | Some due => let delta := due - now in Some (Z.max 0 (td_days delta))
  end.

(** The dictionary [priority_scores] of [urgency_score]. *)
Definition priority_scores (p : Priority) : Q :=
  match p with
  | LOW => 1%Q
  | MEDIUM => 2%Q
  | HIGH => 3%Q
  | URGENT => 4%Q
  end.

Definition urgency_score (now : datetime) (a : Assignment) : Q :=
  match days_until_due now a with
  | None => 0%Q
  | Some days_left =>
      if days_left =? 0 then 10%Q
      else
        let base_score := priority_scores (a_priority a) in
        let time_multiplier : Q :=
          if days_left <=? 3 then 3%Q
          else if days_left <=? 7 then 2%Q
          else if days_left <=? 14 then (3 # 2)%Q
          else 1%Q in
        (base_score * time_multiplier)%Q
  end.

(* ------------------------------------------------------------------ *)
(** ** models/work_schedule.py *)

Inductive ShiftStatus : Type :=
| SCHEDULED | IN_PROGRESS | COMPLETED | CANCELLED.

Record WorkShift : Type := mkWorkShift {
  ws_id : string;
  ws_start_time : datetime;
  ws_end_time : datetime;
  role : string;
  location : option string;
  status : ShiftStatus;
  notes : option string;
  is_break_included : bool;
  ws_break_duration : Z
}.

(** The property [WorkShift.date]. *)
Definition ws_date (w : WorkShift) : datetime := ws_start_time w.

(* ------------------------------------------------------------------ *)
(** ** core/scheduler.py *)

Record SchedulingConstraints : Type := mkSchedulingConstraints {
  c_start_time : time;
  c_end_time : time;
  max_study_session : Z;
  min_study_session : Z;
  break_duration : Z;
  buffer_time : Z;
  preferred_study_hours : Z * Z
}.

(** The field defaults of the dataclass. *)
Definition default_constraints : SchedulingConstraints :=
  mkSchedulingConstraints (mk_time 9 0) (mk_time 22 0) 120 30 15 30 (9, 22).

(** The dictionary [priority_order] of [sort_key]. *)
Definition priority_order (p : Priority) : Z :=
  match p with
  | LOW => 1
  | MEDIUM => 2
  | HIGH => 3
  | URGENT => 4
  end.

(** The key tuple of [sort_key]. *)
Definition sort_key_t : Type := (Q * Z)%type.

Definition sort_key (now : datetime) (assignment : Assignment) : sort_key_t :=
  ((- urgency_score now assignment)%Q, - priority_order (a_priority assignment)).

(** Python's [<] on tuples: the first components that differ decide. *)
Definition sort_key_ltb (k1 k2 : sort_key_t) : bool :=
  if Qeq_bool (fst k1) (fst k2) then snd k1 <? snd k2
  else Qlt_bool (fst k1) (fst k2).

(** [sorted] calls the key function once on each element, in list order,
    before it compares anything; every call reads the clock.  [clock i] is
    the reading of [datetime.now()] at the call for the element at
    position [i]. *)
Fixpoint decorate (clock : nat -> datetime) (i : nat) (l : list Assignment)
    : list (sort_key_t * Assignment) :=
  match l with
  | [] => []
  | a :: t => (sort_key (clock i) a, a) :: decorate clock (S i) t
  end.

Definition _sort_assignments_by_priority (clock : nat -> datetime)
    (assignments : list Assignment) : list Assignment :=
  map snd (sorted_by fst sort_key_ltb (decorate clock 0 assignments)).

Definition work_block_of (work_shift : WorkShift) : result TimeBlock :=
  TimeBlock_new (ws_start_time work_shift) (ws_end_time work_shift) WORK
    ("Work - " ++ role work_shift)%string None None None true 1 [].

Fixpoint add_class_blocks (schedule : Schedule) (class_schedule : list TimeBlock)
    (date : datetime) : Schedule :=
  match class_schedule with
  | [] => schedule
  | class_block :: rest =>
      if date_of (start_time class_block) =? date_of date
      then add_class_blocks (fst (add_block schedule class_block)) rest date
      else add_class_blocks schedule rest date
  end.

Fixpoint add_work_blocks (schedule : Schedule) (work_shifts : list WorkShift)
    (date : datetime) : result Schedule :=
  match work_shifts with
  | [] => Ok schedule
  | work_shift :: rest =>
      if date_of (ws_date work_shift) =? date_of date
      then
        work_block <- work_block_of work_shift ;;
        add_work_blocks (fst (add_block schedule work_block)) rest date
      else add_work_blocks schedule rest date
  end.

(** The return value of [add_block] is dropped at both call sites, and the
    method itself returns nothing. *)
Definition _add_fixed_blocks (schedule : Schedule)
    (class_schedule : list TimeBlock) (work_shifts : list WorkShift)
    (date : datetime) : result Schedule :=
  add_work_blocks (add_class_blocks schedule class_schedule date)
    work_shifts date.

Definition _can_schedule_assignment (assignment : Assignment)
    (date : datetime) : bool :=
  if is_completed assignment then false
  else if match due_date assignment with
          | Some due => date_of due <? date_of date
          | None => false
          end then false
  else if match due_date assignment with
          | Some due => td_days (due - date) <? 0
          | None => false
          end then false
  else true.

Definition _calculate_time_preference_score (start : datetime) : Q :=
  let hour := hour_of start in
  if (9 <=? hour) && (hour <? 12) then 1%Q
  else if (12 <=? hour) && (hour <? 17) then (8 # 10)%Q
  else if (17 <=? hour) && (hour <? 22) then (6 # 10)%Q
  else (2 # 10)%Q.

(** [total_score] of a slot that passed the test [slot_duration >=
    time_needed]; the division raises when [time_needed] is 0. *)
Definition slot_score (time_needed : Z) (s : slot) : result Q :=
  let slot_duration := total_minutes (snd s - fst s) in
  if time_needed =? 0 then Raise ZeroDivisionError
  else
    let fit_score :=
      (1 - Qabs (slot_duration - inject_Z time_needed) / inject_Z time_needed)%Q in
    let time_score := _calculate_time_preference_score (fst s) in
    Ok (fit_score * (6 # 10) + time_score * (4 # 10))%Q.

(** The first loop of [_schedule_single_assignment]; the state is
    [best_slot] and [best_score].  Scores are compared as exact rationals:
    where two scores are equal as rationals, or a score equals the
    incumbent's, the doubles of the code may differ in the last place and
    decide the comparison the other way. *)
Fixpoint best_slot_loop (time_needed : Z) (available_slots : list slot)
    (best_slot : option slot) (best_score : Q) : result (option slot) :=
  match available_slots with
  | [] => Ok best_slot
  | s :: rest =>
      let slot_duration := total_minutes (snd s - fst s) in
      if Qle_bool (inject_Z time_needed) slot_duration then
        total_score <- slot_score time_needed s ;;
        if Qlt_bool best_score total_score
        then best_slot_loop time_needed rest (Some s) total_score
        else best_slot_loop time_needed rest best_slot best_score
      else best_slot_loop time_needed rest best_slot best_score
  end.

Definition slot_eqb (a b : slot) : bool :=
  (fst a =? fst b) && (snd a =? snd b).

(** [list.remove(x)]: drops the first element equal to [x], raises
    ValueError when there is none. *)
Fixpoint list_remove (x : slot) (l : list slot) : result (list slot) :=
  match l with
  | [] => Raise ValueError
  | y :: t => if slot_eqb y x then Ok t
              else t' <- list_remove x t ;; Ok (y :: t')
  end.

Definition study_block_of (assignment : Assignment) (start : datetime)
    (time_needed : Z) : result TimeBlock :=
  TimeBlock_new start (start + minutes time_needed) STUDY
    ("Study: " ++ name assignment)%string
    (Some ("Course: " ++ course_name assignment)%string)
    (Some (a_id assignment)) (Some (a_course_id assignment)) false 1
    [AssignmentType_value (assignment_type assignment);
     Priority_value (a_priority assignment)].

(** The list [available_slots] is shared with the caller and changed in
    place: the result carries the schedule and the list after the call. *)
Definition _schedule_single_assignment (schedule : Schedule)
    (assignment : Assignment) (available_slots : list slot)
    : result (Schedule * list slot) :=
  let time_needed := total_time_needed assignment in
  best_slot <- best_slot_loop time_needed available_slots None (-1)%Q ;;
  match best_slot with
  | Some best =>
      study_block <- study_block_of assignment (fst best) time_needed ;;
      let (schedule', added) := add_block schedule study_block in
      if added then
        slots' <- list_remove best available_slots ;;
        Ok (schedule', slots')
      else Ok (schedule', available_slots)
  | None => Ok (schedule, available_slots)
  end.

(** The loop of [_schedule_assignments_for_day]. *)
Fixpoint assignments_loop (schedule : Schedule)
    (available_assignments : list Assignment) (date : datetime)
    (available_slots : list slot) : result (Schedule * list slot) :=
  match available_assignments with
  | [] => Ok (schedule, available_slots)
  | assignment :: rest =>
      if _can_schedule_assignment assignment date then
        '(schedule', slots') <-
          _schedule_single_assignment schedule assignment available_slots ;;
        assignments_loop schedule' rest date slots'
      else assignments_loop schedule rest date available_slots
  end.

Definition _schedule_assignments_for_day (c : SchedulingConstraints)
    (schedule : Schedule) (assignments : list Assignment) (date : datetime)
    : result Schedule :=
  let available_assignments :=
    filter (fun a => negb (is_completed a)) assignments in
  match available_assignments with
  | [] => Ok schedule
  | _ =>
      let available_slots :=
        get_available_slots schedule (min_study_session c)
          (c_start_time c) (c_end_time c) in
      match available_slots with
      | [] => Ok schedule
      | _ =>
          '(schedule', _) <-
            assignments_loop schedule available_assignments date
              available_slots ;;
          Ok schedule'
      end
  end.

Definition break_block_of (break_start : datetime) (break_duration : Z)
    : result TimeBlock :=
  TimeBlock_new break_start (break_start + minutes break_duration) BREAK
    "Break" (Some "Study break"%string) None None false 1 [].

(** The loop [for i in range(len(sorted_blocks) - 1)], which reads
    [sorted_blocks[i]] and [sorted_blocks[i + 1]]. *)
Fixpoint breaks_loop (break_duration : Z) (sorted_blocks : list TimeBlock)
    (schedule : Schedule) : result Schedule :=
  match sorted_blocks with
  | current_block :: ((next_block :: _) as rest) =>
      let time_between :=
        total_minutes (start_time next_block - end_time current_block) in
      if Qle_bool (inject_Z break_duration) time_between then
        break_block <- break_block_of (end_time current_block) break_duration ;;
        breaks_loop break_duration rest (fst (add_block schedule break_block))
      else breaks_loop break_duration rest schedule
  | _ => Ok schedule
  end.

Definition _add_breaks_and_optimize (c : SchedulingConstraints)
    (schedule : Schedule) : result Schedule :=
  let study_blocks := get_study_blocks schedule in
  if (Z.of_nat (List.length study_blocks) <? 2) then Ok schedule
  else
    let sorted_blocks := sorted_by start_time Z.ltb study_blocks in
    breaks_loop (break_duration c) sorted_blocks schedule.

(** The loop [for day in range(days_ahead)] of [create_schedule]. *)
Fixpoint days_loop (c : SchedulingConstraints)
    (sorted_assignments : list Assignment) (work_shifts : list WorkShift)
    (class_schedule : list TimeBlock) (n : nat) (current_date : datetime)
    : result (list Schedule) :=
  match n with
  | O => Ok []
  | S n' =>
      let schedule := Schedule_new current_date in
      schedule1 <-
        _add_fixed_blocks schedule class_schedule work_shifts current_date ;;
      schedule2 <-
        _schedule_assignments_for_day c schedule1 sorted_assignments
          current_date ;;
      schedule3 <- _add_breaks_and_optimize c schedule2 ;;
      schedules <-
        days_loop c sorted_assignments work_shifts class_schedule n'
          (current_date + days 1) ;;
      Ok (schedule3 :: schedules)
  end.

Definition create_schedule (c : SchedulingConstraints) (clock : nat -> datetime)
    (assignments : list Assignment) (work_shifts : list WorkShift)
    (class_schedule : list TimeBlock) (start_date : datetime)
    (days_ahead : Z) : result (list Schedule) :=
  let sorted_assignments := _sort_assignments_by_priority clock assignments in
  days_loop c sorted_assignments work_shifts class_schedule
    (Z.to_nat days_ahead) start_date.
(* ------------------------------------------------------------------ *)
(** ** Predicates of the specification *)

(** The invariant of a container: no two blocks at different positions
    overlap. *)
Definition NoOverlap (l : list TimeBlock) : Prop :=
  forall i j a b, i <> j -> nth_error l i = Some a -> nth_error l j = Some b ->
    overlaps_with a b = false.

Definition disjoint (a b : TimeBlock) : Prop := overlaps_with a b = false.

(** Spec-side metrics: the defining formulas, by structural recursion on the
    block list. *)
Definition minutes_of_type (ty : BlockType) (l : list TimeBlock) : Z :=
  fold_right
    (fun b acc =>
       if BlockType_eqb (block_type b) ty then duration_minutes b + acc
       else acc) 0 l.

Definition total_block_minutes (l : list TimeBlock) : Z :=
  fold_right (fun b acc => duration_minutes b + acc) 0 l.

(** The cached metrics of a container agree with the defining formulas. *)
Definition metrics_fresh (s : Schedule) : Prop :=
  total_study_time s = minutes_of_type STUDY (time_blocks s) /\
  total_break_time s = minutes_of_type BREAK (time_blocks s) /\
  (time_blocks s = [] -> (efficiency_score s == 0)%Q) /\
  (0 < total_block_minutes (time_blocks s) ->
   (efficiency_score s ==
    inject_Z (minutes_of_type STUDY (time_blocks s)) /
    inject_Z (total_block_minutes (time_blocks s)))%Q) /\
  (total_block_minutes (time_blocks s) <= 0 -> (efficiency_score s == 0)%Q).

(* ------------------------------------------------------------------ *)
(** ** Example inputs *)

Definition ex_task (i : Z) (nm : string) (due : option datetime)
    (p : Priority) (mins : Z) (done : bool) : Assignment :=
  mkAssignment i nm 101 "Calculus I" due None [] None HOMEWORK p mins 3
    false 0 done None None.

Definition ex_block (s e : datetime) (ty : BlockType) (fixed : bool)
    (ttl : string) : TimeBlock :=
  mkTimeBlock s e ty ttl None None None fixed 1 [].

Definition ex_shift (s e : datetime) : WorkShift :=
  mkWorkShift "shift1" s e "Cashier" None SCHEDULED None true 30.

(** A lecture 10:00-11:00 and a shift 18:00-20:00 on day 5; a task of 60
    minutes and one of 200 minutes; two days from day 5. *)
Definition ex_lecture : TimeBlock :=
  ex_block (at_ 5 10 0) (at_ 5 11 0) CLASS true "Lecture".

Definition ex_run : result (list Schedule) :=
  create_schedule default_constraints (fun _ => at_ 5 7 0)
    [ex_task 1 "Quiz prep" None MEDIUM 60 false;
     ex_task 2 "Essay" None MEDIUM 200 false]
    [ex_shift (at_ 5 18 0) (at_ 5 20 0)]
    [ex_lecture] (at_ 5 0 0) 2.

(* ------------------------------------------------------------------ *)
(** ** Predicates on sorted lists *)

(** Two keys that [ltb] does not separate. *)
Definition key_equiv {K : Type} (ltb : K -> K -> bool) (k1 k2 : K) : bool :=
  negb (ltb k1 k2) && negb (ltb k2 k1).

(** A list is in key order when no element has a key smaller than the key
    of an element before it. *)
Definition in_key_order {A K : Type} (key : A -> K) (ltb : K -> K -> bool)
    (l : list A) : Prop :=
  StronglySorted (fun a b => ltb (key b) (key a) = false) l.

(* ------------------------------------------------------------------ *)
(** ** The Slot Finder, spec side *)

(** A gap is long enough when it lasts at least the minimum duration. *)
Definition long_enough (min_duration : Z) (g : slot) : bool :=
  minutes min_duration <=? snd g - fst g.

(** The gaps of a walk whose cursor is the window start first and then
    the end of the block just passed: the cursor values are paired with
    the starts of the blocks that follow them and with the window end. *)
Definition gaps (min_duration : Z) (window_start window_end : datetime)
    (sorted_blocks : list TimeBlock) : list slot :=
  filter (long_enough min_duration)
    (combine (window_start :: map end_time sorted_blocks)
             (map start_time sorted_blocks ++ [window_end])).

(** The walk as the specification words it: the cursor is advanced to the
    end of a block but never moved earlier. *)
Fixpoint monotone_walk (min_duration : Z) (sorted_blocks : list TimeBlock)
    (cursor window_end : datetime) : list slot :=
  match sorted_blocks with
  | [] =>
      if long_enough min_duration (cursor, window_end)
      then [(cursor, window_end)] else []
  | b :: rest =>
      (if long_enough min_duration (cursor, start_time b)
       then [(cursor, start_time b)] else [])
      ++ monotone_walk min_duration rest (Z.max cursor (end_time b)) window_end
  end.

Definition slot_finder_spec (s : Schedule) (min_duration : Z)
    (start_t end_t : time) : list slot :=
  monotone_walk min_duration (sorted_by start_time Z.ltb (time_blocks s))
    (combine_date (date_of (date s)) start_t)
    (combine_date (date_of (date s)) end_t).

(** A day whose only block is a shift from 06:00 to 08:00. *)
Definition ex_early_shift_day : Schedule :=
  fst (add_block (Schedule_new (at_ 5 0 0))
         (ex_block (at_ 5 6 0) (at_ 5 8 0) WORK true "Work - Baker")).

(** A day whose only block is a shift from 08:00 to 10:00, across the
    start of the window 09:00-22:00. *)
Definition ex_straddling_day : Schedule :=
  fst (add_block (Schedule_new (at_ 5 0 0))
         (ex_block (at_ 5 8 0) (at_ 5 10 0) WORK true "Work - Baker")).

(** A task of 240 minutes. *)
Definition ex_task_240 : Assignment :=
  ex_task 3 "Project" None MEDIUM 240 false.

(** Day 5 of [ex_run] after the fixed blocks: lecture 10:00-11:00 and
    shift 18:00-20:00. *)
Definition ex_fixed_day : Schedule :=
  fst (add_block (fst (add_block (Schedule_new (at_ 5 0 0)) ex_lecture))
         (ex_block (at_ 5 18 0) (at_ 5 20 0) WORK true "Work - Cashier")).

(* ------------------------------------------------------------------ *)
(** ** The urgency score, spec side *)

Definition priority_weight (p : Priority) : Q :=
  match p with
  | LOW => 1%Q
  | MEDIUM => 2%Q
  | HIGH => 3%Q
  | URGENT => 4%Q
  end.

Definition time_multiplier (days_left : Z) : Q :=
  if days_left <=? 3 then 3%Q
  else if days_left <=? 7 then 2%Q
  else if days_left <=? 14 then (3 # 2)%Q
  else 1%Q.

(** The floor of [due - now] in days, clamped to be at least 0. *)
Definition days_until_due_spec (now due : datetime) : Z :=
  Z.max 0 ((due - now) / us_per_day).

Definition urgency_spec (now : datetime) (a : Assignment) : Q :=
  match due_date a with
  | None => 0%Q
  | Some due =>
      if days_until_due_spec now due =? 0 then 10%Q
      else (priority_weight (a_priority a)
            * time_multiplier (days_until_due_spec now due))%Q
  end.

(** A task due in two days and three hours, seen at 07:00 on day 5. *)
Definition ex_due_task : Assignment :=
  ex_task 7 "Lab report" (Some (at_ 7 10 0)) HIGH 120 false.

(* ------------------------------------------------------------------ *)
(** ** The Priority Ranker, spec side *)

(** The priority levels in increasing order: low, medium, high, urgent;
    [priority_rank] is the position of a level in this order. *)
Definition priority_rank (p : Priority) : nat :=
  match p with
  | LOW => 0%nat
  | MEDIUM => 1%nat
  | HIGH => 2%nat
  | URGENT => 3%nat
  end.

(** [p] is at most as high a level as [q]. *)
Definition priority_le (p q : Priority) : Prop :=
  (priority_rank p <= priority_rank q)%nat.

Definition Priority_eqb (p q : Priority) : bool :=
  match p, q with
  | LOW, LOW | MEDIUM, MEDIUM | HIGH, HIGH | URGENT, URGENT => true
  | _, _ => false
  end.

(** The order the ranking is to have between an earlier element, of
    urgency [ux] and priority [px], and a later element, of urgency [uy]
    and priority [py]: urgency does not increase, and at equal urgency the
    priority level does not increase. *)
Definition ranked_before (ux : Q) (px : Priority) (uy : Q) (py : Priority)
    : Prop :=
  (uy <= ux)%Q /\ ((ux == uy)%Q -> priority_le py px).

(** Same urgency score and same priority level. *)
Definition same_rank (u : Q) (p : Priority) (now : datetime)
    (a : Assignment) : bool :=
  Qeq_bool (urgency_score now a) u && Priority_eqb (a_priority a) p.

(** The urgency score that the key of a decorated task carries: the one
    computed when the key function was called for it. *)
Definition key_urgency (x : sort_key_t * Assignment) : Q :=
  (- fst (fst x))%Q.

Definition same_rank_keyed (u : Q) (p : Priority)
    (x : sort_key_t * Assignment) : bool :=
  Qeq_bool (key_urgency x) u && Priority_eqb (a_priority (snd x)) p.

(** Six tasks seen at 07:00 on day 5.  Three have no due date (urgency
    0); "C" is due in two days (medium, urgency 6), "D" in five days
    (high, urgency 6), "F" in two days (low, urgency 3). *)
Definition ex_rank_A : Assignment := ex_task 41 "A" None LOW 60 false.
Definition ex_rank_B : Assignment := ex_task 42 "B" None URGENT 60 false.
Definition ex_rank_C : Assignment :=
  ex_task 43 "C" (Some (at_ 7 10 0)) MEDIUM 60 false.
Definition ex_rank_D : Assignment :=
  ex_task 44 "D" (Some (at_ 10 10 0)) HIGH 60 false.
Definition ex_rank_E : Assignment := ex_task 45 "E" None URGENT 60 false.
Definition ex_rank_F : Assignment :=
  ex_task 46 "F" (Some (at_ 7 10 0)) LOW 60 false.

(* ------------------------------------------------------------------ *)
(** ** The Task Placer, spec side *)

(** The duration of a slot in minutes. *)
Definition slot_minutes (s : slot) : Q := total_minutes (snd s - fst s).

(** The slots the Placer considers: those at least as long as the time
    needed. *)
Definition candidates (time_needed : Z) (slots : list slot) : list slot :=
  filter (fun s => Qle_bool (inject_Z time_needed) (slot_minutes s)) slots.

(** [0.6 * fitScore + 0.4 * timeScore]. *)
Definition fit_score (time_needed : Z) (s : slot) : Q :=
  (1 - Qabs (slot_minutes s - inject_Z time_needed) / inject_Z time_needed)%Q.

Definition time_score (s : slot) : Q :=
  let hour := hour_of (fst s) in
  if (9 <=? hour) && (hour <? 12) then 1%Q
  else if (12 <=? hour) && (hour <? 17) then (8 # 10)%Q
  else if (17 <=? hour) && (hour <? 22) then (6 # 10)%Q
  else (2 # 10)%Q.

Definition score (time_needed : Z) (s : slot) : Q :=
  ((6 # 10) * fit_score time_needed s + (4 # 10) * time_score s)%Q.

(** The tasks the Placer skips on a day: completed, or due on an earlier
    calendar day. *)
Definition overdue_for (a : Assignment) (date : datetime) : bool :=
  match due_date a with
  | Some due => date_of due <? date_of date
  | None => false
  end.

Definition skipped_on (date : datetime) (a : Assignment) : bool :=
  is_completed a || overdue_for a date.

(** A block is the study block of task [a]: built by the Placer for [a],
    at some start. *)
Definition study_block_for (a : Assignment) (b : TimeBlock) : Prop :=
  exists start, study_block_of a start (total_time_needed a) = Ok b.

(** A task of 90 minutes and a day with the single free slot
    09:00-22:00. *)
Definition ex_task_90 : Assignment :=
  ex_task 1 "Quiz prep" None MEDIUM 90 false.

Definition ex_free_day_slots : list slot := [(at_ 5 9 0, at_ 5 22 0)].

Definition ex_two_slots : list slot :=
  [(at_ 5 9 0, at_ 5 11 0); (at_ 5 14 0, at_ 5 15 0)].

(** What one run of the Placer did with a task: nothing, or one block. *)
Definition placement (date : datetime) (a : Assignment)
    (ob : option TimeBlock) : Prop :=
  match ob with
  | None => True
  | Some b => _can_schedule_assignment a date = true /\ study_block_for a b
  end.

Definition placed_blocks (l : list (option TimeBlock)) : list TimeBlock :=
  flat_map (fun ob => match ob with Some b => [b] | None => [] end) l.

(** Constraints that differ from [c] in the maximal session length and in
    the buffer time only. *)
Definition with_session_limits (c : SchedulingConstraints)
    (max_session buffer : Z) : SchedulingConstraints :=
  mkSchedulingConstraints (c_start_time c) (c_end_time c) max_session
    (min_study_session c) (break_duration c) buffer (preferred_study_hours c).

(** The start, the end and the type of the blocks of a container. *)
Definition outline (s : Schedule) : list (datetime * datetime * BlockType) :=
  map (fun b => (start_time b, end_time b, block_type b)) (time_blocks s).

(** A completed task, a task due on day 4, and an open task of 60
    minutes, for day 5. *)
Definition ex_mixed_tasks : list Assignment :=
  [ex_task 11 "Done" None HIGH 60 true;
   ex_task 12 "Late" (Some (at_ 4 23 0)) URGENT 60 false;
   ex_task 13 "Open" None LOW 60 false].

(* ------------------------------------------------------------------ *)
(** ** The Break Inserter, spec side *)

(** The break block of [break_duration] minutes that starts at [start]. *)
Definition mk_break (start : datetime) (break_duration : Z) : TimeBlock :=
  mkTimeBlock start (start + minutes break_duration) BREAK "Break"
    (Some "Study break"%string) None None false 1 [].

(** One break for every adjacent pair of the sorted study blocks whose gap
    is at least the break duration, starting at the end of the first. *)
Fixpoint proposed_breaks (break_duration : Z) (sorted_blocks : list TimeBlock)
    : list TimeBlock :=
  match sorted_blocks with
  | x :: ((y :: _) as rest) =>
      (if minutes break_duration <=? start_time y - end_time x
       then [mk_break (end_time x) break_duration] else [])
      ++ proposed_breaks break_duration rest
  | _ => []
  end.

(** Day 5 of [ex_run] after the fixed blocks and the placement: study
    09:00-10:00, lecture 10:00-11:00, study 11:00-14:20, shift
    18:00-20:00. *)
Definition ex_placed_day : result Schedule :=
  s1 <- _add_fixed_blocks (Schedule_new (at_ 5 0 0)) [ex_lecture]
          [ex_shift (at_ 5 18 0) (at_ 5 20 0)] (at_ 5 0 0) ;;
  _schedule_assignments_for_day default_constraints s1
    [ex_task 1 "Quiz prep" None MEDIUM 60 false;
     ex_task 2 "Essay" None MEDIUM 200 false] (at_ 5 0 0).

(** A day with the study blocks 09:00-10:30 and 11:00-12:00. *)
Definition ex_two_study_day : Schedule :=
  fst (add_block
         (fst (add_block (Schedule_new (at_ 5 0 0))
                 (ex_block (at_ 5 9 0) (at_ 5 10 30) STUDY false "Study: A")))
         (ex_block (at_ 5 11 0) (at_ 5 12 0) STUDY false "Study: B")).

(* ------------------------------------------------------------------ *)
(** ** The Fixed-Block Installer, spec side *)

Definition on_date (date t : datetime) : bool := date_of t =? date_of date.

(** The block made of a shift. *)
Definition work_block (w : WorkShift) : TimeBlock :=
  mkTimeBlock (ws_start_time w) (ws_end_time w) WORK
    ("Work - " ++ role w)%string None None None true 1 [].

(** What the container does with a block offered to it. *)
Definition accept (blocks : list TimeBlock) (b : TimeBlock) : list TimeBlock :=
  if can_add_loop b blocks then blocks ++ [b] else blocks.

(** The blocks offered for a date, in the order they are offered. *)
Definition todays_fixed (class_schedule : list TimeBlock)
    (work_shifts : list WorkShift) (date : datetime) : list TimeBlock :=
  filter (fun b => on_date date (start_time b)) class_schedule ++
  map work_block (filter (fun w => on_date date (ws_start_time w)) work_shifts).

(** A class block handed in with the fixed flag off, and one that
    overlaps the lecture. *)
Definition ex_seminar : TimeBlock :=
  ex_block (at_ 5 13 0) (at_ 5 14 0) CLASS false "Seminar".

Definition ex_clash : TimeBlock :=
  ex_block (at_ 5 10 30) (at_ 5 12 0) CLASS true "Tutorial".

(* ------------------------------------------------------------------ *)
(** ** Free slots against the blocks of a container *)

(** A slot is clear of a block when the block ends by the start of the
    slot or starts at or after its end. *)
Definition slot_clear (g : slot) (y : TimeBlock) : Prop :=
  end_time y <= fst g \/ snd g <= start_time y.

(** The state the Placer works on: free slots in chronological order, each
    ending before the next starts, and each clear of every block. *)
Definition slots_ok (blocks : list TimeBlock) (slots : list slot) : Prop :=
  StronglySorted (fun a b : slot => snd a < fst b) slots /\
  Forall (fun g => forall y, In y blocks -> slot_clear g y) slots.

(** A task with no time needed, and one with a negative estimate. *)
Definition ex_task_zero : Assignment :=
  ex_task 21 "Empty" None MEDIUM 0 false.

Definition ex_task_negative : Assignment :=
  ex_task 22 "Negative" None MEDIUM (-30) false.

(* ------------------------------------------------------------------ *)
(** ** The days of a run *)

(** The dates of [n] consecutive days from [start_date]. *)
Definition run_dates (start_date : datetime) (n : nat) : list datetime :=
  map (fun i => start_date + days (Z.of_nat i)) (seq 0 n).

(** Where a block of a day's schedule comes from: a class block handed in
    that starts on the day, the work block of a shift that starts on the
    day, the study block of a task that is open and not due on an earlier
    day, or a break of the configured length. *)
Definition block_origin (c : SchedulingConstraints)
    (assignments : list Assignment) (work_shifts : list WorkShift)
    (class_schedule : list TimeBlock) (date : datetime) (b : TimeBlock)
    : Prop :=
  (In b class_schedule /\ on_date date (start_time b) = true) \/
  (exists w, In w work_shifts /\ on_date date (ws_start_time w) = true /\
             b = work_block w) \/
  (exists a, In a assignments /\ skipped_on date a = false /\
             study_block_for a b) \/
  (exists start, b = mk_break start (break_duration c)).

(** A task due at 10:00 on day 5. *)
Definition ex_due_morning : Assignment :=
  ex_task 31 "Reading" (Some (at_ 5 10 0)) MEDIUM 60 false.

(* ------------------------------------------------------------------ *)
(** * Properties *)

(** ** Comparison of rationals *)

Lemma Qlt_bool_iff (a b : Q) : Qlt_bool a b = true <-> (a < b)%Q.
Proof.
  unfold Qlt_bool. rewrite negb_true_iff. split.
  - intro H. apply Qnot_le_lt. intro Hle.
    apply Qle_bool_iff in Hle. congruence.
  - intro H. destruct (Qle_bool b a) eqn:E; [|reflexivity].
    apply Qle_bool_iff in E. exfalso. exact (Qlt_not_le _ _ H E).
Qed.

Lemma Qlt_bool_false_iff (a b : Q) : Qlt_bool a b = false <-> (b <= a)%Q.
Proof.
  unfold Qlt_bool. rewrite negb_false_iff. apply Qle_bool_iff.
Qed.


(** ** The result monad *)

Lemma bind_Ok_inv {A B : Type} (m : result A) (k : A -> result B) (b : B) :
  bind m k = Ok b -> exists a, m = Ok a /\ k a = Ok b.
Proof.
  destruct m as [a|e]; simpl; intro H; [eauto | discriminate].
Qed.

Ltac inv_bind H :=
  let a := fresh "a" in
  let Ha := fresh "Ha" in
  apply bind_Ok_inv in H; destruct H as [a [Ha H]].

(** ** Overlap *)

Lemma overlaps_with_sym (a b : TimeBlock) :
  overlaps_with a b = overlaps_with b a.
Proof.
  unfold overlaps_with. rewrite !Z.gtb_ltb. apply andb_comm.
Qed.

Lemma overlaps_with_false (a b : TimeBlock) :
  overlaps_with a b = false <->
  end_time b <= start_time a \/ end_time a <= start_time b.
Proof.
  unfold overlaps_with. rewrite Z.gtb_ltb, andb_false_iff, !Z.ltb_ge. tauto.
Qed.

(** Touching endpoints are no overlap. *)
Lemma overlaps_with_touching (a b : TimeBlock) :
  end_time a = start_time b -> overlaps_with a b = false.
Proof.
  intro H. apply overlaps_with_false. right. lia.
Qed.

Lemma NoOverlap_pairs (l : list TimeBlock) :
  NoOverlap l <-> ForallOrdPairs disjoint l.
Proof.
  split.
  - induction l as [|x l IH]; intro H; constructor.
    + apply Forall_forall. intros y Hy.
      apply In_nth_error in Hy. destruct Hy as [n Hn].
      apply (H O (S n) x y); [discriminate | reflexivity | exact Hn].
    + apply IH. intros i j a b Hij Ha Hb.
      apply (H (S i) (S j) a b); [congruence | exact Ha | exact Hb].
  - induction 1 as [|x l Hx Hl IH]; intros i j a b Hij Ha Hb.
    + destruct i; discriminate.
    + rewrite Forall_forall in Hx.
      destruct i as [|i], j as [|j]; simpl in Ha, Hb.
      * congruence.
      * injection Ha as <-. apply Hx. eapply nth_error_In; eauto.
      * injection Hb as <-. rewrite overlaps_with_sym. apply Hx.
        eapply nth_error_In; eauto.
      * apply (IH i j a b); [congruence | exact Ha | exact Hb].
Qed.

Lemma ForallOrdPairs_snoc {A : Type} (R : A -> A -> Prop) (l : list A) (x : A) :
  ForallOrdPairs R l -> Forall (fun y => R y x) l ->
  ForallOrdPairs R (l ++ [x]).
Proof.
  induction 1 as [|y l Hy Hl IH]; intro HF; simpl.
  - constructor; constructor.
  - inversion HF; subst. constructor.
    + apply Forall_app. split; [exact Hy | constructor; [assumption | constructor]].
    + apply IH. assumption.
Qed.

Lemma can_add_loop_true (b : TimeBlock) (l : list TimeBlock) :
  can_add_loop b l = true <-> Forall (fun y => overlaps_with b y = false) l.
Proof.
  induction l as [|y l IH]; simpl.
  - split; [constructor | reflexivity].
  - destruct (overlaps_with b y) eqn:E.
    + split; [discriminate | intro H; inversion H; congruence].
    + rewrite IH. split; [intro H; constructor; assumption
                         | intro H; inversion H; assumption].
Qed.

Lemma can_add_loop_false (b : TimeBlock) (l : list TimeBlock) :
  can_add_loop b l = false <-> exists y, In y l /\ overlaps_with b y = true.
Proof.
  induction l as [|y l IH]; simpl.
  - split; [discriminate | intros [y [[] _]]].
  - destruct (overlaps_with b y) eqn:E.
    + split; [intros _; exists y; auto | reflexivity].
    + rewrite IH. split.
      * intros [z [Hz Ho]]. exists z. auto.
      * intros [z [[->|Hz] Ho]]; [congruence | exists z; auto].
Qed.

Lemma NoOverlap_snoc (l : list TimeBlock) (b : TimeBlock) :
  NoOverlap l -> can_add_loop b l = true -> NoOverlap (l ++ [b]).
Proof.
  rewrite !NoOverlap_pairs, can_add_loop_true. intros Hl Hb.
  apply ForallOrdPairs_snoc; [exact Hl|].
  eapply Forall_impl; [|exact Hb]. intros y Hy. unfold disjoint.
  rewrite overlaps_with_sym. exact Hy.
Qed.

(** ** [add_block] and [remove_block] on the block list *)

Lemma time_blocks_update_metrics (s : Schedule) :
  time_blocks (_update_metrics s) = time_blocks s.
Proof. reflexivity. Qed.

Lemma date_update_metrics (s : Schedule) : date (_update_metrics s) = date s.
Proof. reflexivity. Qed.

Lemma add_block_blocks (s : Schedule) (b : TimeBlock) :
  time_blocks (fst (add_block s b)) =
  if can_add_loop b (time_blocks s) then time_blocks s ++ [b]
  else time_blocks s.
Proof.
  unfold add_block, _can_add_block.
  destruct (can_add_loop b (time_blocks s)); reflexivity.
Qed.

Lemma add_block_flag (s : Schedule) (b : TimeBlock) :
  snd (add_block s b) = can_add_loop b (time_blocks s).
Proof.
  unfold add_block, _can_add_block.
  destruct (can_add_loop b (time_blocks s)); reflexivity.
Qed.

Lemma add_block_date (s : Schedule) (b : TimeBlock) :
  date (fst (add_block s b)) = date s.
Proof.
  unfold add_block. destruct (_can_add_block s b); reflexivity.
Qed.

Lemma add_block_NoOverlap (s : Schedule) (b : TimeBlock) :
  NoOverlap (time_blocks s) -> NoOverlap (time_blocks (fst (add_block s b))).
Proof.
  intro H. rewrite add_block_blocks.
  destruct (can_add_loop b (time_blocks s)) eqn:E; [|exact H].
  apply NoOverlap_snoc; assumption.
Qed.

Lemma add_block_refuses (s : Schedule) (b y : TimeBlock) :
  In y (time_blocks s) -> overlaps_with b y = true -> add_block s b = (s, false).
Proof.
  intros Hy Ho. unfold add_block, _can_add_block.
  replace (can_add_loop b (time_blocks s)) with false; [reflexivity|].
  symmetry. apply can_add_loop_false. eauto.
Qed.

(** ** Invariants through the phases of a scheduling run

    Every phase changes a container through [add_block] only, and every
    block it builds itself comes from the validating constructor.  So a
    property [P] of containers that [add_block] keeps for the blocks that
    satisfy [B] holds of every container of a run, when the constructor
    yields blocks in [B] and the class blocks handed in are in [B]. *)

Lemma TimeBlock_new_valid s e ty ttl descr aid cid fixed prio tgs b :
  TimeBlock_new s e ty ttl descr aid cid fixed prio tgs = Ok b ->
  valid_block b.
Proof.
  unfold TimeBlock_new, valid_block. destruct (e <=? s) eqn:E; [discriminate|].
  intro H. injection H as <-. simpl. apply Z.leb_gt. exact E.
Qed.

Section PhaseInvariant.
Variable P : Schedule -> Prop.
Variable B : TimeBlock -> Prop.
Hypothesis P_add : forall s b, B b -> P s -> P (fst (add_block s b)).
Hypothesis B_valid : forall b, valid_block b -> B b.

Lemma add_class_blocks_inv (cs : list TimeBlock) (d : datetime) :
  Forall B cs -> forall s, P s -> P (add_class_blocks s cs d).
Proof.
  induction 1 as [|b cs Hb Hcs IH]; intros s H; simpl; [exact H|].
  destruct (date_of (start_time b) =? date_of d); apply IH; auto.
Qed.

Lemma add_work_blocks_inv (ws : list WorkShift) (d : datetime) :
  forall s s', add_work_blocks s ws d = Ok s' -> P s -> P s'.
Proof.
  induction ws as [|w ws IH]; intros s s' E H; simpl in E.
  - injection E as <-. exact H.
  - destruct (date_of (ws_date w) =? date_of d).
    + inv_bind E. eapply IH; [exact E|]. apply P_add; [|exact H].
      apply B_valid. eapply TimeBlock_new_valid. exact Ha.
    + eapply IH; eauto.
Qed.

Lemma add_fixed_blocks_inv s cs ws d s' :
  Forall B cs -> _add_fixed_blocks s cs ws d = Ok s' -> P s -> P s'.
Proof.
  unfold _add_fixed_blocks. intros Hcs E H.
  eapply add_work_blocks_inv; [exact E|].
  apply add_class_blocks_inv; assumption.
Qed.

Lemma schedule_single_inv s a sl s' sl' :
  _schedule_single_assignment s a sl = Ok (s', sl') -> P s -> P s'.
Proof.
  unfold _schedule_single_assignment. intros E H.
  inv_bind E. destruct a0 as [best|].
  - inv_bind E.
    assert (H' : P (fst (add_block s a0))).
    { apply P_add; [|exact H]. apply B_valid.
      eapply TimeBlock_new_valid. exact Ha0. }
    destruct (add_block s a0) as [s1 added]. simpl in H'.
    destruct added.
    + inv_bind E. injection E as <- _. exact H'.
    + injection E as <- _. exact H'.
  - injection E as <- _. exact H.
Qed.

Lemma assignments_loop_inv (l : list Assignment) (d : datetime) :
  forall s sl s' sl',
    assignments_loop s l d sl = Ok (s', sl') -> P s -> P s'.
Proof.
  induction l as [|a l IH]; intros s sl s' sl' E H; simpl in E.
  - injection E as <- _. exact H.
  - destruct (_can_schedule_assignment a d).
    + inv_bind E. destruct a0 as [s1 sl1].
      eapply IH; [exact E|]. eapply schedule_single_inv; eauto.
    + eapply IH; eauto.
Qed.

Lemma schedule_for_day_inv c s l d s' :
  _schedule_assignments_for_day c s l d = Ok s' -> P s -> P s'.
Proof.
  unfold _schedule_assignments_for_day. intros E H.
  destruct (filter _ l) as [|a av]; [injection E as <-; exact H|].
  destruct (get_available_slots _ _ _ _) as [|x sl];
    [injection E as <-; exact H|].
  inv_bind E. destruct a0 as [s1 sl1]. injection E as <-.
  eapply assignments_loop_inv; eauto.
Qed.

Lemma breaks_loop_inv (bd : Z) (l : list TimeBlock) :
  forall s s', breaks_loop bd l s = Ok s' -> P s -> P s'.
Proof.
  induction l as [|x l IH]; intros s s' E H; [injection E as <-; exact H|].
  destruct l as [|y l]; [injection E as <-; exact H|].
  cbn [breaks_loop] in E.
  destruct (Qle_bool _ _).
  - inv_bind E. eapply IH; [exact E|]. apply P_add; [|exact H].
    apply B_valid. eapply TimeBlock_new_valid. exact Ha.
  - eapply IH; eauto.
Qed.

Lemma add_breaks_inv c s s' :
  _add_breaks_and_optimize c s = Ok s' -> P s -> P s'.
Proof.
  unfold _add_breaks_and_optimize. intros E H.
  destruct (_ <? 2); [injection E as <-; exact H|].
  eapply breaks_loop_inv; eauto.
Qed.

Hypothesis P_new : forall d, P (Schedule_new d).

Lemma days_loop_inv c sorted ws cs (n : nat) :
  Forall B cs ->
  forall d schedules,
    days_loop c sorted ws cs n d = Ok schedules -> Forall P schedules.
Proof.
  intro Hcs.
  induction n as [|n IH]; intros d schedules E; simpl in E.
  - injection E as <-. constructor.
  - inv_bind E. rename a into s1, Ha into E1.
    inv_bind E. rename a into s2, Ha into E2.
    inv_bind E. rename a into s3, Ha into E3.
    inv_bind E. injection E as <-. constructor; [|eapply IH; eauto].
    eapply add_breaks_inv; [exact E3|].
    eapply schedule_for_day_inv; [exact E2|].
    eapply add_fixed_blocks_inv; [exact Hcs | exact E1 | apply P_new].
Qed.

Lemma create_schedule_inv c clock assignments ws cs start_date days_ahead
    schedules :
  Forall B cs ->
  create_schedule c clock assignments ws cs start_date days_ahead
    = Ok schedules ->
  Forall P schedules.
Proof.
  unfold create_schedule. intros Hcs E. eapply days_loop_inv; eauto.
Qed.
End PhaseInvariant.

Lemma NoOverlap_nil : NoOverlap [].
Proof. intros [|i] j a b _ Ha; discriminate. Qed.

Lemma Forall_True {A : Type} (l : list A) : Forall (fun _ => True) l.
Proof. induction l; constructor; auto. Qed.

(** C1. [add_block] keeps the blocks of a container pairwise
    non-overlapping, whatever the block and the container: a block that
    overlaps a contained block is refused and leaves the container as it
    was, where two blocks overlap when each starts strictly before the other
    ends.  Hence every daily schedule that [create_schedule] returns has no
    two overlapping blocks. *)
Theorem C1_no_overlap :
  (forall s b, NoOverlap (time_blocks s) ->
               NoOverlap (time_blocks (fst (add_block s b)))) /\
  (forall s b y, In y (time_blocks s) -> overlaps_with b y = true ->
                 add_block s b = (s, false)) /\
  (forall a b, overlaps_with a b = true <->
               start_time a < end_time b /\ start_time b < end_time a) /\
  (forall c clock assignments work_shifts class_schedule start_date days_ahead
          schedules,
      create_schedule c clock assignments work_shifts class_schedule
        start_date days_ahead = Ok schedules ->
      Forall (fun s => NoOverlap (time_blocks s)) schedules).
Proof.
  split; [exact add_block_NoOverlap|].
  split; [exact add_block_refuses|].
  split.
  - intros a b. unfold overlaps_with.
    rewrite andb_true_iff, Z.gtb_ltb, !Z.ltb_lt. tauto.
  - intros c clock assignments work_shifts class_schedule start_date
      days_ahead schedules E.
    eapply (create_schedule_inv (fun s => NoOverlap (time_blocks s))
              (fun _ => True)); [| | | | exact E].
    + intros s b _. apply add_block_NoOverlap.
    + trivial.
    + intro d. apply NoOverlap_nil.
    + apply Forall_True.
Qed.

Lemma C1_no_overlap_witness :
  exists schedules,
    ex_run = Ok schedules /\
    List.length schedules = 2%nat /\
    Forall (fun s => NoOverlap (time_blocks s)) schedules.
Proof.
  eexists. split; [vm_compute; reflexivity|]. split; [reflexivity|].
  apply (proj2 (proj2 (proj2 C1_no_overlap))
           default_constraints (fun _ => at_ 5 7 0)
           [ex_task 1 "Quiz prep" None MEDIUM 60 false;
            ex_task 2 "Essay" None MEDIUM 200 false]
           [ex_shift (at_ 5 18 0) (at_ 5 20 0)]
           [ex_lecture] (at_ 5 0 0) 2).
  vm_compute. reflexivity.
Defined.

(** ** Metrics *)

Lemma fold_left_durations (l : list TimeBlock) (a : Z) :
  fold_left (fun acc b => acc + duration_minutes b) l a =
  a + total_block_minutes l.
Proof.
  revert a. induction l as [|b l IH]; intro a; simpl; [lia|].
  rewrite IH. lia.
Qed.

Lemma sum_durations_total (l : list TimeBlock) :
  sum_durations l = total_block_minutes l.
Proof. unfold sum_durations. rewrite fold_left_durations. lia. Qed.

Lemma sum_durations_filter (ty : BlockType) (l : list TimeBlock) :
  sum_durations (filter (fun b => BlockType_eqb (block_type b) ty) l) =
  minutes_of_type ty l.
Proof.
  rewrite sum_durations_total.
  induction l as [|b l IH]; simpl; [reflexivity|].
  destruct (BlockType_eqb (block_type b) ty); simpl; rewrite IH; reflexivity.
Qed.

Lemma update_metrics_fresh (s : Schedule) : metrics_fresh (_update_metrics s).
Proof.
  unfold metrics_fresh, _update_metrics. simpl.
  rewrite !sum_durations_filter, sum_durations_total.
  split; [reflexivity|]. split; [reflexivity|].
  split; [|split].
  - intros ->. simpl. reflexivity.
  - intro H. apply Z.gtb_lt in H. rewrite H. reflexivity.
  - intro H. destruct (total_block_minutes (time_blocks s) >? 0) eqn:E.
    + apply Z.gtb_lt in E. lia.
    + reflexivity.
Qed.

Lemma add_block_fresh (s : Schedule) (b : TimeBlock) :
  metrics_fresh s -> metrics_fresh (fst (add_block s b)).
Proof.
  intro H. unfold add_block. destruct (_can_add_block s b); simpl;
    [apply update_metrics_fresh | exact H].
Qed.

Lemma remove_block_fresh (s : Schedule) (i : Z) :
  metrics_fresh s -> metrics_fresh (fst (remove_block s i)).
Proof.
  intro H. unfold remove_block. destruct (_ && _); simpl;
    [apply update_metrics_fresh | exact H].
Qed.

Lemma duration_minutes_nonneg (b : TimeBlock) :
  valid_block b -> 0 <= duration_minutes b.
Proof.
  unfold valid_block, duration_minutes. intro H.
  apply Z.quot_pos; [lia | reflexivity].
Qed.

Lemma minutes_of_type_bounds (ty : BlockType) (l : list TimeBlock) :
  Forall valid_block l ->
  0 <= minutes_of_type ty l <= total_block_minutes l.
Proof.
  induction 1 as [|b l Hb Hl IH]; simpl; [lia|].
  pose proof (duration_minutes_nonneg b Hb).
  destruct (BlockType_eqb (block_type b) ty); lia.
Qed.

Lemma efficiency_bounds (s : Schedule) :
  metrics_fresh s -> Forall valid_block (time_blocks s) ->
  (0 <= efficiency_score s /\ efficiency_score s <= 1)%Q.
Proof.
  intros (_ & _ & _ & Hpos & Hzero) Hv.
  pose proof (minutes_of_type_bounds STUDY _ Hv) as [Hs Ht].
  destruct (Z_lt_le_dec 0 (total_block_minutes (time_blocks s))) as [Hlt|Hle].
  - rewrite (Hpos Hlt).
    assert (Hq : (0 < inject_Z (total_block_minutes (time_blocks s)))%Q).
    { change 0%Q with (inject_Z 0). rewrite <- Zlt_Qlt. exact Hlt. }
    split.
    + apply Qle_shift_div_l; [exact Hq|]. rewrite Qmult_0_l.
      change 0%Q with (inject_Z 0). rewrite <- Zle_Qle. exact Hs.
    + apply Qle_shift_div_r; [exact Hq|]. rewrite Qmult_1_l.
      rewrite <- Zle_Qle. exact Ht.
  - rewrite (Hzero Hle). split; discriminate.
Qed.

Lemma add_block_valid (s : Schedule) (b : TimeBlock) :
  valid_block b -> Forall valid_block (time_blocks s) ->
  Forall valid_block (time_blocks (fst (add_block s b))).
Proof.
  intros Hb Hs. rewrite add_block_blocks.
  destruct (can_add_loop b (time_blocks s)); [|exact Hs].
  apply Forall_app. split; [exact Hs | constructor; [exact Hb | constructor]].
Qed.

Lemma Schedule_new_fresh (d : datetime) : metrics_fresh (Schedule_new d).
Proof.
  unfold metrics_fresh, Schedule_new. simpl.
  repeat split; intros; reflexivity.
Qed.

(** C5. A successful [add_block] or [remove_block] leaves the cached
    metrics equal to their defining formulas (study minutes, break minutes,
    and efficiency = study minutes / minutes of all blocks, 0 for a day
    without blocks); a refused one leaves a fresh cache fresh, and a new
    container has a fresh cache.  When the blocks are valid (end after
    start, as the constructor enforces) the efficiency lies in [0, 1], and
    it is 0 for an empty day.  All of this holds of every daily schedule
    that [create_schedule] returns. *)
Theorem C5_metrics :
  (forall s b, snd (add_block s b) = true ->
               metrics_fresh (fst (add_block s b))) /\
  (forall s i, snd (remove_block s i) = true ->
               metrics_fresh (fst (remove_block s i))) /\
  (forall s b, metrics_fresh s -> metrics_fresh (fst (add_block s b))) /\
  (forall s i, metrics_fresh s -> metrics_fresh (fst (remove_block s i))) /\
  (forall d, metrics_fresh (Schedule_new d)) /\
  (forall s, metrics_fresh s -> Forall valid_block (time_blocks s) ->
             (0 <= efficiency_score s /\ efficiency_score s <= 1)%Q) /\
  (forall s, metrics_fresh s -> time_blocks s = [] ->
             (efficiency_score s == 0)%Q) /\
  (forall c clock assignments work_shifts class_schedule start_date days_ahead
          schedules,
      Forall valid_block class_schedule ->
      create_schedule c clock assignments work_shifts class_schedule
        start_date days_ahead = Ok schedules ->
      Forall (fun s => metrics_fresh s /\
                       (0 <= efficiency_score s /\ efficiency_score s <= 1)%Q)
        schedules).
Proof.
  split; [|split; [|split; [|split; [|split; [|split; [|split]]]]]].
  - intros s b. unfold add_block. destruct (_can_add_block s b); simpl;
      [intros _; apply update_metrics_fresh | discriminate].
  - intros s i. unfold remove_block. destruct (_ && _); simpl;
      [intros _; apply update_metrics_fresh | discriminate].
  - exact add_block_fresh.
  - exact remove_block_fresh.
  - exact Schedule_new_fresh.
  - exact efficiency_bounds.
  - intros s (_ & _ & H & _). exact H.
  - intros c clock assignments work_shifts class_schedule start_date
      days_ahead schedules Hcs E.
    pose proof (create_schedule_inv
      (fun s => metrics_fresh s /\ Forall valid_block (time_blocks s))
      valid_block) as Hinv.
    eapply Forall_impl;
      [| eapply Hinv; [| | | exact Hcs | exact E]].
    + intros s [Hf Hv]. split; [exact Hf | apply efficiency_bounds; assumption].
    + intros s b Hb [Hf Hv].
      split; [apply add_block_fresh | apply add_block_valid]; assumption.
    + trivial.
    + intro d. split; [apply Schedule_new_fresh | constructor].
Qed.

Lemma C5_metrics_witness :
  let s := fst (add_block (Schedule_new (at_ 5 0 0)) ex_lecture) in
  snd (add_block (Schedule_new (at_ 5 0 0)) ex_lecture) = true /\
  Forall valid_block (time_blocks s) /\
  metrics_fresh s /\
  (0 <= efficiency_score s /\ efficiency_score s <= 1)%Q.
Proof.
  intro s.
  assert (Hflag : snd (add_block (Schedule_new (at_ 5 0 0)) ex_lecture) = true)
    by reflexivity.
  assert (Hv : Forall valid_block (time_blocks s)).
  { repeat constructor. }
  pose proof (proj1 C5_metrics (Schedule_new (at_ 5 0 0)) ex_lecture Hflag)
    as Hf.
  split; [exact Hflag|]. split; [exact Hv|]. split; [exact Hf|].
  exact (proj1 (proj2 (proj2 (proj2 (proj2 (proj2 C5_metrics))))) s Hf Hv).
Defined.

(** ** Python's [sorted]: permutation, order, stability *)

Section StableSortFacts.
Context {A K : Type}.
Variable key : A -> K.
Variable ltb : K -> K -> bool.

Lemma insert_by_perm (x : A) (l : list A) :
  Permutation (x :: l) (insert_by key ltb x l).
Proof.
  induction l as [|y t IH]; simpl; [reflexivity|].
  destruct (ltb (key y) (key x)); [|reflexivity].
  rewrite perm_swap. constructor. exact IH.
Qed.

Lemma sorted_by_perm (l : list A) : Permutation l (sorted_by key ltb l).
Proof.
  induction l as [|x l IH]; simpl; [constructor|].
  rewrite <- insert_by_perm. constructor. exact IH.
Qed.

Lemma sorted_by_length (l : list A) :
  List.length (sorted_by key ltb l) = List.length l.
Proof. symmetry. apply Permutation_length, sorted_by_perm. Qed.

Lemma sorted_by_In (x : A) (l : list A) :
  In x (sorted_by key ltb l) <-> In x l.
Proof.
  split; apply Permutation_in;
    [symmetry|]; apply sorted_by_perm.
Qed.

Hypothesis ltb_asym : forall a b, ltb a b = true -> ltb b a = false.
Hypothesis ltb_negtrans :
  forall a b c, ltb a b = false -> ltb b c = false -> ltb a c = false.

Lemma insert_by_order (x : A) (l : list A) :
  in_key_order key ltb l -> in_key_order key ltb (insert_by key ltb x l).
Proof.
  unfold in_key_order.
  induction 1 as [|y t Ht IH Hy]; simpl.
  - constructor; constructor.
  - destruct (ltb (key y) (key x)) eqn:E.
    + constructor; [exact IH|].
      eapply Permutation_Forall; [apply insert_by_perm|].
      constructor; [apply ltb_asym; exact E | exact Hy].
    + constructor; [constructor; assumption|].
      constructor; [exact E|].
      eapply Forall_impl; [|exact Hy]. intros z Hz. simpl in Hz.
      eapply ltb_negtrans; eassumption.
Qed.

Lemma sorted_by_order (l : list A) : in_key_order key ltb (sorted_by key ltb l).
Proof.
  induction l as [|x l IH]; simpl; [constructor|].
  apply insert_by_order, IH.
Qed.

Lemma insert_by_filter (k : K) (x : A) (l : list A) :
  filter (fun a => key_equiv ltb k (key a)) (insert_by key ltb x l) =
  filter (fun a => key_equiv ltb k (key a)) (x :: l).
Proof.
  induction l as [|y t IH]; [reflexivity|].
  cbn [insert_by]. destruct (ltb (key y) (key x)) eqn:E; [|reflexivity].
  cbn [filter] in *. rewrite IH.
  destruct (key_equiv ltb k (key x)) eqn:Ex; [|reflexivity].
  destruct (key_equiv ltb k (key y)) eqn:Ey; [|reflexivity].
  exfalso. unfold key_equiv in Ex, Ey.
  apply andb_true_iff in Ex, Ey.
  rewrite !negb_true_iff in Ex, Ey.
  destruct Ex as [Ex _], Ey as [_ Ey].
  rewrite (ltb_negtrans _ _ _ Ey Ex) in E. discriminate.
Qed.

(** Stability: the elements of any one key class keep the order they
    have in the input. *)
Lemma sorted_by_stable (k : K) (l : list A) :
  filter (fun a => key_equiv ltb k (key a)) (sorted_by key ltb l) =
  filter (fun a => key_equiv ltb k (key a)) l.
Proof.
  induction l as [|x l IH]; [reflexivity|].
  cbn [sorted_by fold_right]. rewrite insert_by_filter.
  cbn [filter]. fold (sorted_by key ltb l). rewrite IH. reflexivity.
Qed.
End StableSortFacts.

Lemma Zltb_asym (a b : Z) : (a <? b) = true -> (b <? a) = false.
Proof. rewrite Z.ltb_lt, Z.ltb_ge. lia. Qed.

Lemma Zltb_negtrans (a b c : Z) :
  (a <? b) = false -> (b <? c) = false -> (a <? c) = false.
Proof. rewrite !Z.ltb_ge. lia. Qed.

Lemma sorted_by_start_order (l : list TimeBlock) :
  StronglySorted (fun a b => start_time a <= start_time b)
    (sorted_by start_time Z.ltb l).
Proof.
  pose proof (sorted_by_order start_time Z.ltb Zltb_asym Zltb_negtrans l) as H.
  unfold in_key_order in H.
  induction H as [|x t Ht IH Hx]; constructor; [exact IH|].
  eapply Forall_impl; [|exact Hx]. intros y Hy. simpl in Hy.
  apply Z.ltb_ge in Hy. exact Hy.
Qed.

(** ** The Slot Finder *)

Lemma geb_minutes (x d : Z) :
  (x >=? d * 60 * us_per_second) = (minutes d <=? x).
Proof.
  rewrite Z.geb_leb. unfold minutes, us_per_minute.
  rewrite Z.mul_assoc. reflexivity.
Qed.

Lemma last_cons {A : Type} (l : list A) :
  forall x d, last (x :: l) d = last l x.
Proof.
  induction l as [|y l IH]; intros x d; [reflexivity|].
  change (last (x :: y :: l) d) with (last (y :: l) d).
  rewrite !IH. reflexivity.
Qed.

Lemma slots_loop_cursor (d : Z) (l : list TimeBlock) :
  forall cur acc, fst (slots_loop d l cur acc) = last (map end_time l) cur.
Proof.
  induction l as [|b l IH]; intros cur acc; [reflexivity|].
  cbn [slots_loop map]. rewrite IH, last_cons. reflexivity.
Qed.

Lemma gaps_nil (d : Z) (cur E : datetime) :
  gaps d cur E [] = if minutes d <=? E - cur then [(cur, E)] else [].
Proof. reflexivity. Qed.

Lemma gaps_cons (d : Z) (cur E : datetime) (b : TimeBlock)
    (l : list TimeBlock) :
  gaps d cur E (b :: l) =
  (if minutes d <=? start_time b - cur then [(cur, start_time b)] else [])
  ++ gaps d (end_time b) E l.
Proof.
  unfold gaps. change (map end_time (b :: l)) with (end_time b :: map end_time l).
  change (map start_time (b :: l) ++ [E])
    with (start_time b :: (map start_time l ++ [E])).
  change (combine (cur :: end_time b :: map end_time l)
            (start_time b :: (map start_time l ++ [E])))
    with ((cur, start_time b)
            :: combine (end_time b :: map end_time l)
                 (map start_time l ++ [E])).
  cbn [filter]. unfold long_enough at 1. cbn [fst snd].
  destruct (minutes d <=? start_time b - cur); reflexivity.
Qed.

Lemma slots_loop_gaps (d : Z) (E : datetime) (l : list TimeBlock) :
  forall cur acc,
    (let '(c, a) := slots_loop d l cur acc in
     if (E - c) >=? d * 60 * us_per_second then a ++ [(c, E)] else a)
    = acc ++ gaps d cur E l.
Proof.
  induction l as [|b l IH]; intros cur acc.
  - rewrite gaps_nil. cbn [slots_loop]. rewrite geb_minutes.
    destruct (minutes d <=? E - cur); [reflexivity | symmetry; apply app_nil_r].
  - cbn [slots_loop]. rewrite IH, gaps_cons, geb_minutes.
    destruct (minutes d <=? start_time b - cur); [|reflexivity].
    rewrite <- app_assoc. reflexivity.
Qed.

Lemma get_available_slots_gaps (s : Schedule) (d : Z) (st en : time) :
  get_available_slots s d st en =
  gaps d (combine_date (date_of (date s)) st)
    (combine_date (date_of (date s)) en)
    (sorted_by start_time Z.ltb (time_blocks s)).
Proof.
  unfold get_available_slots.
  exact (slots_loop_gaps d _ _ _ []).
Qed.

Lemma StronglySorted_filter {A : Type} (R : A -> A -> Prop) (p : A -> bool)
    (l : list A) :
  StronglySorted R l -> StronglySorted R (filter p l).
Proof.
  induction 1 as [|x l Hl IH Hx]; simpl; [constructor|].
  destruct (p x); [|exact IH]. constructor; [exact IH|].
  apply Forall_forall. intros y Hy. apply filter_In in Hy.
  rewrite Forall_forall in Hx. apply Hx. tauto.
Qed.

Lemma candidate_gaps_cons (cur E : datetime) (b : TimeBlock)
    (l : list TimeBlock) :
  combine (cur :: map end_time (b :: l)) (map start_time (b :: l) ++ [E]) =
  (cur, start_time b)
    :: combine (end_time b :: map end_time l) (map start_time l ++ [E]).
Proof. reflexivity. Qed.

Lemma candidate_gaps_sorted (E : datetime) (l : list TimeBlock) :
  StronglySorted (fun a b => start_time a <= start_time b) l ->
  Forall valid_block l ->
  forall cur,
    StronglySorted (fun a b : slot => snd a < fst b)
      (combine (cur :: map end_time l) (map start_time l ++ [E])).
Proof.
  induction 1 as [|b l Hl IH Hb]; intros Hv cur.
  - cbn. constructor; constructor.
  - inversion Hv as [|? ? Hvb Hvl]; subst.
    rewrite candidate_gaps_cons. constructor; [apply IH; exact Hvl|].
    apply Forall_forall. intros [g1 g2] Hg. cbn [fst snd].
    apply in_combine_l in Hg. destruct Hg as [<-|Hg]; [exact Hvb|].
    apply in_map_iff in Hg. destruct Hg as [b' [<- Hb']].
    rewrite Forall_forall in Hb, Hvl.
    specialize (Hb b' Hb'). specialize (Hvl b' Hb').
    unfold valid_block in Hvl. lia.
Qed.

Lemma valid_sorted_by (l : list TimeBlock) :
  Forall valid_block l -> Forall valid_block (sorted_by start_time Z.ltb l).
Proof. apply Permutation_Forall, sorted_by_perm. Qed.

Lemma disjoint_sym_pairs (l l' : list TimeBlock) :
  Permutation l l' -> ForallOrdPairs disjoint l -> ForallOrdPairs disjoint l'.
Proof.
  induction 1 as [|x l l' Hp IH|x y l|l l' l'' H1 IH1 H2 IH2]; intro H.
  - exact H.
  - inversion H; subst. constructor; [|auto].
    eapply Permutation_Forall; eassumption.
  - inversion H as [|? ? Hy Hl]; subst.
    inversion Hl as [|? ? Hx Hl']; subst.
    inversion Hy as [|? ? Hyx Hyl]; subst.
    constructor.
    + constructor; [|exact Hx]. unfold disjoint in *.
      rewrite overlaps_with_sym. exact Hyx.
    + constructor; assumption.
  - auto.
Qed.

Lemma NoOverlap_perm (l l' : list TimeBlock) :
  Permutation l l' -> NoOverlap l -> NoOverlap l'.
Proof.
  rewrite !NoOverlap_pairs. apply disjoint_sym_pairs.
Qed.

Lemma ForallOrdPairs_app_inv {A : Type} (R : A -> A -> Prop) (l1 l2 : list A) :
  ForallOrdPairs R (l1 ++ l2) ->
  forall x y, In x l1 -> In y l2 -> R x y.
Proof.
  induction l1 as [|a l1 IH]; intros H x y Hx Hy; [destruct Hx|].
  simpl in H. inversion H as [|? ? Ha Hl]; subst.
  destruct Hx as [->|Hx].
  - rewrite Forall_forall in Ha. apply Ha. apply in_or_app. auto.
  - eapply IH; eauto.
Qed.

Lemma StronglySorted_app_inv {A : Type} (R : A -> A -> Prop) (l1 l2 : list A) :
  StronglySorted R (l1 ++ l2) ->
  forall x y, In x l1 -> In y l2 -> R x y.
Proof.
  induction l1 as [|a l1 IH]; intros H x y Hx Hy; [destruct Hx|].
  simpl in H. inversion H as [|? ? Hl Ha]; subst.
  destruct Hx as [->|Hx].
  - rewrite Forall_forall in Ha. apply Ha. apply in_or_app. auto.
  - eapply IH; eauto.
Qed.

(** With valid, pairwise non-overlapping blocks none of which ends before
    the window start, the cursor never moves earlier. *)
Lemma cursor_monotone (d : Z) (W : datetime) (blocks : list TimeBlock) :
  Forall valid_block blocks -> NoOverlap blocks ->
  Forall (fun b => W <= end_time b) blocks ->
  forall pre b post,
    sorted_by start_time Z.ltb blocks = pre ++ b :: post ->
    fst (slots_loop d pre W []) <= fst (slots_loop d (pre ++ [b]) W []).
Proof.
  intros Hv Hno HW pre b post E.
  pose proof (sorted_by_perm start_time Z.ltb blocks) as Hp.
  pose proof (sorted_by_start_order blocks) as Hs.
  apply (Permutation_Forall Hp) in Hv, HW.
  apply (NoOverlap_perm _ _ Hp) in Hno. apply NoOverlap_pairs in Hno.
  rewrite E in *. clear E Hp.
  rewrite !slots_loop_cursor, map_app. cbn [map]. rewrite last_last.
  destruct pre as [|p0 pre0].
  - cbn. inversion HW; subst. assumption.
  - destruct (@exists_last _ (p0 :: pre0)) as [pre' [b' Epre]];
      [discriminate|]. rewrite Epre in *. clear Epre.
    rewrite map_app. cbn [map]. rewrite last_last.
    rewrite <- app_assoc in Hno, Hs, Hv. cbn [app] in Hno, Hs, Hv.
    assert (Hd : disjoint b' b).
    { apply (ForallOrdPairs_app_inv _ (pre' ++ [b']) (b :: post)).
      - rewrite <- app_assoc. exact Hno.
      - apply in_or_app. right. left. reflexivity.
      - left. reflexivity. }
    assert (Hle : start_time b' <= start_time b).
    { apply (StronglySorted_app_inv
               (fun a b : TimeBlock => start_time a <= start_time b)
               (pre' ++ [b']) (b :: post)).
      - rewrite <- app_assoc. exact Hs.
      - apply in_or_app. right. left. reflexivity.
      - left. reflexivity. }
    assert (Hvb : valid_block b).
    { rewrite Forall_forall in Hv. apply Hv.
      apply in_or_app. right. right. left. reflexivity. }
    apply overlaps_with_false in Hd. unfold valid_block in Hvb. lia.
Qed.

(** The walk of [get_available_slots] as the code performs it: the blocks
    are sorted by start time, the cursor is set to the end of each block
    passed, and the slots returned are the gaps between a cursor value and
    the start of the next block, and between the last cursor value and the
    window end, that last at least the minimum duration.  The cursor does
    not move earlier when the blocks are valid, pairwise non-overlapping
    and none ends before the window start; with valid blocks the slots
    come in chronological order, each ending before the next starts. *)
Lemma slot_finder_walk (s : Schedule) (d : Z) (st en : time) :
  let W := combine_date (date_of (date s)) st in
  let E := combine_date (date_of (date s)) en in
  let sorted_blocks := sorted_by start_time Z.ltb (time_blocks s) in
  Permutation (time_blocks s) sorted_blocks /\
  StronglySorted (fun a b => start_time a <= start_time b) sorted_blocks /\
  get_available_slots s d st en = gaps d W E sorted_blocks /\
  (forall pre b post,
      sorted_blocks = pre ++ b :: post ->
      fst (slots_loop d (pre ++ [b]) W []) = end_time b) /\
  (Forall valid_block (time_blocks s) -> NoOverlap (time_blocks s) ->
   Forall (fun b => W <= end_time b) (time_blocks s) ->
   forall pre b post,
     sorted_blocks = pre ++ b :: post ->
     fst (slots_loop d pre W []) <= fst (slots_loop d (pre ++ [b]) W [])) /\
  (Forall valid_block (time_blocks s) ->
   StronglySorted (fun a b : slot => snd a < fst b)
     (get_available_slots s d st en)) /\
  (time_blocks s = [] -> minutes d <= E - W ->
   get_available_slots s d st en = [(W, E)]).
Proof.
  intros W E sorted_blocks.
  split; [apply sorted_by_perm|].
  split; [apply sorted_by_start_order|].
  split; [apply get_available_slots_gaps|].
  split.
  { intros pre b post _. rewrite slots_loop_cursor, map_app. cbn [map].
    apply last_last. }
  split; [apply cursor_monotone|].
  split.
  { intro Hv. rewrite get_available_slots_gaps. unfold gaps.
    apply StronglySorted_filter. apply candidate_gaps_sorted.
    - apply sorted_by_start_order.
    - apply valid_sorted_by, Hv. }
  intros Hnil Hlen. rewrite get_available_slots_gaps, Hnil.
  cbn [sorted_by fold_right]. rewrite gaps_nil.
  apply Z.leb_le in Hlen. fold W E. rewrite Hlen. reflexivity.
Qed.

Lemma empty_day_slot (dt : datetime) :
  get_available_slots (Schedule_new dt) 30 (mk_time 9 0) (mk_time 22 0) =
  [(combine_date (date_of dt) (mk_time 9 0),
    combine_date (date_of dt) (mk_time 22 0))].
Proof.
  rewrite get_available_slots_gaps. cbn [Schedule_new time_blocks date].
  cbn [sorted_by fold_right]. rewrite gaps_nil.
  replace (_ - _) with (mk_time 22 0 - mk_time 9 0)
    by (unfold combine_date; ring).
  reflexivity.
Qed.

(** C3, at an input where the code moves the cursor earlier.  The cursor
    starts at the window start but is set to the end of each block without
    a comparison.  With a shift 06:00-08:00 and the window 09:00-22:00 the
    cursor goes back from 09:00 to 08:00 and the code returns the slot
    (08:00, 22:00), which starts before the window; a cursor that never
    moves earlier gives (09:00, 22:00).  A task of 240 minutes is then
    placed at 08:00, before the daily window.  A shift 08:00-10:00, across
    the window start, gives the slot (10:00, 22:00) inside the window, in
    the code and with a cursor that never moves earlier alike.  On an
    empty container the code returns the single slot (09:00, 22:00). *)
Theorem C3_slot_before_window :
  get_available_slots ex_early_shift_day 30 (mk_time 9 0) (mk_time 22 0)
    = [(at_ 5 8 0, at_ 5 22 0)] /\
  slot_finder_spec ex_early_shift_day 30 (mk_time 9 0) (mk_time 22 0)
    = [(at_ 5 9 0, at_ 5 22 0)] /\
  fst (slots_loop 30
         (sorted_by start_time Z.ltb (time_blocks ex_early_shift_day))
         (at_ 5 9 0) []) < at_ 5 9 0 /\
  (exists s',
      _schedule_assignments_for_day default_constraints ex_early_shift_day
        [ex_task_240] (at_ 5 0 0) = Ok s' /\
      outline s' =
        [(at_ 5 6 0, at_ 5 8 0, WORK); (at_ 5 8 0, at_ 5 12 0, STUDY)]) /\
  get_available_slots ex_straddling_day 30 (mk_time 9 0) (mk_time 22 0)
    = [(at_ 5 10 0, at_ 5 22 0)] /\
  slot_finder_spec ex_straddling_day 30 (mk_time 9 0) (mk_time 22 0)
    = [(at_ 5 10 0, at_ 5 22 0)] /\
  (forall dt,
      get_available_slots (Schedule_new dt) 30 (mk_time 9 0) (mk_time 22 0) =
      [(combine_date (date_of dt) (mk_time 9 0),
        combine_date (date_of dt) (mk_time 22 0))] /\
      slot_finder_spec (Schedule_new dt) 30 (mk_time 9 0) (mk_time 22 0) =
      get_available_slots (Schedule_new dt) 30 (mk_time 9 0) (mk_time 22 0)).
Proof.
  split; [reflexivity|]. split; [reflexivity|]. split; [reflexivity|].
  split; [eexists; split; [vm_compute; reflexivity | reflexivity]|].
  split; [reflexivity|]. split; [reflexivity|].
  intro dt. split; [apply empty_day_slot|].
  rewrite empty_day_slot. unfold slot_finder_spec.
  cbn [Schedule_new time_blocks date sorted_by fold_right monotone_walk].
  unfold long_enough. cbn [fst snd].
  replace (_ - _) with (mk_time 22 0 - mk_time 9 0)
    by (unfold combine_date; ring).
  reflexivity.
Qed.

(** ** The urgency score *)

Lemma urgency_score_spec (now : datetime) (a : Assignment) :
  urgency_score now a = urgency_spec now a.
Proof.
  unfold urgency_score, urgency_spec, days_until_due, days_until_due_spec,
    td_days, time_multiplier.
  destruct (due_date a) as [due|]; [|reflexivity].
  destruct (Z.max 0 ((due - now) / us_per_day) =? 0); [reflexivity|].
  destruct (a_priority a); reflexivity.
Qed.

Lemma days_floor_bounds (now due : Z) :
  ((due - now) / us_per_day) * us_per_day <= due - now
    < ((due - now) / us_per_day + 1) * us_per_day.
Proof.
  assert (Hpos : 0 < us_per_day) by reflexivity.
  pose proof (Z.mul_div_le (due - now) us_per_day Hpos).
  pose proof (Z.mul_succ_div_gt (due - now) us_per_day Hpos).
  lia.
Qed.

(** C6. The urgency score is the spec's formula: 0 without a due date,
    10 when days-until-due is 0, else priority weight (1, 2, 3, 4 for low,
    medium, high, urgent) times the time multiplier (3 up to 3 days, 2 up
    to 7, 1.5 up to 14, else 1), where days-until-due is the floor of
    [due - now] in days, clamped at 0.  In terms of the time left: less
    than one day (or overdue) scores 10; from 1 day to less than 4 days
    the multiplier is 3, to less than 8 days 2, to less than 15 days 1.5,
    and 1 from 15 days on. *)
Theorem C6_urgency_score (now : datetime) (a : Assignment) :
  urgency_score now a = urgency_spec now a /\
  (due_date a = None ->
   days_until_due now a = None /\ urgency_score now a = 0%Q) /\
  (forall due,
      due_date a = Some due ->
      (exists n,
          days_until_due now a = Some (Z.max 0 n) /\
          n * us_per_day <= due - now < (n + 1) * us_per_day) /\
      (due - now < days 1 -> urgency_score now a = 10%Q) /\
      (days 1 <= due - now < days 4 ->
       urgency_score now a = (priority_weight (a_priority a) * 3)%Q) /\
      (days 4 <= due - now < days 8 ->
       urgency_score now a = (priority_weight (a_priority a) * 2)%Q) /\
      (days 8 <= due - now < days 15 ->
       urgency_score now a = (priority_weight (a_priority a) * (3 # 2))%Q) /\
      (days 15 <= due - now ->
       urgency_score now a = (priority_weight (a_priority a) * 1)%Q)).
Proof.
  split; [apply urgency_score_spec|].
  split.
  { intro H. unfold urgency_score, days_until_due. rewrite H. auto. }
  intros due Hdue.
  pose proof (days_floor_bounds now due) as Hfl.
  set (n := (due - now) / us_per_day) in *.
  assert (Hd : days_until_due now a = Some (Z.max 0 n)).
  { unfold days_until_due, td_days. rewrite Hdue. reflexivity. }
  split; [exists n; auto|].
  rewrite urgency_score_spec. unfold urgency_spec, days_until_due_spec.
  rewrite Hdue. fold n. unfold days in *.
  assert (Hday : us_per_day = 86400000000) by reflexivity.
  unfold time_multiplier.
  repeat split; intro H.
  - assert (Hn : Z.max 0 n = 0) by lia. rewrite Hn. reflexivity.
  - assert (Hn : 1 <= n <= 3) by lia.
    replace (Z.max 0 n) with n by lia.
    destruct (Z.eqb_spec n 0); [lia|].
    destruct (Z.leb_spec n 3); [reflexivity | lia].
  - assert (Hn : 4 <= n <= 7) by lia.
    replace (Z.max 0 n) with n by lia.
    destruct (Z.eqb_spec n 0); [lia|].
    destruct (Z.leb_spec n 3); [lia|].
    destruct (Z.leb_spec n 7); [reflexivity | lia].
  - assert (Hn : 8 <= n <= 14) by lia.
    replace (Z.max 0 n) with n by lia.
    destruct (Z.eqb_spec n 0); [lia|].
    destruct (Z.leb_spec n 3); [lia|].
    destruct (Z.leb_spec n 7); [lia|].
    destruct (Z.leb_spec n 14); [reflexivity | lia].
  - assert (Hn : 15 <= n) by lia.
    replace (Z.max 0 n) with n by lia.
    destruct (Z.eqb_spec n 0); [lia|].
    destruct (Z.leb_spec n 3); [lia|].
    destruct (Z.leb_spec n 7); [lia|].
    destruct (Z.leb_spec n 14); [lia | reflexivity].
Qed.

Lemma C6_urgency_score_witness :
  due_date ex_due_task = Some (at_ 7 10 0) /\
  days 1 <= at_ 7 10 0 - at_ 5 7 0 < days 4 /\
  urgency_score (at_ 5 7 0) ex_due_task = (3 * 3)%Q.
Proof.
  assert (Hdue : due_date ex_due_task = Some (at_ 7 10 0)) by reflexivity.
  assert (Hr : days 1 <= at_ 7 10 0 - at_ 5 7 0 < days 4)
    by (split; [discriminate | reflexivity]).
  split; [exact Hdue|]. split; [exact Hr|].
  destruct (proj2 (proj2 (C6_urgency_score (at_ 5 7 0) ex_due_task))
              (at_ 7 10 0) Hdue) as (_ & _ & H & _).
  exact (H Hr).
Defined.

(** ** The Priority Ranker *)

Lemma sort_key_ltb_true (k1 k2 : sort_key_t) :
  sort_key_ltb k1 k2 = true <->
  (fst k1 < fst k2)%Q \/ ((fst k1 == fst k2)%Q /\ snd k1 < snd k2).
Proof.
  unfold sort_key_ltb. destruct (Qeq_bool (fst k1) (fst k2)) eqn:E.
  - apply Qeq_bool_iff in E. rewrite Z.ltb_lt. split.
    + intro H. right. split; assumption.
    + intros [H|[_ H]]; [lra | exact H].
  - apply Qeq_bool_neq in E. rewrite Qlt_bool_iff. split.
    + intro H. left. exact H.
    + intros [H|[H _]]; [exact H | contradiction].
Qed.

Lemma sort_key_ltb_false (k1 k2 : sort_key_t) :
  sort_key_ltb k1 k2 = false <->
  (fst k2 <= fst k1)%Q /\ ((fst k1 == fst k2)%Q -> snd k2 <= snd k1).
Proof.
  rewrite <- not_true_iff_false, sort_key_ltb_true. split.
  - intro H. split.
    + destruct (Qlt_le_dec (fst k1) (fst k2)) as [Hlt|Hle]; [|exact Hle].
      exfalso. apply H. left. exact Hlt.
    + intro Heq. destruct (Z_lt_le_dec (snd k1) (snd k2)) as [Hlt|Hle];
        [|exact Hle].
      exfalso. apply H. right. split; assumption.
  - intros [Hle Himp] [Hlt|[Heq Hlt]]; [lra|].
    specialize (Himp Heq). lia.
Qed.

Lemma sort_key_ltb_asym (a b : sort_key_t) :
  sort_key_ltb a b = true -> sort_key_ltb b a = false.
Proof.
  rewrite sort_key_ltb_true, sort_key_ltb_false.
  intros [H|[He H]]; split; try lra; intro; try lra; lia.
Qed.

Lemma sort_key_ltb_negtrans (a b c : sort_key_t) :
  sort_key_ltb a b = false -> sort_key_ltb b c = false ->
  sort_key_ltb a c = false.
Proof.
  rewrite !sort_key_ltb_false. intros [H1 I1] [H2 I2]. split; [lra|].
  intro He.
  assert (E1 : (fst a == fst b)%Q) by lra.
  assert (E2 : (fst b == fst c)%Q) by lra.
  specialize (I1 E1). specialize (I2 E2). lia.
Qed.

Lemma key_equiv_sort_key (k1 k2 : sort_key_t) :
  key_equiv sort_key_ltb k1 k2 = true <->
  (fst k1 == fst k2)%Q /\ snd k1 = snd k2.
Proof.
  unfold key_equiv. rewrite andb_true_iff, !negb_true_iff, !sort_key_ltb_false.
  split.
  - intros [[H1 I1] [H2 I2]].
    assert (E : (fst k1 == fst k2)%Q) by lra.
    split; [exact E|]. specialize (I1 E).
    assert (E' : (fst k2 == fst k1)%Q) by lra. specialize (I2 E'). lia.
  - intros [E ->]. repeat split; try lra; intro; lia.
Qed.

Lemma decorate_snd (clock : nat -> datetime) (l : list Assignment) :
  forall i, map snd (decorate clock i l) = l.
Proof.
  induction l as [|a l IH]; intro i; simpl; [reflexivity|].
  rewrite IH. reflexivity.
Qed.

Lemma decorate_const (now : datetime) (l : list Assignment) :
  forall i, decorate (fun _ => now) i l = map (fun a => (sort_key now a, a)) l.
Proof.
  induction l as [|a l IH]; intro i; simpl; [reflexivity|].
  rewrite IH. reflexivity.
Qed.

(** Sorting the decorated list is sorting the list on the key. *)
Lemma sorted_by_decorated {A K : Type} (key : A -> K) (ltb : K -> K -> bool)
    (l : list A) :
  sorted_by fst ltb (map (fun a => (key a, a)) l) =
  map (fun a => (key a, a)) (sorted_by key ltb l).
Proof.
  induction l as [|x l IH]; [reflexivity|].
  cbn [map sorted_by fold_right].
  fold (sorted_by fst ltb (map (fun a => (key a, a)) l)).
  fold (sorted_by key ltb l). rewrite IH.
  generalize (sorted_by key ltb l). intro t.
  induction t as [|y t IHt]; [reflexivity|].
  cbn [map insert_by fst]. destruct (ltb (key y) (key x)); [|reflexivity].
  cbn [map]. rewrite IHt. reflexivity.
Qed.

Lemma sort_const_clock (now : datetime) (l : list Assignment) :
  _sort_assignments_by_priority (fun _ => now) l =
  sorted_by (sort_key now) sort_key_ltb l.
Proof.
  unfold _sort_assignments_by_priority.
  rewrite decorate_const, sorted_by_decorated, map_map. cbn [snd].
  apply map_id.
Qed.

Lemma decorate_keys (clock : nat -> datetime) (l : list Assignment) :
  forall i,
    Forall (fun x => exists j, fst x = sort_key (clock j) (snd x))
      (decorate clock i l).
Proof.
  induction l as [|a l IH]; intro i; simpl; constructor.
  - exists i. reflexivity.
  - apply IH.
Qed.

Lemma priority_order_le (p q : Priority) :
  priority_order p <= priority_order q <-> priority_le p q.
Proof.
  unfold priority_le. destruct p, q; cbn; split; intro H; lia.
Qed.

Lemma priority_order_eq (p q : Priority) :
  priority_order p = priority_order q <-> Priority_eqb p q = true.
Proof.
  destruct p, q; cbn; split; intro H; try reflexivity; discriminate H.
Qed.

Lemma Priority_eqb_eq (p q : Priority) : Priority_eqb p q = true <-> p = q.
Proof.
  destruct p, q; cbn; split; intro H; try reflexivity; discriminate H.
Qed.

Lemma same_rank_key_equiv (u : Q) (p : Priority) (now : datetime)
    (a : Assignment) :
  key_equiv sort_key_ltb ((- u)%Q, - priority_order p) (sort_key now a) =
  same_rank u p now a.
Proof.
  apply eq_true_iff_eq. rewrite key_equiv_sort_key.
  unfold same_rank, sort_key. cbn [fst snd].
  rewrite andb_true_iff, Qeq_bool_iff, <- priority_order_eq. split.
  - intros [H1 H2]. split; [lra | lia].
  - intros [H1 H2]. split; [lra | lia].
Qed.

Lemma same_rank_keyed_key_equiv (u : Q) (p : Priority)
    (x : sort_key_t * Assignment) :
  (exists j, fst x = sort_key j (snd x)) ->
  key_equiv sort_key_ltb ((- u)%Q, - priority_order p) (fst x) =
  same_rank_keyed u p x.
Proof.
  intros [j Hk]. apply eq_true_iff_eq. rewrite key_equiv_sort_key.
  unfold same_rank_keyed, key_urgency. rewrite Hk.
  unfold sort_key. cbn [fst snd].
  rewrite andb_true_iff, Qeq_bool_iff, <- priority_order_eq. split.
  - intros [H1 H2]. split; [lra | lia].
  - intros [H1 H2]. split; [lra | lia].
Qed.

Lemma StronglySorted_impl_in {A : Type} (R R' : A -> A -> Prop)
    (P : A -> Prop) (l : list A) :
  (forall x y, P x -> P y -> R x y -> R' x y) ->
  Forall P l -> StronglySorted R l -> StronglySorted R' l.
Proof.
  intros Himp HP Hs. induction Hs as [|x t Ht IH Hx]; [constructor|].
  inversion HP as [|? ? Hpx Hpt]; subst.
  constructor; [apply IH; exact Hpt|].
  rewrite Forall_forall in Hx, Hpt. apply Forall_forall. intros y Hy.
  apply Himp; [exact Hpx | apply Hpt, Hy | apply Hx, Hy].
Qed.

(** C7. The ranking is a function of the input list and of the clock
    readings taken when the keys are computed.  Its output is a
    permutation of the input in which urgency never increases and, at
    equal urgency, the priority level never increases, the levels being
    ordered low, medium, high, urgent.  The sort is stable: the tasks with
    the same urgency score and the same priority level come out in the
    order they have in the input.  In the example, seen at 07:00 on day 5,
    "D" (high) goes before "C" (medium) at the same urgency 6, "F"
    (urgency 3) follows although its level is low, and of the tasks
    without a due date the two urgent ones come first, in input order,
    and the low one last. *)
Theorem C7_priority_ranker (clock : nat -> datetime) (l : list Assignment) :
  let keyed := decorate clock 0 l in
  let ranked := sorted_by fst sort_key_ltb keyed in
  _sort_assignments_by_priority clock l = map snd ranked /\
  Permutation l (_sort_assignments_by_priority clock l) /\
  Permutation keyed ranked /\
  Forall (fun x => exists j, fst x = sort_key (clock j) (snd x)) ranked /\
  Forall (fun x => exists j,
              (key_urgency x == urgency_score (clock j) (snd x))%Q) ranked /\
  StronglySorted
    (fun x y => (fst (fst x) <= fst (fst y))%Q /\
                ((fst (fst x) == fst (fst y))%Q ->
                 snd (fst x) <= snd (fst y))) ranked /\
  StronglySorted
    (fun x y => ranked_before (key_urgency x) (a_priority (snd x))
                  (key_urgency y) (a_priority (snd y))) ranked /\
  (forall k,
      filter (fun x => key_equiv sort_key_ltb k (fst x)) ranked =
      filter (fun x => key_equiv sort_key_ltb k (fst x)) keyed) /\
  (forall u p,
      filter (same_rank_keyed u p) ranked =
      filter (same_rank_keyed u p) keyed) /\
  (forall now,
      let out := _sort_assignments_by_priority (fun _ => now) l in
      StronglySorted
        (fun x y =>
           ranked_before (urgency_score now x) (a_priority x)
             (urgency_score now y) (a_priority y)) out /\
      (forall u p, filter (same_rank u p now) out =
                   filter (same_rank u p now) l)) /\
  _sort_assignments_by_priority (fun _ => at_ 5 7 0)
    [ex_rank_A; ex_rank_B; ex_rank_C; ex_rank_D; ex_rank_E; ex_rank_F]
  = [ex_rank_D; ex_rank_C; ex_rank_F; ex_rank_B; ex_rank_E; ex_rank_A].
Proof.
  intros keyed ranked.
  pose proof (sorted_by_perm fst sort_key_ltb keyed) as Hperm.
  assert (Hkeys : Forall (fun x => exists j,
                            fst x = sort_key (clock j) (snd x)) ranked).
  { eapply Permutation_Forall; [exact Hperm | apply decorate_keys]. }
  assert (Hkeys' : forall x,
             (exists j, fst x = sort_key (clock j) (snd x)) ->
             exists now, fst x = sort_key now (snd x)).
  { intros x [j Hj]. exists (clock j). exact Hj. }
  pose proof (sorted_by_order fst sort_key_ltb sort_key_ltb_asym
                sort_key_ltb_negtrans keyed) as Hs.
  unfold in_key_order in Hs. fold ranked in Hs.
  split; [reflexivity|].
  split.
  { unfold _sort_assignments_by_priority.
    rewrite <- (decorate_snd clock l 0) at 1.
    apply Permutation_map. exact Hperm. }
  split; [exact Hperm|].
  split; [exact Hkeys|].
  split.
  { eapply Forall_impl; [|exact Hkeys]. cbn beta. intros x [j Hj].
    exists j. unfold key_urgency. rewrite Hj. unfold sort_key. cbn [fst].
    ring. }
  split.
  { clear Hkeys. induction Hs as [|x t Ht IH Hx]; constructor; [exact IH|].
    eapply Forall_impl; [|exact Hx]. intros y Hy. cbn beta in Hy.
    apply sort_key_ltb_false in Hy. destruct Hy as [H1 H2].
    split; [exact H1|]. intro E. apply H2. symmetry. exact E. }
  split.
  { apply (StronglySorted_impl_in
             (fun a b => sort_key_ltb (fst b) (fst a) = false)
             (fun x y => ranked_before (key_urgency x) (a_priority (snd x))
                           (key_urgency y) (a_priority (snd y)))
             (fun x => exists j, fst x = sort_key (clock j) (snd x)) ranked);
      [|exact Hkeys | exact Hs].
    intros x y [jx Hx] [jy Hy] Hxy. apply sort_key_ltb_false in Hxy.
    destruct Hxy as [H1 H2]. unfold ranked_before, key_urgency.
    split; [lra|]. intro E.
    assert (E' : (fst (fst y) == fst (fst x))%Q) by lra.
    specialize (H2 E'). rewrite Hx, Hy in H2. unfold sort_key in H2.
    cbn [fst snd] in H2. apply priority_order_le. lia. }
  split.
  { intro k. apply (sorted_by_stable fst sort_key_ltb sort_key_ltb_negtrans). }
  split.
  { intros u p.
    rewrite <- (filter_ext_in
                  (fun x => key_equiv sort_key_ltb
                              ((- u)%Q, - priority_order p) (fst x))
                  (same_rank_keyed u p) ranked).
    - rewrite <- (filter_ext_in
                    (fun x => key_equiv sort_key_ltb
                                ((- u)%Q, - priority_order p) (fst x))
                    (same_rank_keyed u p) keyed).
      + apply (sorted_by_stable fst sort_key_ltb sort_key_ltb_negtrans).
      + intros x Hx. apply same_rank_keyed_key_equiv. apply Hkeys'.
        pose proof (decorate_keys clock l 0) as Hd.
        rewrite Forall_forall in Hd. apply Hd, Hx.
    - intros x Hx. apply same_rank_keyed_key_equiv. apply Hkeys'.
      rewrite Forall_forall in Hkeys. apply Hkeys, Hx. }
  split; [|vm_compute; reflexivity].
  intros now out. unfold out. rewrite sort_const_clock. split.
  - pose proof (sorted_by_order (sort_key now) sort_key_ltb sort_key_ltb_asym
                  sort_key_ltb_negtrans l) as Hs'.
    unfold in_key_order in Hs'.
    induction Hs' as [|x t Ht IH Hx]; constructor; [exact IH|].
    eapply Forall_impl; [|exact Hx]. intros y Hy. cbn beta in Hy.
    apply sort_key_ltb_false in Hy. unfold sort_key in Hy. cbn [fst snd] in Hy.
    destruct Hy as [H1 H2]. unfold ranked_before.
    split; [lra|]. intro E.
    assert (E' : (- urgency_score now y == - urgency_score now x)%Q) by lra.
    specialize (H2 E'). apply priority_order_le. lia.
  - intros u p.
    rewrite (filter_ext _ _ (fun a => eq_sym (same_rank_key_equiv u p now a))).
    rewrite (filter_ext (same_rank u p now) _
               (fun a => eq_sym (same_rank_key_equiv u p now a))).
    apply (sorted_by_stable (sort_key now) sort_key_ltb sort_key_ltb_negtrans).
Qed.

(** ** The Task Placer: choice of the slot *)

Lemma slot_score_ok (t : Z) (s : slot) :
  t <> 0 -> exists q, slot_score t s = Ok q /\ (q == score t s)%Q.
Proof.
  intro Ht. unfold slot_score. destruct (Z.eqb_spec t 0); [contradiction|].
  eexists. split; [reflexivity|].
  unfold score, fit_score, time_score, slot_minutes,
    _calculate_time_preference_score. ring.
Qed.

Lemma slot_score_zero (s : slot) : slot_score 0 s = Raise ZeroDivisionError.
Proof. reflexivity. Qed.

(** The loop keeps the incumbent unless a candidate scores strictly
    higher: the result is the incumbent when no candidate beats its score,
    and else the first candidate of maximal score. *)
Lemma best_slot_loop_spec (t : Z) (slots : list slot) :
  t <> 0 ->
  forall best_slot best_score,
  exists r,
    best_slot_loop t slots best_slot best_score = Ok r /\
    ((r = best_slot /\
      Forall (fun x => (score t x <= best_score)%Q) (candidates t slots)) \/
     (exists pre b post,
         candidates t slots = pre ++ b :: post /\ r = Some b /\
         (best_score < score t b)%Q /\
         Forall (fun x => (score t x < score t b)%Q) pre /\
         Forall (fun x => (score t x <= score t b)%Q) post)).
Proof.
  intro Ht. induction slots as [|s l IH]; intros bs bsc.
  - exists bs. split; [reflexivity|]. left. split; [reflexivity | constructor].
  - cbn [best_slot_loop candidates filter]. fold (candidates t l).
    fold (slot_minutes s).
    destruct (Qle_bool (inject_Z t) (slot_minutes s)) eqn:Ec; [|apply IH].
    destruct (slot_score_ok t s Ht) as [q [Eq Hq]]. rewrite Eq. cbn [bind].
    destruct (Qlt_bool bsc q) eqn:Elt.
    + apply Qlt_bool_iff in Elt.
      destruct (IH (Some s) q) as [r [Er Hr]].
      exists r. split; [exact Er|]. right.
      destruct Hr as [[-> Hall]|Hex].
      * exists [], s, (candidates t l).
        split; [reflexivity|]. split; [reflexivity|].
        split; [lra|]. split; [constructor|].
        eapply Forall_impl; [|exact Hall]. cbn beta. intros x Hx. lra.
      * destruct Hex as (pre & b & post & Ecand & -> & Hb & Hpre & Hpost).
        exists (s :: pre), b, post.
        split; [rewrite Ecand; reflexivity|]. split; [reflexivity|].
        split; [lra|]. split; [|exact Hpost].
        constructor; [lra | exact Hpre].
    + apply Qlt_bool_false_iff in Elt.
      destruct (IH bs bsc) as [r [Er Hr]].
      exists r. split; [exact Er|].
      destruct Hr as [[-> Hall]|Hex].
      * left. split; [reflexivity|]. constructor; [lra | exact Hall].
      * right.
        destruct Hex as (pre & b & post & Ecand & -> & Hb & Hpre & Hpost).
        exists (s :: pre), b, post.
        split; [rewrite Ecand; reflexivity|]. split; [reflexivity|].
        split; [exact Hb|]. split; [|exact Hpost].
        constructor; [lra | exact Hpre].
Qed.

(** Without a candidate the loop does not compute a score, whatever the
    time needed. *)
Lemma best_slot_loop_no_candidate (t : Z) (slots : list slot) :
  candidates t slots = [] ->
  forall best_slot best_score,
    best_slot_loop t slots best_slot best_score = Ok best_slot.
Proof.
  induction slots as [|s l IH]; intros Hc bs bsc; [reflexivity|].
  cbn [best_slot_loop candidates filter] in *. fold (candidates t l) in Hc.
  fold (slot_minutes s) in *.
  destruct (Qle_bool (inject_Z t) (slot_minutes s)); [discriminate|].
  apply IH. exact Hc.
Qed.

Lemma slot_eqb_eq (a b : slot) : slot_eqb a b = true <-> a = b.
Proof.
  destruct a as [a1 a2], b as [b1 b2]. unfold slot_eqb. cbn [fst snd].
  rewrite andb_true_iff, !Z.eqb_eq. split.
  - intros [-> ->]. reflexivity.
  - intro H. injection H as -> ->. auto.
Qed.

(** [list.remove] drops the first occurrence and nothing else. *)
Lemma list_remove_first (x : slot) (pre post : list slot) :
  ~ In x pre -> list_remove x (pre ++ x :: post) = Ok (pre ++ post).
Proof.
  induction pre as [|y pre IH]; intro Hn; cbn [app list_remove].
  - replace (slot_eqb x x) with true; [reflexivity|].
    symmetry. apply slot_eqb_eq. reflexivity.
  - destruct (slot_eqb y x) eqn:E.
    + apply slot_eqb_eq in E. subst y. exfalso. apply Hn. left. reflexivity.
    + rewrite IH; [reflexivity|]. intro H. apply Hn. right. exact H.
Qed.

Lemma list_remove_In (x : slot) (l : list slot) :
  In x l -> exists pre post,
    l = pre ++ x :: post /\ ~ In x pre /\ list_remove x l = Ok (pre ++ post).
Proof.
  induction l as [|y l IH]; intro H; [destruct H|].
  destruct (slot_eqb y x) eqn:E.
  - apply slot_eqb_eq in E. subst y. exists [], l.
    split; [reflexivity|]. split; [intros []|].
    apply (list_remove_first x [] l). intros [].
  - assert (Hx : In x l).
    { destruct H as [->|H]; [|exact H].
      rewrite (proj2 (slot_eqb_eq x x) eq_refl) in E. discriminate. }
    destruct (IH Hx) as (pre & post & -> & Hn & _).
    exists (y :: pre), post. split; [reflexivity|].
    assert (Hn' : ~ In x (y :: pre)).
    { intros [->|H']; [|contradiction].
      rewrite (proj2 (slot_eqb_eq x x) eq_refl) in E. discriminate. }
    split; [exact Hn'|]. apply (list_remove_first x (y :: pre) post Hn').
Qed.

Lemma candidates_In (t : Z) (x : slot) (slots : list slot) :
  In x (candidates t slots) ->
  In x slots /\ (inject_Z t <= slot_minutes x)%Q.
Proof.
  unfold candidates. rewrite filter_In, Qle_bool_iff. tauto.
Qed.

(** ** The Task Placer: the block committed *)

Lemma best_slot_loop_Ok (t : Z) (slots : list slot) :
  forall best_slot best_score r,
    best_slot_loop t slots best_slot best_score = Ok r ->
    r = best_slot \/ exists b, r = Some b /\ In b (candidates t slots).
Proof.
  induction slots as [|s l IH]; intros bs bsc r E.
  - injection E as <-. left. reflexivity.
  - cbn [best_slot_loop candidates filter] in *. fold (candidates t l).
    fold (slot_minutes s) in *.
    destruct (Qle_bool (inject_Z t) (slot_minutes s)).
    + inv_bind E. destruct (Qlt_bool bsc a).
      * destruct (IH _ _ _ E) as [->|[b [-> Hb]]]; right.
        -- exists s. split; [reflexivity | left; reflexivity].
        -- exists b. split; [reflexivity | right; exact Hb].
      * destruct (IH _ _ _ E) as [->|[b [-> Hb]]]; [left; reflexivity|].
        right. exists b. split; [reflexivity | right; exact Hb].
    + apply (IH _ _ _ E).
Qed.

Lemma study_block_of_Ok (a : Assignment) (st : datetime) (t : Z)
    (b : TimeBlock) :
  study_block_of a st t = Ok b ->
  0 < t /\ start_time b = st /\ end_time b = st + minutes t /\
  block_type b = STUDY /\ duration_minutes b = t /\
  assignment_id b = Some (a_id a) /\
  tags b = [AssignmentType_value (assignment_type a);
            Priority_value (a_priority a)].
Proof.
  unfold study_block_of, TimeBlock_new.
  destruct (st + minutes t <=? st) eqn:E; [discriminate|].
  intro H. injection H as <-. apply Z.leb_gt in E.
  unfold duration_minutes. cbn.
  unfold minutes in *.
  assert (Hm : 0 < us_per_minute) by reflexivity.
  repeat split.
  - nia.
  - replace (st + t * us_per_minute - st) with (t * 60000000)
      by (unfold us_per_minute, us_per_second; ring).
    apply Z.quot_mul. discriminate.
Qed.

Lemma study_block_of_pos (a : Assignment) (st : datetime) (t : Z) :
  0 < t -> exists b, study_block_of a st t = Ok b.
Proof.
  intro Ht. unfold study_block_of, TimeBlock_new.
  destruct (st + minutes t <=? st) eqn:E; [|eauto].
  apply Z.leb_le in E. unfold minutes in E.
  assert (Hm : 0 < us_per_minute) by reflexivity. nia.
Qed.

(** A call of the Placer for one task either changes nothing or appends
    one study block of the task, at the start of a candidate slot, and
    drops the first occurrence of that slot from the free-slot list. *)
Lemma schedule_single_Ok (s : Schedule) (a : Assignment) (sl : list slot)
    (s' : Schedule) (sl' : list slot) :
  _schedule_single_assignment s a sl = Ok (s', sl') ->
  (s' = s /\ sl' = sl) \/
  (exists best b pre post,
      In best (candidates (total_time_needed a) sl) /\
      study_block_of a (fst best) (total_time_needed a) = Ok b /\
      can_add_loop b (time_blocks s) = true /\
      s' = fst (add_block s b) /\
      time_blocks s' = time_blocks s ++ [b] /\
      sl = pre ++ best :: post /\ ~ In best pre /\ sl' = pre ++ post).
Proof.
  unfold _schedule_single_assignment. intro E.
  inv_bind E. rename a0 into r, Ha into Er.
  destruct r as [best|]; [|injection E as <- <-; left; auto].
  apply best_slot_loop_Ok in Er.
  destruct Er as [Er|[b0 [Er Hin]]]; [discriminate|]. injection Er as ->.
  inv_bind E. rename a0 into b, Ha into Eb.
  pose proof (add_block_blocks s b) as Hbl.
  pose proof (add_block_flag s b) as Hfl.
  destruct (add_block s b) as [s1 added] eqn:Eadd. cbn [fst snd] in Hbl, Hfl.
  destruct added.
  - inv_bind E. injection E as <- <-. right.
    destruct (list_remove_In b0 sl (proj1 (candidates_In _ _ _ Hin)))
      as (pre & post & Esl & Hn & Erm).
    rewrite Erm in Ha. injection Ha as <-.
    exists b0, b, pre, post. rewrite <- Hfl in Hbl.
    split; [exact Hin|]. split; [exact Eb|].
    split; [symmetry; exact Hfl|]. split; [rewrite Eadd; reflexivity|].
    split; [exact Hbl|]. split; [exact Esl|]. split; [exact Hn | reflexivity].
  - injection E as <- <-. left.
    unfold add_block in Eadd. destruct (_can_add_block s b); [discriminate|].
    injection Eadd as <-. auto.
Qed.

(** With a positive time needed the Placer raises nothing. *)
Lemma schedule_single_total (s : Schedule) (a : Assignment) (sl : list slot) :
  0 < total_time_needed a ->
  exists s' sl', _schedule_single_assignment s a sl = Ok (s', sl').
Proof.
  intro Ht. unfold _schedule_single_assignment.
  destruct (best_slot_loop_spec (total_time_needed a) sl
              ltac:(lia) None (-1)%Q) as [r [Er Hr]].
  rewrite Er. cbn [bind].
  destruct r as [best|]; [|eauto].
  destruct (study_block_of_pos a (fst best) _ Ht) as [b Eb].
  rewrite Eb. cbn [bind].
  destruct (add_block s b) as [s1 added]. destruct added; [|eauto].
  assert (Hin : In best sl).
  { destruct Hr as [[Hr _]|(pre & b0 & post & Ec & Hr & _)]; [discriminate|].
    injection Hr as ->.
    apply (candidates_In (total_time_needed a)). rewrite Ec.
    apply in_or_app. right. left. reflexivity. }
  destruct (list_remove_In best sl Hin) as (pre & post & _ & _ & Erm).
  rewrite Erm. cbn [bind]. eauto.
Qed.

(** A task that no free slot can hold is not placed. *)
Lemma schedule_single_no_fit (s : Schedule) (a : Assignment) (sl : list slot) :
  Forall (fun x => (slot_minutes x < inject_Z (total_time_needed a))%Q) sl ->
  _schedule_single_assignment s a sl = Ok (s, sl).
Proof.
  intro H. unfold _schedule_single_assignment.
  rewrite best_slot_loop_no_candidate; [reflexivity|].
  unfold candidates. induction H as [|x l Hx Hl IH]; [reflexivity|].
  cbn [filter]. destruct (Qle_bool _ _) eqn:E; [|exact IH].
  apply Qle_bool_iff in E. lra.
Qed.

(** The loop over the tasks of a day: every task gets no block or one
    block of its own, and the blocks are appended in task order. *)
Lemma assignments_loop_placed (l : list Assignment) (d : datetime) :
  forall s sl s' sl',
    assignments_loop s l d sl = Ok (s', sl') ->
    exists placed,
      Forall2 (placement d) l placed /\
      time_blocks s' = time_blocks s ++ placed_blocks placed.
Proof.
  induction l as [|a l IH]; intros s sl s' sl' E; cbn [assignments_loop] in E.
  - injection E as <- _. exists []. split; [constructor|].
    symmetry. apply app_nil_r.
  - destruct (_can_schedule_assignment a d) eqn:Ecan.
    + inv_bind E. destruct a0 as [s1 sl1].
      destruct (IH _ _ _ _ E) as (placed & HF & Hbl).
      destruct (schedule_single_Ok _ _ _ _ _ Ha)
        as [[-> ->]|(best & b & pre & post & _ & Eb & _ & _ & Hs1 & _)].
      * exists (None :: placed). split; [constructor; [exact I | exact HF]|].
        exact Hbl.
      * exists (Some b :: placed). split.
        -- constructor; [|exact HF]. split; [exact Ecan|].
           exists (fst best). exact Eb.
        -- rewrite Hbl, Hs1, <- app_assoc. reflexivity.
    + destruct (IH _ _ _ _ E) as (placed & HF & Hbl).
      exists (None :: placed). split; [constructor; [exact I | exact HF]|].
      exact Hbl.
Qed.

(** For a positive time needed: the Placer takes no slot when no candidate
    scores above -1, the initial value of [best_score]; else it takes the
    first candidate of maximal score, builds the study block at its start,
    and, when the container accepts the block, drops the slot. *)
Lemma schedule_single_choice (s : Schedule) (a : Assignment) (sl : list slot) :
  let t := total_time_needed a in
  0 < t ->
  (Forall (fun x => (score t x <= -1)%Q) (candidates t sl) /\
   _schedule_single_assignment s a sl = Ok (s, sl)) \/
  (exists pre best post b,
      candidates t sl = pre ++ best :: post /\
      (-1 < score t best)%Q /\
      Forall (fun x => (score t x < score t best)%Q) pre /\
      Forall (fun x => (score t x <= score t best)%Q) post /\
      study_block_of a (fst best) t = Ok b /\
      _schedule_single_assignment s a sl =
      (if can_add_loop b (time_blocks s)
       then slots' <- list_remove best sl ;; Ok (fst (add_block s b), slots')
       else Ok (s, sl))).
Proof.
  intros t Ht. unfold _schedule_single_assignment. fold t.
  destruct (best_slot_loop_spec t sl ltac:(lia) None (-1)%Q) as [r [Er Hr]].
  rewrite Er. cbn [bind].
  destruct Hr as [[-> Hall]|(pre & best & post & Ec & -> & Hb & Hpre & Hpost)].
  - left. split; [exact Hall | reflexivity].
  - right. destruct (study_block_of_pos a (fst best) t Ht) as [b Eb].
    exists pre, best, post, b. rewrite Eb. cbn [bind].
    split; [exact Ec|]. split; [exact Hb|]. split; [exact Hpre|].
    split; [exact Hpost|]. split; [reflexivity|].
    unfold add_block, _can_add_block.
    destruct (can_add_loop b (time_blocks s)); reflexivity.
Qed.

(** C2, at an input where the code does not select the maximum-scoring
    candidate: a task of 90 minutes and the single free slot 09:00-22:00
    of a day without fixed blocks.  The slot is a candidate, the only one
    and so the one of maximal score, but its score is -3.6, not above the
    initial [best_score] of -1: no block is placed.  A task of 90 minutes
    with the slots 09:00-11:00 and 14:00-15:00 is placed as (09:00, 10:30)
    and the whole slot 09:00-11:00 is dropped. *)
Theorem C2_free_day_not_placed :
  candidates (total_time_needed ex_task_90) ex_free_day_slots
    = ex_free_day_slots /\
  (score 90 (at_ 5 9 0, at_ 5 22 0) == - (36 # 10))%Q /\
  _schedule_single_assignment (Schedule_new (at_ 5 0 0)) ex_task_90
    ex_free_day_slots = Ok (Schedule_new (at_ 5 0 0), ex_free_day_slots) /\
  _schedule_assignments_for_day default_constraints
    (Schedule_new (at_ 5 0 0)) [ex_task_90] (at_ 5 0 0)
    = Ok (Schedule_new (at_ 5 0 0)) /\
  (exists s',
      _schedule_single_assignment (Schedule_new (at_ 5 0 0)) ex_task_90
        ex_two_slots = Ok (s', [(at_ 5 14 0, at_ 5 15 0)]) /\
      outline s' = [(at_ 5 9 0, at_ 5 10 30, STUDY)]).
Proof.
  split; [reflexivity|]. split; [reflexivity|]. split; [reflexivity|].
  split; [reflexivity|].
  eexists. split; [vm_compute; reflexivity | reflexivity].
Qed.

(** ** Tasks the Placer skips *)

Lemma can_schedule_skipped (a : Assignment) (d : datetime) :
  skipped_on d a = true -> _can_schedule_assignment a d = false.
Proof.
  unfold skipped_on, overdue_for, _can_schedule_assignment.
  destruct (is_completed a); [reflexivity|]. cbn [orb].
  destruct (due_date a) as [due|]; [|discriminate].
  intros ->. reflexivity.
Qed.

Lemma assignments_loop_filter (p : Assignment -> bool) (d : datetime)
    (l : list Assignment) :
  (forall a, p a = false -> _can_schedule_assignment a d = false) ->
  forall s sl,
    assignments_loop s (filter p l) d sl = assignments_loop s l d sl.
Proof.
  intro Hp. induction l as [|a l IH]; intros s sl; [reflexivity|].
  cbn [filter assignments_loop]. destruct (p a) eqn:E.
  - cbn [assignments_loop]. destruct (_can_schedule_assignment a d); [|apply IH].
    destruct (_schedule_single_assignment s a sl) as [[s1 sl1]|e];
      [|reflexivity].
    cbn [bind]. apply IH.
  - rewrite (Hp a E). apply IH.
Qed.

Lemma filter_comm {A : Type} (p q : A -> bool) (l : list A) :
  filter p (filter q l) = filter q (filter p l).
Proof.
  induction l as [|x l IH]; [reflexivity|]. cbn [filter].
  destruct (p x) eqn:Ep, (q x) eqn:Eq; cbn [filter];
    rewrite ?Ep, ?Eq, IH; reflexivity.
Qed.

Lemma schedule_for_day_filter (c : SchedulingConstraints) (s : Schedule)
    (l : list Assignment) (d : datetime) (p : Assignment -> bool) :
  (forall a, p a = false -> _can_schedule_assignment a d = false) ->
  _schedule_assignments_for_day c s (filter p l) d =
  _schedule_assignments_for_day c s l d.
Proof.
  intro Hp. unfold _schedule_assignments_for_day.
  rewrite filter_comm.
  set (av := filter (fun a => negb (is_completed a)) l).
  set (slots := get_available_slots s (min_study_session c) (c_start_time c)
                  (c_end_time c)).
  pose proof (assignments_loop_filter p d av Hp s slots) as Hloop.
  destruct av as [|a0 av0] eqn:Eav; [reflexivity|].
  destruct slots as [|x0 sl0] eqn:Esl.
  - destruct (filter p (a0 :: av0)); reflexivity.
  - rewrite <- Hloop.
    destruct (filter p (a0 :: av0)) as [|a1 av1]; reflexivity.
Qed.

(** C4. A task whose completion flag is set, or whose due date is on a
    calendar day before the target day, is refused by
    [_can_schedule_assignment]; the loop passes over it without an error
    and leaves container and free slots as they are; a day's placement is
    the same with these tasks taken out of the list; and every block that
    the placement of a day adds is the study block of a task of the list
    that is neither completed nor due on an earlier day. *)
Theorem C4_skipped_tasks (c : SchedulingConstraints) (s : Schedule)
    (l : list Assignment) (d : datetime) :
  (forall a, is_completed a = true -> _can_schedule_assignment a d = false) /\
  (forall a due, due_date a = Some due -> date_of due < date_of d ->
                 _can_schedule_assignment a d = false) /\
  (forall a rest sl, skipped_on d a = true ->
      assignments_loop s (a :: rest) d sl = assignments_loop s rest d sl) /\
  _schedule_assignments_for_day c s l d =
  _schedule_assignments_for_day c s
    (filter (fun a => negb (skipped_on d a)) l) d /\
  (forall s', _schedule_assignments_for_day c s l d = Ok s' ->
      exists added,
        time_blocks s' = time_blocks s ++ added /\
        Forall (fun b => exists a,
                    In a l /\ skipped_on d a = false /\ study_block_for a b)
          added).
Proof.
  split.
  { intros a H. apply can_schedule_skipped. unfold skipped_on.
    rewrite H. reflexivity. }
  split.
  { intros a due Hdue Hlt. apply can_schedule_skipped.
    unfold skipped_on, overdue_for. rewrite Hdue.
    apply Z.ltb_lt in Hlt. rewrite Hlt. apply orb_true_r. }
  split.
  { intros a rest sl H. cbn [assignments_loop].
    rewrite (can_schedule_skipped a d H). reflexivity. }
  split.
  { symmetry. apply schedule_for_day_filter. intros a H.
    apply negb_false_iff in H. apply can_schedule_skipped. exact H. }
  intros s' E. unfold _schedule_assignments_for_day in E.
  set (av := filter (fun a => negb (is_completed a)) l) in *.
  assert (Hav : forall a, In a av -> In a l).
  { intros a Ha. apply filter_In in Ha. tauto. }
  assert (Hnone : exists added,
             time_blocks s = time_blocks s ++ added /\
             Forall (fun b => exists a,
                         In a l /\ skipped_on d a = false /\
                         study_block_for a b) added).
  { exists []. split; [symmetry; apply app_nil_r | constructor]. }
  destruct av as [|a0 av0] eqn:Eav; [injection E as <-; exact Hnone|].
  destruct (get_available_slots _ _ _ _) as [|x0 sl0];
    [injection E as <-; exact Hnone|].
  inv_bind E. destruct a as [s1 sl1]. injection E as <-.
  destruct (assignments_loop_placed _ _ _ _ _ _ Ha) as (placed & HF & Hbl).
  exists (placed_blocks placed). split; [exact Hbl|].
  clear Hbl Ha Hnone. revert HF Hav. generalize (a0 :: av0). clear.
  intros tasks HF. induction HF as [|a ob tasks placed Hp HF IH]; intro Hav.
  - constructor.
  - cbn [placed_blocks flat_map]. apply Forall_app. split.
    + destruct ob as [b|]; [|constructor].
      constructor; [|constructor]. destruct Hp as [Hcan Hb].
      exists a. split; [apply Hav; left; reflexivity|]. split; [|exact Hb].
      destruct (skipped_on d a) eqn:Esk; [|reflexivity].
      rewrite (can_schedule_skipped a d Esk) in Hcan. discriminate.
    + apply IH. intros x Hx. apply Hav. right. exact Hx.
Qed.

Lemma C4_skipped_tasks_witness :
  exists s' added,
    _schedule_assignments_for_day default_constraints ex_fixed_day
      ex_mixed_tasks (at_ 5 0 0) = Ok s' /\
    time_blocks s' = time_blocks ex_fixed_day ++ added /\
    List.length added = 1%nat /\
    Forall (fun b => exists a,
                In a ex_mixed_tasks /\ skipped_on (at_ 5 0 0) a = false /\
                study_block_for a b) added.
Proof.
  assert (E : exists s',
             _schedule_assignments_for_day default_constraints ex_fixed_day
               ex_mixed_tasks (at_ 5 0 0) = Ok s')
    by (eexists; vm_compute; reflexivity).
  destruct E as [s' E].
  destruct (proj2 (proj2 (proj2 (proj2
              (C4_skipped_tasks default_constraints ex_fixed_day
                 ex_mixed_tasks (at_ 5 0 0))))) s' E) as (added & Hbl & HF).
  exists s', added. split; [exact E|]. split; [exact Hbl|]. split; [|exact HF].
  vm_compute in E. injection E as <-. cbn [time_blocks] in Hbl.
  apply (f_equal (@List.length TimeBlock)) in Hbl.
  rewrite length_app in Hbl. vm_compute in Hbl.
  destruct added as [|b0 [|b1 added]]; cbn in Hbl |- *; congruence.
Defined.

(** ** Duration of the committed study block *)

Lemma candidate_fits (t : Z) (best : slot) (sl : list slot) :
  In best (candidates t sl) -> fst best + minutes t <= snd best.
Proof.
  intro H. apply candidates_In in H. destruct H as [_ H].
  unfold slot_minutes, total_minutes, Qle in H. cbn in H.
  unfold minutes. change us_per_minute with 60000000. lia.
Qed.

(** C10. A study block built for a task lasts exactly the task's total
    time needed, estimated duration plus preparation time.  One call of
    the Placer for a task changes nothing or appends one such block, which
    starts at the start of one free slot and ends within it, so a task is
    never split.  With a positive time needed the call raises nothing; a
    task that no free slot can hold is not placed.  The placement of a day
    does not depend on [max_study_session] or [buffer_time], and gives
    every open task no block or one block; a block longer than
    [max_study_session] does occur. *)
Theorem C10_study_block_duration :
  (forall a b, study_block_for a b ->
      block_type b = STUDY /\
      duration_minutes b = estimated_duration a + preparation_time a) /\
  (forall s a sl s' sl',
      _schedule_single_assignment s a sl = Ok (s', sl') ->
      (s' = s /\ sl' = sl) \/
      (exists best b,
          In best sl /\ study_block_for a b /\
          start_time b = fst best /\ end_time b <= snd best /\
          time_blocks s' = time_blocks s ++ [b])) /\
  (forall s a sl,
      0 < total_time_needed a ->
      exists s' sl', _schedule_single_assignment s a sl = Ok (s', sl')) /\
  (forall s a sl,
      Forall (fun x => (slot_minutes x < inject_Z (total_time_needed a))%Q) sl ->
      _schedule_single_assignment s a sl = Ok (s, sl)) /\
  (forall c max_session buffer s l d,
      _schedule_assignments_for_day (with_session_limits c max_session buffer)
        s l d = _schedule_assignments_for_day c s l d) /\
  (forall c s l d s',
      _schedule_assignments_for_day c s l d = Ok s' ->
      exists placed,
        Forall2 (placement d) (filter (fun a => negb (is_completed a)) l)
          placed /\
        time_blocks s' = time_blocks s ++ placed_blocks placed) /\
  (exists schedules s b,
      ex_run = Ok schedules /\ In s schedules /\ In b (time_blocks s) /\
      block_type b = STUDY /\
      max_study_session default_constraints < duration_minutes b).
Proof.
  split.
  { intros a b [st H]. apply study_block_of_Ok in H.
    unfold total_time_needed in H. tauto. }
  split.
  { intros s a sl s' sl' E.
    destruct (schedule_single_Ok _ _ _ _ _ E)
      as [H|(best & b & pre & post & Hin & Eb & _ & _ & Hbl & _)];
      [left; exact H | right].
    exists best, b. pose proof (study_block_of_Ok _ _ _ _ Eb) as Hb.
    split; [apply (candidates_In _ _ _ Hin)|].
    split; [exists (fst best); exact Eb|].
    split; [tauto|]. split; [|exact Hbl].
    destruct Hb as (_ & _ & -> & _). eapply candidate_fits. exact Hin. }
  split; [exact schedule_single_total|].
  split; [exact schedule_single_no_fit|].
  split; [reflexivity|].
  split.
  { intros c s l d s' E. unfold _schedule_assignments_for_day in E.
    destruct (filter _ l) as [|a0 av0].
    - injection E as <-. exists []. split; [constructor|].
      symmetry. apply app_nil_r.
    - destruct (get_available_slots _ _ _ _) as [|x0 sl0].
      + injection E as <-. exists (map (fun _ => None) (a0 :: av0)). split.
        * generalize (a0 :: av0). intro l0.
          induction l0; constructor; [exact I | assumption].
        * generalize (a0 :: av0). intro l0.
          replace (placed_blocks (map (fun _ => None) l0)) with (@nil TimeBlock);
            [symmetry; apply app_nil_r|].
          induction l0; [reflexivity | assumption].
      + inv_bind E. destruct a as [s1 sl1]. injection E as <-.
        eapply assignments_loop_placed. exact Ha. }
  eexists. eexists. eexists.
  split; [vm_compute; reflexivity|].
  split; [left; reflexivity|].
  split; [right; right; right; left; reflexivity|].
  split; reflexivity.
Qed.

Lemma C10_study_block_duration_witness :
  0 < total_time_needed ex_task_90 /\
  exists s' sl' b,
    _schedule_single_assignment (Schedule_new (at_ 5 0 0)) ex_task_90
      ex_two_slots = Ok (s', sl') /\
    time_blocks s' = [b] /\ duration_minutes b = 90.
Proof.
  split; [reflexivity|].
  destruct (proj1 (proj2 (proj2 C10_study_block_duration))
              (Schedule_new (at_ 5 0 0)) ex_task_90 ex_two_slots eq_refl)
    as (s' & sl' & E).
  exists s', sl'. vm_compute in E. injection E as <- <-.
  eexists. split; [vm_compute; reflexivity|]. split; reflexivity.
Defined.

(** ** The Break Inserter *)

Lemma Qle_minutes (m x : Z) :
  Qle_bool (inject_Z m) (total_minutes x) = (minutes m <=? x).
Proof.
  apply eq_true_iff_eq. rewrite Qle_bool_iff, Z.leb_le.
  unfold total_minutes, Qle, minutes. cbn.
  change us_per_minute with 60000000. lia.
Qed.

Lemma break_block_of_pos (st bd : Z) :
  0 < bd -> break_block_of st bd = Ok (mk_break st bd).
Proof.
  intro H. unfold break_block_of, TimeBlock_new.
  destruct (st + minutes bd <=? st) eqn:E; [|reflexivity].
  apply Z.leb_le in E. unfold minutes in E.
  assert (Hm : 0 < us_per_minute) by reflexivity. nia.
Qed.

Lemma can_add_loop_app (b : TimeBlock) (l1 l2 : list TimeBlock) :
  can_add_loop b (l1 ++ l2) = can_add_loop b l1 && can_add_loop b l2.
Proof.
  induction l1 as [|y l1 IH]; [reflexivity|]. cbn [app can_add_loop].
  destruct (overlaps_with b y); [reflexivity | exact IH].
Qed.

Lemma can_add_after (b : TimeBlock) (l : list TimeBlock) :
  Forall (fun y => end_time y <= start_time b) l -> can_add_loop b l = true.
Proof.
  intro H. apply can_add_loop_true. eapply Forall_impl; [|exact H].
  intros y Hy. apply overlaps_with_false. left. exact Hy.
Qed.

Lemma proposed_breaks_cons2 (bd : Z) (x y : TimeBlock) (l : list TimeBlock) :
  proposed_breaks bd (x :: y :: l) =
  (if minutes bd <=? start_time y - end_time x
   then [mk_break (end_time x) bd] else [])
  ++ proposed_breaks bd (y :: l).
Proof. reflexivity. Qed.

(** The loop appends, of the proposed breaks, those that the container as
    it was before the loop accepts: breaks of different pairs never
    overlap each other. *)
Lemma breaks_loop_spec (bd : Z) (orig : list TimeBlock) (l : list TimeBlock) :
  0 < bd ->
  StronglySorted (fun a b => start_time a <= start_time b) l ->
  Forall valid_block l ->
  forall s acc,
    time_blocks s = orig ++ acc ->
    Forall (fun b' => forall x, In x l -> end_time b' <= start_time x) acc ->
    exists s',
      breaks_loop bd l s = Ok s' /\ date s' = date s /\
      time_blocks s' =
      orig ++ acc ++
        filter (fun b => can_add_loop b orig) (proposed_breaks bd l).
Proof.
  intros Hbd Hs. induction Hs as [|x l Hl IH Hx]; intros Hv s acc Hbl Hacc.
  - exists s. split; [reflexivity|]. split; [reflexivity|].
    cbn. rewrite app_nil_r. exact Hbl.
  - destruct l as [|y l].
    + exists s. split; [reflexivity|]. split; [reflexivity|].
      cbn. rewrite app_nil_r. exact Hbl.
    + inversion Hv as [|? ? Hvx Hvl]; subst.
      cbn [breaks_loop]. rewrite Qle_minutes, proposed_breaks_cons2.
      assert (Hxy : start_time x <= start_time y).
      { rewrite Forall_forall in Hx. apply Hx. left. reflexivity. }
      assert (Hacc' : Forall (fun b' => forall z, In z (y :: l) ->
                                 end_time b' <= start_time z) acc).
      { eapply Forall_impl; [|exact Hacc]. intros b' Hb' z Hz.
        apply Hb'. right. exact Hz. }
      destruct (minutes bd <=? start_time y - end_time x) eqn:Egap.
      * rewrite (break_block_of_pos _ _ Hbd). cbn [bind].
        set (br := mk_break (end_time x) bd).
        assert (Hbr_acc : can_add_loop br acc = true).
        { apply can_add_after. eapply Forall_impl; [|exact Hacc].
          intros b' Hb'. cbn. specialize (Hb' x (or_introl eq_refl)).
          unfold valid_block in Hvx. lia. }
        assert (Hbr_next : forall z, In z (y :: l) ->
                             end_time br <= start_time z).
        { intros z Hz. cbn. apply Z.leb_le in Egap.
          assert (start_time y <= start_time z).
          { destruct Hz as [<-|Hz]; [lia|].
            inversion Hl as [|? ? _ Hy]; subst.
            rewrite Forall_forall in Hy. apply Hy. exact Hz. }
          lia. }
        pose proof (add_block_blocks s br) as Hadd.
        rewrite Hbl, can_add_loop_app, Hbr_acc, andb_true_r in Hadd.
        cbn [app filter]. fold br.
        destruct (can_add_loop br orig) eqn:Eo.
        -- destruct (IH Hvl (fst (add_block s br)) (acc ++ [br]))
             as (s' & Es' & Hd & Hs').
           ++ rewrite Hadd, <- app_assoc. reflexivity.
           ++ apply Forall_app. split; [exact Hacc'|].
              constructor; [exact Hbr_next | constructor].
           ++ exists s'. split; [exact Es'|].
              split; [rewrite Hd; apply add_block_date|].
              rewrite Hs', <- !app_assoc. reflexivity.
        -- destruct (IH Hvl (fst (add_block s br)) acc)
             as (s' & Es' & Hd & Hs').
           ++ rewrite Hadd. reflexivity.
           ++ exact Hacc'.
           ++ exists s'. split; [exact Es'|].
              split; [rewrite Hd; apply add_block_date | exact Hs'].
      * cbn [app]. apply IH; assumption.
Qed.

Lemma proposed_breaks_props (bd : Z) (l : list TimeBlock) :
  0 < bd ->
  Forall (fun b => block_type b = BREAK /\ duration_minutes b = bd /\
                   exists x, In x l /\ start_time b = end_time x)
    (proposed_breaks bd l).
Proof.
  intro Hbd. induction l as [|x l IH]; [constructor|].
  destruct l as [|y l]; [constructor|].
  rewrite proposed_breaks_cons2. apply Forall_app. split.
  - destruct (minutes bd <=? _); constructor; [|constructor].
    split; [reflexivity|]. split.
    + unfold duration_minutes, mk_break. cbn [start_time end_time].
      replace (end_time x + minutes bd - end_time x) with (bd * 60000000)
        by (unfold minutes, us_per_minute, us_per_second; ring).
      apply Z.quot_mul. discriminate.
    + exists x. split; [left; reflexivity | reflexivity].
  - eapply Forall_impl; [|exact IH]. cbn beta.
    intros b (H1 & H2 & z & Hz & H3). split; [exact H1|]. split; [exact H2|].
    exists z. split; [right; exact Hz | exact H3].
Qed.

(** C8, as stated, fails: the break goes through [add_block], which
    refuses it when it overlaps a block of the container.  On day 5 of the
    example the study blocks 09:00-10:00 and 11:00-14:20 are adjacent with
    a gap of 60 minutes, but the lecture 10:00-11:00 fills the gap: the
    break 10:00-10:15 is proposed and refused, and no break is inserted. *)
Lemma C8_counterexample :
  exists s s',
    ex_placed_day = Ok s /\
    outline s =
      [(at_ 5 10 0, at_ 5 11 0, CLASS); (at_ 5 18 0, at_ 5 20 0, WORK);
       (at_ 5 9 0, at_ 5 10 0, STUDY); (at_ 5 11 0, at_ 5 14 20, STUDY)] /\
    proposed_breaks (break_duration default_constraints)
      (sorted_by start_time Z.ltb (get_study_blocks s))
      = [mk_break (at_ 5 10 0) 15] /\
    _add_breaks_and_optimize default_constraints s = Ok s' /\
    time_blocks s' = time_blocks s.
Proof.
  eexists. eexists.
  split; [vm_compute; reflexivity|].
  split; [reflexivity|]. split; [reflexivity|].
  split; [vm_compute; reflexivity | reflexivity].
Qed.

(** C8, amended.  With a positive break duration and valid blocks, the
    Break Inserter sorts the study blocks by start time and proposes, for
    every adjacent pair whose gap is at least the break duration, one break
    block of exactly the break duration that starts at the end of the
    first block; it appends to the container, in that order, the proposed
    breaks that overlap no block the container held before, and the others
    are refused by the container.  No break is proposed for a smaller gap;
    with fewer than two study blocks the container is returned as it is.
    Study blocks (09:00, 10:30) and (11:00, 12:00) with break duration 15
    get the single break (10:30, 10:45). *)
Theorem C8_break_inserter (c : SchedulingConstraints) (s : Schedule) :
  let sorted_blocks := sorted_by start_time Z.ltb (get_study_blocks s) in
  (0 < break_duration c -> Forall valid_block (time_blocks s) ->
   exists s',
     _add_breaks_and_optimize c s = Ok s' /\ date s' = date s /\
     time_blocks s' =
     time_blocks s ++
       filter (fun b => can_add_loop b (time_blocks s))
         (proposed_breaks (break_duration c) sorted_blocks)) /\
  (0 < break_duration c ->
   Forall (fun b => block_type b = BREAK /\
                    duration_minutes b = break_duration c /\
                    exists x, In x sorted_blocks /\ start_time b = end_time x)
     (proposed_breaks (break_duration c) sorted_blocks)) /\
  (forall x y,
      start_time y - end_time x < minutes (break_duration c) ->
      proposed_breaks (break_duration c) [x; y] = []) /\
  ((List.length (get_study_blocks s) < 2)%nat ->
   _add_breaks_and_optimize c s = Ok s) /\
  (exists s',
      _add_breaks_and_optimize default_constraints ex_two_study_day = Ok s' /\
      outline s' =
        [(at_ 5 9 0, at_ 5 10 30, STUDY); (at_ 5 11 0, at_ 5 12 0, STUDY);
         (at_ 5 10 30, at_ 5 10 45, BREAK)]).
Proof.
  intro sorted_blocks.
  split.
  { intros Hbd Hv. unfold _add_breaks_and_optimize.
    assert (Hsv : Forall valid_block sorted_blocks).
    { apply valid_sorted_by. apply Forall_forall. intros b Hb.
      unfold get_study_blocks, get_blocks_by_type in Hb.
      apply filter_In in Hb. rewrite Forall_forall in Hv. apply Hv. tauto. }
    destruct (Z.of_nat (List.length (get_study_blocks s)) <? 2) eqn:Elen.
    - exists s. split; [reflexivity|]. split; [reflexivity|].
      apply Z.ltb_lt in Elen.
      assert (Hl : (List.length sorted_blocks < 2)%nat).
      { unfold sorted_blocks. rewrite sorted_by_length. lia. }
      destruct sorted_blocks as [|x [|y l]]; cbn in Hl |- *;
        try (symmetry; apply app_nil_r). lia.
    - destruct (breaks_loop_spec (break_duration c) (time_blocks s)
                  sorted_blocks Hbd (sorted_by_start_order _) Hsv s [])
        as (s' & Es' & Hd & Hs').
      + symmetry. apply app_nil_r.
      + constructor.
      + exists s'. split; [exact Es'|]. split; [exact Hd | exact Hs']. }
  split; [apply proposed_breaks_props|].
  split.
  { intros x y H. cbn. destruct (Z.leb_spec (minutes (break_duration c))
                                   (start_time y - end_time x)); [lia|].
    reflexivity. }
  split.
  { intro H. unfold _add_breaks_and_optimize.
    destruct (Z.ltb_spec (Z.of_nat (List.length (get_study_blocks s))) 2);
      [reflexivity | lia]. }
  eexists. split; [vm_compute; reflexivity | reflexivity].
Qed.

Lemma C8_break_inserter_witness :
  0 < break_duration default_constraints /\
  Forall valid_block (time_blocks ex_two_study_day) /\
  exists s',
    _add_breaks_and_optimize default_constraints ex_two_study_day = Ok s' /\
    time_blocks s' =
    time_blocks ex_two_study_day ++ [mk_break (at_ 5 10 30) 15].
Proof.
  assert (Hbd : 0 < break_duration default_constraints) by reflexivity.
  assert (Hv : Forall valid_block (time_blocks ex_two_study_day))
    by (repeat constructor).
  split; [exact Hbd|]. split; [exact Hv|].
  destruct (proj1 (C8_break_inserter default_constraints ex_two_study_day)
              Hbd Hv) as (s' & E & _ & Hbl).
  exists s'. split; [exact E | exact Hbl].
Defined.

(** ** The Fixed-Block Installer *)

Lemma add_block_accept (s : Schedule) (b : TimeBlock) :
  time_blocks (fst (add_block s b)) = accept (time_blocks s) b.
Proof. apply add_block_blocks. Qed.

Lemma add_class_blocks_spec (cs : list TimeBlock) (d : datetime) :
  forall s,
    date (add_class_blocks s cs d) = date s /\
    time_blocks (add_class_blocks s cs d) =
    fold_left accept (filter (fun b => on_date d (start_time b)) cs)
      (time_blocks s).
Proof.
  induction cs as [|b cs IH]; intro s; [split; reflexivity|].
  cbn [add_class_blocks filter]. unfold on_date at 1.
  destruct (date_of (start_time b) =? date_of d); [|apply IH].
  cbn [fold_left]. rewrite <- add_block_accept.
  destruct (IH (fst (add_block s b))) as [Hd Hb].
  split; [rewrite Hd; apply add_block_date | exact Hb].
Qed.

Lemma work_block_of_valid (w : WorkShift) :
  ws_start_time w < ws_end_time w -> work_block_of w = Ok (work_block w).
Proof.
  intro H. unfold work_block_of, TimeBlock_new.
  destruct (Z.leb_spec (ws_end_time w) (ws_start_time w)); [lia | reflexivity].
Qed.

Lemma work_block_of_invalid (w : WorkShift) :
  ws_end_time w <= ws_start_time w -> work_block_of w = Raise ValueError.
Proof.
  intro H. unfold work_block_of, TimeBlock_new.
  destruct (Z.leb_spec (ws_end_time w) (ws_start_time w)); [reflexivity | lia].
Qed.

Lemma add_work_blocks_spec (ws : list WorkShift) (d : datetime) :
  Forall (fun w => on_date d (ws_start_time w) = true ->
                   ws_start_time w < ws_end_time w) ws ->
  forall s,
  exists s',
    add_work_blocks s ws d = Ok s' /\ date s' = date s /\
    time_blocks s' =
    fold_left accept
      (map work_block (filter (fun w => on_date d (ws_start_time w)) ws))
      (time_blocks s).
Proof.
  induction 1 as [|w ws Hw Hws IH]; intro s.
  - exists s. repeat split.
  - cbn [add_work_blocks filter]. unfold ws_date. unfold on_date at 1 in Hw.
    unfold on_date at 1.
    destruct (date_of (ws_start_time w) =? date_of d); [|apply IH].
    rewrite (work_block_of_valid w (Hw eq_refl)). cbn [bind map fold_left].
    rewrite <- add_block_accept.
    destruct (IH (fst (add_block s (work_block w)))) as (s' & E & Hd & Hb).
    exists s'. split; [exact E|].
    split; [rewrite Hd; apply add_block_date | exact Hb].
Qed.

Lemma add_work_blocks_invalid (ws : list WorkShift) (d : datetime) :
  Exists (fun w => on_date d (ws_start_time w) = true /\
                   ws_end_time w <= ws_start_time w) ws ->
  forall s, add_work_blocks s ws d = Raise ValueError.
Proof.
  induction ws as [|w ws IH]; intros H s; [inversion H|].
  cbn [add_work_blocks]. unfold ws_date.
  destruct (date_of (ws_start_time w) =? date_of d) eqn:E.
  - destruct (Z.leb_spec (ws_end_time w) (ws_start_time w)) as [Hle|Hgt].
    + rewrite (work_block_of_invalid w Hle). reflexivity.
    + rewrite (work_block_of_valid w Hgt). cbn [bind]. apply IH.
      inversion H as [? ? [_ Hbad]|? ? Hrest]; subst; [lia | exact Hrest].
  - apply IH.
    inversion H as [? ? [Hon _]|? ? Hrest]; subst; [|exact Hrest].
    unfold on_date in Hon. congruence.
Qed.

(** C9, as stated, fails twice.  A class block is put into the container
    as it was handed in, with its own fixed flag: the seminar, handed in
    with the flag off, is installed with the flag off.  And the Installer
    drops the flag that [add_block] returns: with the tutorial, which
    overlaps the lecture and is refused, the outcome is the very outcome
    without the tutorial, so nothing reaches the caller. *)
Lemma C9_counterexample :
  (exists s',
      _add_fixed_blocks (Schedule_new (at_ 5 0 0)) [ex_seminar] []
        (at_ 5 0 0) = Ok s' /\
      map is_fixed (time_blocks s') = [false]) /\
  overlaps_with ex_clash ex_lecture = true /\
  _add_fixed_blocks (Schedule_new (at_ 5 0 0)) [ex_lecture; ex_clash] []
    (at_ 5 0 0) =
  _add_fixed_blocks (Schedule_new (at_ 5 0 0)) [ex_lecture] [] (at_ 5 0 0).
Proof.
  split; [eexists; split; [vm_compute; reflexivity | reflexivity]|].
  split; reflexivity.
Qed.

(** C9, amended.  For a target date the Installer offers to the container,
    in input order, first the class blocks that start on the date, as they
    were handed in (with their own fixed flag), then for every shift that
    starts on the date a work block with the fixed flag on and the title
    "Work - " followed by the role.  The container appends a block that
    overlaps none of its blocks and refuses any other one without an
    exception; the Installer does not look at the answer, so a refused
    block leaves no trace in the outcome.  The only exception is the
    ValueError of the block constructor for a shift of the date that does
    not end after its start. *)
Theorem C9_fixed_block_installer (s : Schedule) (cs : list TimeBlock)
    (ws : list WorkShift) (d : datetime) :
  (Forall (fun w => on_date d (ws_start_time w) = true ->
                    ws_start_time w < ws_end_time w) ws ->
   exists s',
     _add_fixed_blocks s cs ws d = Ok s' /\ date s' = date s /\
     time_blocks s' = fold_left accept (todays_fixed cs ws d) (time_blocks s)) /\
  (forall w,
      is_fixed (work_block w) = true /\ block_type (work_block w) = WORK /\
      title (work_block w) = ("Work - " ++ role w)%string /\
      start_time (work_block w) = ws_start_time w /\
      end_time (work_block w) = ws_end_time w) /\
  (forall blocks b,
      (exists y, In y blocks /\ overlaps_with b y = true) ->
      accept blocks b = blocks) /\
  (forall blocks b,
      (forall y, In y blocks -> overlaps_with b y = false) ->
      accept blocks b = blocks ++ [b]) /\
  (forall b y,
      In y (time_blocks s) -> overlaps_with b y = true ->
      _add_fixed_blocks s (b :: cs) ws d = _add_fixed_blocks s cs ws d) /\
  (Exists (fun w => on_date d (ws_start_time w) = true /\
                    ws_end_time w <= ws_start_time w) ws ->
   _add_fixed_blocks s cs ws d = Raise ValueError).
Proof.
  split.
  { intro Hws. unfold _add_fixed_blocks, todays_fixed.
    destruct (add_class_blocks_spec cs d s) as [Hd Hb].
    destruct (add_work_blocks_spec ws d Hws (add_class_blocks s cs d))
      as (s' & E & Hd' & Hb').
    exists s'. split; [exact E|]. split; [congruence|].
    rewrite Hb', Hb, fold_left_app. reflexivity. }
  split; [intro w; repeat split|].
  split.
  { intros blocks b H. unfold accept.
    rewrite (proj2 (can_add_loop_false b blocks) H). reflexivity. }
  split.
  { intros blocks b H. unfold accept.
    rewrite (proj2 (can_add_loop_true b blocks)); [reflexivity|].
    apply Forall_forall. exact H. }
  split.
  { intros b y Hy Ho. unfold _add_fixed_blocks. cbn [add_class_blocks].
    rewrite (add_block_refuses s b y Hy Ho). cbn [fst].
    destruct (date_of (start_time b) =? date_of d); reflexivity. }
  intro H. unfold _add_fixed_blocks. apply add_work_blocks_invalid. exact H.
Qed.

Lemma C9_fixed_block_installer_witness :
  exists s',
    _add_fixed_blocks (Schedule_new (at_ 5 0 0)) [ex_lecture; ex_clash]
      [ex_shift (at_ 5 18 0) (at_ 5 20 0); ex_shift (at_ 6 8 0) (at_ 6 12 0)]
      (at_ 5 0 0) = Ok s' /\
    outline s' =
      [(at_ 5 10 0, at_ 5 11 0, CLASS); (at_ 5 18 0, at_ 5 20 0, WORK)] /\
    map is_fixed (time_blocks s') = [true; true].
Proof.
  assert (Hws : Forall (fun w => on_date (at_ 5 0 0) (ws_start_time w) = true ->
                                 ws_start_time w < ws_end_time w)
                  [ex_shift (at_ 5 18 0) (at_ 5 20 0);
                   ex_shift (at_ 6 8 0) (at_ 6 12 0)])
    by (repeat constructor).
  destruct (proj1 (C9_fixed_block_installer (Schedule_new (at_ 5 0 0))
                     [ex_lecture; ex_clash]
                     [ex_shift (at_ 5 18 0) (at_ 5 20 0);
                      ex_shift (at_ 6 8 0) (at_ 6 12 0)] (at_ 5 0 0)) Hws)
    as (s' & E & _ & Hbl).
  exists s'. split; [exact E|].
  unfold outline. rewrite Hbl. split; reflexivity.
Defined.

(* ------------------------------------------------------------------ *)
(** * Further properties of the container *)

Lemma list_pop_firstn_skipn {A : Type} (l : list A) :
  forall i, (i < List.length l)%nat ->
            list_pop l i = firstn i l ++ skipn (S i) l.
Proof.
  induction l as [|x l IH]; intros i Hi; [inversion Hi|].
  destruct i as [|i]; [reflexivity|].
  cbn [list_pop firstn skipn app]. rewrite IH; [reflexivity|].
  cbn in Hi. lia.
Qed.

Lemma list_pop_In {A : Type} (l : list A) :
  forall i x, In x (list_pop l i) -> In x l.
Proof.
  induction l as [|y l IH]; intros i x H; [exact H|].
  destruct i as [|i]; cbn [list_pop] in H; [right; exact H|].
  destruct H as [->|H]; [left; reflexivity | right; eapply IH; exact H].
Qed.

Lemma list_pop_pairs {A : Type} (R : A -> A -> Prop) (l : list A) :
  ForallOrdPairs R l -> forall i, ForallOrdPairs R (list_pop l i).
Proof.
  induction 1 as [|x l Hx Hl IH]; intro i; [destruct i; constructor|].
  destruct i as [|i]; cbn [list_pop]; [exact Hl|].
  constructor; [|apply IH].
  apply Forall_forall. intros y Hy. rewrite Forall_forall in Hx.
  apply Hx. eapply list_pop_In. exact Hy.
Qed.

Lemma list_pop_length {A : Type} (l : list A) :
  forall i, (i < List.length l)%nat ->
            S (List.length (list_pop l i)) = List.length l.
Proof.
  induction l as [|x l IH]; intros i Hi; [inversion Hi|].
  destruct i as [|i]; [reflexivity|].
  cbn [list_pop List.length]. rewrite IH; [reflexivity|]. cbn in Hi. lia.
Qed.

Lemma list_pop_last {A : Type} (l : list A) (x : A) :
  list_pop (l ++ [x]) (List.length l) = l.
Proof.
  induction l as [|y l IH]; [reflexivity|].
  cbn [app List.length list_pop]. rewrite IH. reflexivity.
Qed.

(** X1. [remove_block] with an index below 0 or not below the number of
    blocks returns False and leaves the schedule as it is (a negative index
    does not count from the end).  With an index in range it returns True,
    removes exactly the block at that position, keeping the others in
    order, refreshes the metrics, and keeps the blocks pairwise
    non-overlapping. *)
Theorem X1_remove_block (s : Schedule) (i : Z) :
  (i < 0 \/ Z.of_nat (List.length (time_blocks s)) <= i ->
   remove_block s i = (s, false)) /\
  (0 <= i < Z.of_nat (List.length (time_blocks s)) ->
   snd (remove_block s i) = true /\
   date (fst (remove_block s i)) = date s /\
   time_blocks (fst (remove_block s i)) =
     firstn (Z.to_nat i) (time_blocks s) ++
     skipn (S (Z.to_nat i)) (time_blocks s) /\
   S (List.length (time_blocks (fst (remove_block s i)))) =
     List.length (time_blocks s) /\
   metrics_fresh (fst (remove_block s i))) /\
  (NoOverlap (time_blocks s) ->
   NoOverlap (time_blocks (fst (remove_block s i)))).
Proof.
  unfold remove_block. split; [|split].
  - intros [H|H].
    + destruct (Z.leb_spec 0 i); [lia | reflexivity].
    + destruct (Z.ltb_spec i (Z.of_nat (List.length (time_blocks s))));
        [lia|]. rewrite andb_false_r. reflexivity.
  - intros [H0 H1].
    destruct (Z.leb_spec 0 i); [|lia].
    destruct (Z.ltb_spec i (Z.of_nat (List.length (time_blocks s)))); [|lia].
    cbn [andb fst snd]. rewrite time_blocks_update_metrics. cbn [time_blocks].
    assert (Hi : (Z.to_nat i < List.length (time_blocks s))%nat) by lia.
    split; [reflexivity|]. split; [reflexivity|].
    split; [apply list_pop_firstn_skipn; exact Hi|].
    split; [apply list_pop_length; exact Hi | apply update_metrics_fresh].
  - intro H. destruct (_ && _); [|exact H].
    cbn [fst]. rewrite time_blocks_update_metrics. cbn [time_blocks].
    apply NoOverlap_pairs. apply list_pop_pairs. apply NoOverlap_pairs, H.
Qed.

Lemma X1_remove_block_witness :
  0 <= 0 < Z.of_nat (List.length (time_blocks ex_fixed_day)) /\
  NoOverlap (time_blocks ex_fixed_day) /\
  outline (fst (remove_block ex_fixed_day 0)) =
    [(at_ 5 18 0, at_ 5 20 0, WORK)] /\
  NoOverlap (time_blocks (fst (remove_block ex_fixed_day 0))) /\
  remove_block ex_fixed_day (-1) = (ex_fixed_day, false).
Proof.
  assert (Hr : 0 <= 0 < Z.of_nat (List.length (time_blocks ex_fixed_day)))
    by (split; [discriminate | reflexivity]).
  assert (Hno : NoOverlap (time_blocks ex_fixed_day))
    by (apply NoOverlap_pairs; repeat constructor).
  destruct (X1_remove_block ex_fixed_day 0) as (_ & Hin & Hkeep).
  destruct (Hin Hr) as (_ & _ & Hbl & _).
  split; [exact Hr|]. split; [exact Hno|].
  split; [unfold outline; rewrite Hbl; reflexivity|].
  split; [exact (Hkeep Hno)|].
  apply (proj1 (X1_remove_block ex_fixed_day (-1))). left. reflexivity.
Defined.

(** X2. Round trip: after an [add_block] that succeeded, [remove_block] at
    the last index succeeds and gives back the block list the schedule had
    before; when the cached metrics were fresh before the add they have
    their old values again (the efficiency as a rational number). *)
Theorem X2_add_remove_round_trip (s : Schedule) (b : TimeBlock) :
  snd (add_block s b) = true ->
  let s1 := fst (add_block s b) in
  let r := remove_block s1 (Z.of_nat (List.length (time_blocks s))) in
  snd r = true /\
  date (fst r) = date s /\
  time_blocks (fst r) = time_blocks s /\
  (metrics_fresh s ->
   total_study_time (fst r) = total_study_time s /\
   total_break_time (fst r) = total_break_time s /\
   (efficiency_score (fst r) == efficiency_score s)%Q).
Proof.
  intros Hadd s1 r.
  assert (Hbl : time_blocks s1 = time_blocks s ++ [b]).
  { unfold s1. rewrite add_block_blocks, <- add_block_flag, Hadd.
    reflexivity. }
  assert (Hd : date s1 = date s) by apply add_block_date.
  assert (Hr : r = (_update_metrics
                      (mkSchedule (date s1) (time_blocks s)
                         (total_study_time s1) (total_break_time s1)
                         (efficiency_score s1)), true)).
  { unfold r, remove_block. rewrite Hbl, length_app. cbn [List.length].
    destruct (Z.leb_spec 0 (Z.of_nat (List.length (time_blocks s)))); [|lia].
    destruct (Z.ltb_spec (Z.of_nat (List.length (time_blocks s)))
                (Z.of_nat (List.length (time_blocks s) + 1))); [|lia].
    cbn [andb]. rewrite Nat2Z.id, list_pop_last. reflexivity. }
  rewrite Hr. cbn [fst snd].
  split; [reflexivity|]. split; [exact Hd|]. split; [reflexivity|].
  intros (Hst & Hbr & Hnil & Hpos & Hzero).
  unfold _update_metrics. cbn [time_blocks total_study_time total_break_time
                                 efficiency_score].
  rewrite !sum_durations_filter, sum_durations_total.
  split; [symmetry; exact Hst|]. split; [symmetry; exact Hbr|].
  destruct (Z.gtb_spec (total_block_minutes (time_blocks s)) 0) as [Hgt|Hle].
  - symmetry. apply Hpos. lia.
  - symmetry. apply Hzero. lia.
Qed.

Lemma X2_add_remove_round_trip_witness :
  snd (add_block ex_fixed_day ex_seminar) = true /\
  time_blocks
    (fst (remove_block (fst (add_block ex_fixed_day ex_seminar))
            (Z.of_nat (List.length (time_blocks ex_fixed_day)))))
  = time_blocks ex_fixed_day.
Proof.
  assert (H : snd (add_block ex_fixed_day ex_seminar) = true) by reflexivity.
  split; [exact H|].
  exact (proj1 (proj2 (proj2 (X2_add_remove_round_trip ex_fixed_day ex_seminar
                                H)))).
Defined.

Lemma overlaps_with_self (b : TimeBlock) :
  valid_block b -> overlaps_with b b = true.
Proof.
  unfold valid_block, overlaps_with. intro H.
  rewrite Z.gtb_ltb. apply Z.ltb_lt in H. rewrite H. reflexivity.
Qed.

(** X3. A container never holds a valid block twice: once [add_block] has
    accepted a block whose end is after its start, a second [add_block] of
    the same block is refused and changes nothing.  An empty container
    accepts every block. *)
Theorem X3_no_block_twice (s : Schedule) (b : TimeBlock) :
  (valid_block b -> snd (add_block s b) = true ->
   add_block (fst (add_block s b)) b = (fst (add_block s b), false)) /\
  (time_blocks s = [] ->
   snd (add_block s b) = true /\ time_blocks (fst (add_block s b)) = [b]).
Proof.
  split.
  - intros Hv Hadd. apply (add_block_refuses _ b b).
    + rewrite add_block_blocks, <- add_block_flag, Hadd.
      apply in_or_app. right. left. reflexivity.
    + apply overlaps_with_self, Hv.
  - intro Hnil. rewrite add_block_flag, add_block_blocks, Hnil.
    split; reflexivity.
Qed.

Lemma X3_no_block_twice_witness :
  valid_block ex_lecture /\
  snd (add_block (Schedule_new (at_ 5 0 0)) ex_lecture) = true /\
  snd (add_block (fst (add_block (Schedule_new (at_ 5 0 0)) ex_lecture))
         ex_lecture) = false.
Proof.
  assert (Hv : valid_block ex_lecture) by reflexivity.
  assert (Ha : snd (add_block (Schedule_new (at_ 5 0 0)) ex_lecture) = true)
    by reflexivity.
  split; [exact Hv|]. split; [exact Ha|].
  rewrite (proj1 (X3_no_block_twice (Schedule_new (at_ 5 0 0)) ex_lecture)
             Hv Ha).
  reflexivity.
Defined.

(* ------------------------------------------------------------------ *)
(** * Further properties of the Slot Finder *)

Lemma gaps_long_enough (d : Z) (cur E : datetime) (l : list TimeBlock) :
  Forall (fun g => minutes d <= snd g - fst g) (gaps d cur E l).
Proof.
  unfold gaps. apply Forall_forall. intros g Hg.
  apply filter_In in Hg. destruct Hg as [_ Hg].
  unfold long_enough in Hg. apply Z.leb_le. exact Hg.
Qed.

Lemma gaps_In (d : Z) (cur E : datetime) (l : list TimeBlock) (g : slot) :
  In g (gaps d cur E l) ->
  (fst g = cur \/ exists y, In y l /\ fst g = end_time y) /\
  (snd g = E \/ exists y, In y l /\ snd g = start_time y).
Proof.
  unfold gaps. intro H. apply filter_In in H. destruct H as [H _].
  destruct g as [g1 g2]. cbn [fst snd]. split.
  - apply in_combine_l in H. destruct H as [<-|H]; [left; reflexivity|].
    right. apply in_map_iff in H. destruct H as [y [<- Hy]]. eauto.
  - apply in_combine_r in H. apply in_app_or in H.
    destruct H as [H|[<-|[]]]; [|left; reflexivity].
    right. apply in_map_iff in H. destruct H as [y [<- Hy]]. eauto.
Qed.

(** The gaps of a walk over sorted, valid, pairwise disjoint blocks are
    clear of the blocks already passed and of the blocks still ahead. *)
Lemma gaps_clear (d : Z) (E : datetime) (l : list TimeBlock) :
  StronglySorted (fun a b => start_time a <= start_time b) l ->
  Forall valid_block l ->
  ForallOrdPairs disjoint l ->
  forall cur prev,
    Forall (fun y => end_time y <= cur) prev ->
    (forall y x, In y prev -> In x l -> end_time y <= start_time x) ->
    Forall (fun g => forall y, In y (prev ++ l) -> slot_clear g y)
      (gaps d cur E l).
Proof.
  induction 1 as [|b l Hl IH Hb]; intros Hv Hd cur prev Hprev Hpl.
  - rewrite gaps_nil. destruct (minutes d <=? E - cur); constructor;
      [|constructor].
    intros y Hy. rewrite app_nil_r in Hy. left. cbn [fst].
    rewrite Forall_forall in Hprev. apply Hprev. exact Hy.
  - inversion Hv as [|? ? Hvb Hvl]; subst.
    inversion Hd as [|? ? Hdb Hdl]; subst.
    rewrite Forall_forall in Hb, Hdb, Hprev.
    rewrite gaps_cons. apply Forall_app. split.
    + destruct (minutes d <=? start_time b - cur); constructor;
        [|constructor].
      intros y Hy. apply in_app_or in Hy. destruct Hy as [Hy|[<-|Hy]].
      * left. cbn [fst]. apply Hprev. exact Hy.
      * right. cbn [snd]. lia.
      * right. cbn [snd]. apply Hb. exact Hy.
    + assert (Hafter : forall x, In x l -> end_time b <= start_time x).
      { intros x Hx. specialize (Hb x Hx). specialize (Hdb x Hx).
        apply overlaps_with_false in Hdb.
        rewrite Forall_forall in Hvl. specialize (Hvl x Hx).
        unfold valid_block in Hvl, Hvb. lia. }
      specialize (IH Hvl Hdl (end_time b) (prev ++ [b])).
      rewrite <- app_assoc in IH. cbn [app] in IH. apply IH.
      * apply Forall_app. split.
        -- apply Forall_forall. intros y Hy.
           specialize (Hpl y b Hy (or_introl eq_refl)).
           unfold valid_block in Hvb. lia.
        -- constructor; [lia | constructor].
      * intros y x Hy Hx. apply in_app_or in Hy.
        destruct Hy as [Hy|[<-|[]]].
        -- apply Hpl; [exact Hy | right; exact Hx].
        -- apply Hafter. exact Hx.
Qed.

Lemma slots_clear (s : Schedule) (d : Z) (st en : time) :
  Forall valid_block (time_blocks s) -> NoOverlap (time_blocks s) ->
  Forall (fun g => forall y, In y (time_blocks s) -> slot_clear g y)
    (get_available_slots s d st en).
Proof.
  intros Hv Hno. rewrite get_available_slots_gaps.
  pose proof (sorted_by_perm start_time Z.ltb (time_blocks s)) as Hp.
  eapply Forall_impl;
    [| apply (gaps_clear d _ _ (sorted_by_start_order _)
                (valid_sorted_by _ Hv)
                (proj1 (NoOverlap_pairs _) (NoOverlap_perm _ _ Hp Hno))
                _ []); [constructor | intros y x []]].
  cbn [app]. intros g Hg y Hy. apply Hg.
  eapply Permutation_in; [exact Hp | exact Hy].
Qed.

(** X4. The slots that [get_available_slots] returns all last at least the
    requested number of minutes; and when the blocks of the container are
    valid and pairwise non-overlapping, every returned slot is free: each
    block of the container ends by the start of the slot or starts at or
    after its end. *)
Theorem X4_slots_are_free (s : Schedule) (d : Z) (st en : time) :
  Forall (fun g => minutes d <= snd g - fst g)
    (get_available_slots s d st en) /\
  (Forall valid_block (time_blocks s) -> NoOverlap (time_blocks s) ->
   Forall (fun g => forall y, In y (time_blocks s) -> slot_clear g y)
     (get_available_slots s d st en)).
Proof.
  split; [rewrite get_available_slots_gaps; apply gaps_long_enough|].
  apply slots_clear.
Qed.

Lemma X4_slots_are_free_witness :
  Forall valid_block (time_blocks ex_fixed_day) /\
  NoOverlap (time_blocks ex_fixed_day) /\
  Forall (fun g => forall y, In y (time_blocks ex_fixed_day) -> slot_clear g y)
    (get_available_slots ex_fixed_day 30 (mk_time 9 0) (mk_time 22 0)).
Proof.
  assert (Hv : Forall valid_block (time_blocks ex_fixed_day))
    by (repeat constructor).
  assert (Hno : NoOverlap (time_blocks ex_fixed_day))
    by (apply NoOverlap_pairs; repeat constructor).
  split; [exact Hv|]. split; [exact Hno|].
  exact (proj2 (X4_slots_are_free ex_fixed_day 30 (mk_time 9 0)
                  (mk_time 22 0)) Hv Hno).
Defined.

(** X5. When no block of the container ends before the window start and
    none starts after the window end, every slot that
    [get_available_slots] returns lies inside the window; with a
    non-negative minimum duration its start is not after its end. *)
Theorem X5_slots_within_window (s : Schedule) (d : Z) (st en : time) :
  let W := combine_date (date_of (date s)) st in
  let E := combine_date (date_of (date s)) en in
  Forall (fun y => W <= end_time y /\ start_time y <= E) (time_blocks s) ->
  Forall (fun g => W <= fst g /\ snd g <= E /\ (0 <= d -> fst g <= snd g))
    (get_available_slots s d st en).
Proof.
  intros W E H. rewrite get_available_slots_gaps. fold W E.
  pose proof (gaps_long_enough d W E
                (sorted_by start_time Z.ltb (time_blocks s))) as Hlong.
  rewrite Forall_forall in H, Hlong. apply Forall_forall. intros g Hg.
  destruct (gaps_In _ _ _ _ _ Hg) as [Hf Hs]. specialize (Hlong g Hg).
  destruct g as [g1 g2]. cbn [fst snd] in *. split; [|split].
  - destruct Hf as [Hf|[y [Hy Hf]]]; subst g1; [lia|].
    apply sorted_by_In in Hy. apply (H y Hy).
  - destruct Hs as [Hs|[y [Hy Hs]]]; subst g2; [lia|].
    apply sorted_by_In in Hy. apply (H y Hy).
  - intro Hd. unfold minutes in Hlong.
    assert (Hm : 0 < us_per_minute) by reflexivity. nia.
Qed.

Lemma X5_slots_within_window_witness :
  Forall (fun y => at_ 5 9 0 <= end_time y /\ start_time y <= at_ 5 22 0)
    (time_blocks ex_fixed_day) /\
  Forall (fun g => at_ 5 9 0 <= fst g /\ snd g <= at_ 5 22 0 /\
                   (0 <= 30 -> fst g <= snd g))
    (get_available_slots ex_fixed_day 30 (mk_time 9 0) (mk_time 22 0)).
Proof.
  assert (H : Forall (fun y => at_ 5 9 0 <= end_time y /\
                               start_time y <= at_ 5 22 0)
                (time_blocks ex_fixed_day))
    by (repeat constructor; discriminate).
  split; [exact H|].
  exact (X5_slots_within_window ex_fixed_day 30 (mk_time 9 0) (mk_time 22 0) H).
Defined.

(* ------------------------------------------------------------------ *)
(** * Further properties of the Task Placer *)

Lemma StronglySorted_remove {A : Type} (R : A -> A -> Prop) (pre : list A)
    (x : A) (post : list A) :
  StronglySorted R (pre ++ x :: post) ->
  StronglySorted R (pre ++ post) /\
  Forall (fun y => R y x) pre /\ Forall (fun y => R x y) post.
Proof.
  induction pre as [|p pre IH]; cbn [app]; intro H.
  - inversion H; subst. split; [assumption|]. split; [constructor | assumption].
  - inversion H as [|? ? Hs Hp]; subst.
    destruct (IH Hs) as (H1 & H2 & H3).
    apply Forall_app in Hp. destruct Hp as [Hp1 Hp2].
    inversion Hp2; subst.
    split; [|split; [constructor; assumption | exact H3]].
    constructor; [exact H1|]. apply Forall_app. split; assumption.
Qed.

Lemma slots_ok_found (s : Schedule) (d : Z) (st en : time) :
  Forall valid_block (time_blocks s) -> NoOverlap (time_blocks s) ->
  slots_ok (time_blocks s) (get_available_slots s d st en).
Proof.
  intros Hv Hno. split; [|apply slots_clear; assumption].
  rewrite get_available_slots_gaps. unfold gaps.
  apply StronglySorted_filter, candidate_gaps_sorted;
    [apply sorted_by_start_order | apply valid_sorted_by, Hv].
Qed.

Lemma best_slot_loop_Some (s : Schedule) (a : Assignment) (sl : list slot)
    (best : slot) :
  slots_ok (time_blocks s) sl ->
  best_slot_loop (total_time_needed a) sl None (-1)%Q = Ok (Some best) ->
  0 < total_time_needed a ->
  exists b pre post,
    study_block_of a (fst best) (total_time_needed a) = Ok b /\
    sl = pre ++ best :: post /\
    _schedule_single_assignment s a sl
      = Ok (fst (add_block s b), pre ++ post) /\
    time_blocks (fst (add_block s b)) = time_blocks s ++ [b] /\
    slots_ok (time_blocks s ++ [b]) (pre ++ post).
Proof.
  intros [Hsorted Hclear] Eb Ht.
  destruct (best_slot_loop_Ok _ _ _ _ _ Eb) as [Hn|[b0 [Hb0 Hin]]];
    [discriminate|]. injection Hb0 as <-.
  pose proof (candidate_fits _ _ _ Hin) as Hfit.
  apply candidates_In in Hin. destruct Hin as [Hin _].
  destruct (study_block_of_pos a (fst best) _ Ht) as [b Eblk].
  destruct (study_block_of_Ok _ _ _ _ Eblk) as (_ & Hs & He & _).
  destruct (list_remove_In best sl Hin) as (pre & post & Esl & _ & Erm).
  assert (Hcan : can_add_loop b (time_blocks s) = true).
  { apply can_add_loop_true. apply Forall_forall. intros y Hy.
    rewrite Forall_forall in Hclear. specialize (Hclear best Hin y Hy).
    apply overlaps_with_false. unfold slot_clear in Hclear. lia. }
  exists b, pre, post. split; [exact Eblk|]. split; [exact Esl|].
  split; [|split].
  - unfold _schedule_single_assignment. rewrite Eb. cbn [bind].
    rewrite Eblk. cbn [bind].
    pose proof (add_block_flag s b) as Hfl. rewrite Hcan in Hfl.
    destruct (add_block s b) as [s1 added]. cbn [fst snd] in *. subst added.
    rewrite Erm. reflexivity.
  - rewrite add_block_blocks, Hcan. reflexivity.
  - rewrite Esl in Hsorted, Hclear.
    destruct (StronglySorted_remove _ _ _ _ Hsorted) as (H1 & H2 & H3).
    split; [exact H1|].
    apply Forall_app in Hclear. destruct Hclear as [Hc1 Hc2].
    inversion Hc2 as [|? ? _ Hc3]; subst.
    rewrite Forall_forall in H2, H3, Hc1, Hc3.
    apply Forall_forall. intros g Hg y Hy.
    apply in_app_or in Hy. apply in_app_or in Hg.
    destruct Hy as [Hy|[<-|[]]].
    + destruct Hg as [Hg|Hg]; [apply Hc1 | apply Hc3]; assumption.
    + unfold slot_clear. destruct Hg as [Hg|Hg].
      * specialize (H2 g Hg). cbn beta in H2. lia.
      * specialize (H3 g Hg). cbn beta in H3. lia.
Qed.

(** X6. The free slots that [get_available_slots] finds in a container
    with valid, pairwise non-overlapping blocks are chronological and
    clear of every block.  On such slots the container never refuses a
    study block: whenever the selection loop picks a slot for a task with
    a positive time needed, the block is appended at the start of that
    slot and the slot is dropped; the remaining slots are again
    chronological and clear of every block, so the same holds for the next
    task. *)
Theorem X6_selected_slot_is_accepted :
  (forall s d st en,
      Forall valid_block (time_blocks s) -> NoOverlap (time_blocks s) ->
      slots_ok (time_blocks s) (get_available_slots s d st en)) /\
  (forall s a sl,
      0 < total_time_needed a -> slots_ok (time_blocks s) sl ->
      exists s' sl',
        _schedule_single_assignment s a sl = Ok (s', sl') /\
        slots_ok (time_blocks s') sl' /\
        (best_slot_loop (total_time_needed a) sl None (-1)%Q = Ok None ->
         s' = s /\ sl' = sl) /\
        (forall best,
            best_slot_loop (total_time_needed a) sl None (-1)%Q
              = Ok (Some best) ->
            exists b pre post,
              study_block_of a (fst best) (total_time_needed a) = Ok b /\
              time_blocks s' = time_blocks s ++ [b] /\
              sl = pre ++ best :: post /\ sl' = pre ++ post)).
Proof.
  split; [exact slots_ok_found|].
  intros s a sl Ht Hok.
  destruct (best_slot_loop_spec (total_time_needed a) sl ltac:(lia) None
              (-1)%Q) as [r [Er _]].
  destruct r as [best|].
  - destruct (best_slot_loop_Some s a sl best Hok Er Ht)
      as (b & pre & post & Eblk & Esl & Erun & Hbl & Hok').
    exists (fst (add_block s b)), (pre ++ post).
    split; [exact Erun|]. split; [rewrite Hbl; exact Hok'|].
    split; [rewrite Er; discriminate|].
    intros best' Hbest'. rewrite Er in Hbest'. injection Hbest' as <-.
    exists b, pre, post. auto.
  - exists s, sl. split.
    + unfold _schedule_single_assignment. rewrite Er. reflexivity.
    + split; [exact Hok|]. split; [auto|].
      intros best Hbest. rewrite Er in Hbest. discriminate.
Qed.

Lemma X6_selected_slot_is_accepted_witness :
  0 < total_time_needed ex_task_90 /\
  Forall valid_block (time_blocks ex_fixed_day) /\
  NoOverlap (time_blocks ex_fixed_day) /\
  exists s' sl',
    _schedule_single_assignment ex_fixed_day ex_task_90
      (get_available_slots ex_fixed_day 30 (mk_time 9 0) (mk_time 22 0))
      = Ok (s', sl') /\
    slots_ok (time_blocks s') sl'.
Proof.
  assert (Ht : 0 < total_time_needed ex_task_90) by reflexivity.
  assert (Hv : Forall valid_block (time_blocks ex_fixed_day))
    by (repeat constructor).
  assert (Hno : NoOverlap (time_blocks ex_fixed_day))
    by (apply NoOverlap_pairs; repeat constructor).
  split; [exact Ht|]. split; [exact Hv|]. split; [exact Hno|].
  destruct X6_selected_slot_is_accepted as [Hfound Hstep].
  destruct (Hstep ex_fixed_day ex_task_90 _ Ht
              (Hfound ex_fixed_day 30 (mk_time 9 0) (mk_time 22 0) Hv Hno))
    as (s' & sl' & E & Hok & _).
  exists s', sl'. split; [exact E | exact Hok].
Defined.

(** Every block the loop over the tasks adds uses up one free slot. *)
Lemma assignments_loop_count (l : list Assignment) (d : datetime) :
  forall s sl s' sl',
    assignments_loop s l d sl = Ok (s', sl') ->
    exists added,
      time_blocks s' = time_blocks s ++ added /\
      Forall (fun b => block_type b = STUDY) added /\
      (List.length added + List.length sl' = List.length sl)%nat /\
      (List.length added <= List.length l)%nat.
Proof.
  induction l as [|a l IH]; intros s sl s' sl' E; cbn [assignments_loop] in E.
  - injection E as <- <-. exists []. rewrite app_nil_r.
    repeat split; [constructor | cbn; lia].
  - destruct (_can_schedule_assignment a d).
    + inv_bind E. destruct a0 as [s1 sl1].
      destruct (IH _ _ _ _ E) as (added & Hbl & Hst & Hlen & Hle).
      destruct (schedule_single_Ok _ _ _ _ _ Ha)
        as [[-> ->]|(best & b & pre & post & _ & Eb & _ & _ & Hs1 & Esl & _
                     & Esl1)].
      * exists added. repeat split; try assumption. cbn. lia.
      * exists (b :: added). split; [|split; [|split]].
        -- rewrite Hbl, Hs1, <- app_assoc. reflexivity.
        -- constructor; [|exact Hst].
           apply study_block_of_Ok in Eb. tauto.
        -- subst sl sl1. rewrite !length_app in *. cbn [List.length] in *. lia.
        -- cbn. lia.
    + destruct (IH _ _ _ _ E) as (added & Hbl & Hst & Hlen & Hle).
      exists added. repeat split; try assumption. cbn. lia.
Qed.

(** X7. The placement of a day only appends study blocks, at most one for
    every free slot found at its start and at most one for every task
    that is not completed.  On a day whose container is empty there is
    one free slot at most, so at most one study block is placed. *)
Theorem X7_one_block_per_slot (c : SchedulingConstraints) (s : Schedule)
    (l : list Assignment) (d : datetime) (s' : Schedule) :
  _schedule_assignments_for_day c s l d = Ok s' ->
  exists added,
    time_blocks s' = time_blocks s ++ added /\
    Forall (fun b => block_type b = STUDY) added /\
    (List.length added <=
     List.length (get_available_slots s (min_study_session c)
                    (c_start_time c) (c_end_time c)))%nat /\
    (List.length added <=
     List.length (filter (fun a => negb (is_completed a)) l))%nat /\
    (time_blocks s = [] -> (List.length added <= 1)%nat).
Proof.
  intro E. unfold _schedule_assignments_for_day in E.
  assert (Hone : time_blocks s = [] ->
                 (List.length (get_available_slots s (min_study_session c)
                                 (c_start_time c) (c_end_time c)) <= 1)%nat).
  { intro Hnil. rewrite get_available_slots_gaps, Hnil.
    cbn [sorted_by fold_right]. rewrite gaps_nil.
    destruct (_ <=? _); cbn; lia. }
  destruct (filter _ l) as [|a0 av0] eqn:Eav.
  - injection E as <-. exists []. rewrite app_nil_r.
    repeat split; try constructor; cbn; lia.
  - destruct (get_available_slots _ _ _ _) as [|x0 sl0] eqn:Esl.
    + injection E as <-. exists []. rewrite app_nil_r.
      repeat split; try constructor; cbn; lia.
    + inv_bind E. destruct a as [s1 sl1]. injection E as <-.
      destruct (assignments_loop_count _ _ _ _ _ _ Ha)
        as (added & Hbl & Hst & Hlen & Hle).
      exists added. split; [exact Hbl|]. split; [exact Hst|].
      split; [lia|]. split; [exact Hle|].
      intro Hnil. specialize (Hone Hnil). lia.
Qed.

Lemma X7_one_block_per_slot_witness :
  exists s' added,
    _schedule_assignments_for_day default_constraints
      (Schedule_new (at_ 5 0 0))
      [ex_task 1 "Essay" None MEDIUM 200 false;
       ex_task 2 "Project" None MEDIUM 240 false] (at_ 5 0 0) = Ok s' /\
    time_blocks s' = time_blocks (Schedule_new (at_ 5 0 0)) ++ added /\
    List.length added = 1%nat.
Proof.
  assert (E : exists s',
             _schedule_assignments_for_day default_constraints
               (Schedule_new (at_ 5 0 0))
               [ex_task 1 "Essay" None MEDIUM 200 false;
                ex_task 2 "Project" None MEDIUM 240 false] (at_ 5 0 0)
             = Ok s')
    by (eexists; vm_compute; reflexivity).
  destruct E as [s' E].
  destruct (X7_one_block_per_slot _ _ _ _ _ E) as (added & Hbl & _).
  exists s', added. split; [exact E|]. split; [exact Hbl|].
  vm_compute in E. injection E as <-. cbn [time_blocks Schedule_new app] in Hbl.
  subst added. reflexivity.
Defined.

Lemma best_slot_loop_zero (sl : list slot) :
  candidates 0 sl <> [] ->
  forall best_slot best_score,
    best_slot_loop 0 sl best_slot best_score = Raise ZeroDivisionError.
Proof.
  induction sl as [|x sl IH]; intros Hc bs bsc; [contradiction Hc; reflexivity|].
  cbn [best_slot_loop candidates filter] in *. fold (candidates 0 sl) in Hc.
  fold (slot_minutes x) in *.
  destruct (Qle_bool (inject_Z 0) (slot_minutes x)); [reflexivity|].
  apply IH. exact Hc.
Qed.

Lemma time_score_min (x : slot) : (2 # 10 <= time_score x)%Q.
Proof.
  unfold time_score.
  destruct (_ && _); [discriminate|].
  destruct (_ && _); [discriminate|].
  destruct (_ && _); discriminate.
Qed.

Lemma time_score_max (x : slot) : (time_score x <= 1)%Q.
Proof.
  unfold time_score.
  destruct (_ && _); [discriminate|].
  destruct (_ && _); [discriminate|].
  destruct (_ && _); discriminate.
Qed.

Lemma Qdiv_neg_nonpos (q : Q) (t : Z) :
  (0 <= q)%Q -> t < 0 -> (q / inject_Z t <= 0)%Q.
Proof.
  intros Hq Ht. destruct t as [|p|p]; try lia.
  destruct q as [qn qd]. unfold Qle, Qdiv, Qmult, Qinv, inject_Z in *.
  cbn in *. nia.
Qed.

Lemma score_negative_need (t : Z) (x : slot) :
  t < 0 -> (-1 < score t x)%Q.
Proof.
  intro Ht. unfold score, fit_score.
  pose proof (Qdiv_neg_nonpos _ t
                (Qabs_nonneg (slot_minutes x - inject_Z t)) Ht) as H.
  pose proof (time_score_min x). lra.
Qed.

Lemma study_block_of_nonpos (a : Assignment) (st : datetime) (t : Z) :
  t <= 0 -> study_block_of a st t = Raise ValueError.
Proof.
  intro Ht. unfold study_block_of, TimeBlock_new.
  destruct (Z.leb_spec (st + minutes t) st) as [|H]; [reflexivity|].
  unfold minutes in H. assert (Hm : 0 < us_per_minute) by reflexivity. nia.
Qed.

Lemma assignments_loop_total (l : list Assignment) (d : datetime) :
  Forall (fun a => 0 < total_time_needed a) l ->
  forall s sl, exists s' sl', assignments_loop s l d sl = Ok (s', sl').
Proof.
  induction 1 as [|a l Ha Hl IH]; intros s sl; cbn [assignments_loop];
    [eauto|].
  destruct (_can_schedule_assignment a d); [|apply IH].
  destruct (schedule_single_total s a sl Ha) as (s1 & sl1 & E).
  rewrite E. cbn [bind]. apply IH.
Qed.

(** X8. Errors of the Placer.  The placement of a day raises nothing when
    every task that is not completed needs a positive time.  A task
    longer than every free slot is passed over, whatever its time needed.
    A task whose time needed is 0 makes the call raise ZeroDivisionError as
    soon as one slot is considered, and a task with a negative time needed
    makes it raise ValueError, from the block constructor, as soon as one
    slot is considered. *)
Theorem X8_placer_errors :
  (forall c s l d,
      Forall (fun a => is_completed a = false -> 0 < total_time_needed a) l ->
      exists s', _schedule_assignments_for_day c s l d = Ok s') /\
  (forall s a sl,
      candidates (total_time_needed a) sl = [] ->
      _schedule_single_assignment s a sl = Ok (s, sl)) /\
  (forall s a sl,
      total_time_needed a = 0 -> candidates 0 sl <> [] ->
      _schedule_single_assignment s a sl = Raise ZeroDivisionError) /\
  (forall s a sl,
      total_time_needed a < 0 ->
      candidates (total_time_needed a) sl <> [] ->
      _schedule_single_assignment s a sl = Raise ValueError).
Proof.
  split; [|split; [|split]].
  - intros c s l d H. unfold _schedule_assignments_for_day.
    assert (Hav : Forall (fun a => 0 < total_time_needed a)
                    (filter (fun a => negb (is_completed a)) l)).
    { apply Forall_forall. intros a Ha. apply filter_In in Ha.
      destruct Ha as [Hin Hopen]. rewrite Forall_forall in H.
      apply H; [exact Hin|]. apply negb_true_iff. exact Hopen. }
    destruct (filter _ l) as [|a0 av0]; [eauto|].
    destruct (get_available_slots _ _ _ _) as [|x0 sl0]; [eauto|].
    destruct (assignments_loop_total _ d Hav s (x0 :: sl0)) as (s' & sl' & E).
    rewrite E. cbn [bind]. eauto.
  - intros s a sl Hc. unfold _schedule_single_assignment.
    rewrite (best_slot_loop_no_candidate _ _ Hc). reflexivity.
  - intros s a sl Ht Hc. unfold _schedule_single_assignment. rewrite Ht.
    rewrite (best_slot_loop_zero sl Hc). reflexivity.
  - intros s a sl Ht Hc. unfold _schedule_single_assignment.
    destruct (best_slot_loop_spec (total_time_needed a) sl ltac:(lia) None
                (-1)%Q) as [r [Er Hr]].
    rewrite Er. cbn [bind].
    destruct Hr as [[-> Hall]|(pre & b & post & _ & -> & _)].
    + exfalso. destruct (candidates (total_time_needed a) sl) as [|x cs];
        [apply Hc; reflexivity|].
      inversion Hall as [|? ? Hx _]; subst.
      pose proof (score_negative_need _ x Ht). lra.
    + rewrite study_block_of_nonpos by lia. reflexivity.
Qed.

Lemma X8_placer_errors_witness :
  total_time_needed ex_task_zero = 0 /\
  candidates 0 ex_two_slots <> [] /\
  _schedule_single_assignment (Schedule_new (at_ 5 0 0)) ex_task_zero
    ex_two_slots = Raise ZeroDivisionError /\
  total_time_needed ex_task_negative < 0 /\
  _schedule_single_assignment (Schedule_new (at_ 5 0 0)) ex_task_negative
    ex_two_slots = Raise ValueError.
Proof.
  assert (H0 : total_time_needed ex_task_zero = 0) by reflexivity.
  assert (Hc : candidates 0 ex_two_slots <> []) by discriminate.
  assert (Hn : total_time_needed ex_task_negative < 0) by reflexivity.
  assert (Hcn : candidates (total_time_needed ex_task_negative) ex_two_slots
                <> []) by discriminate.
  destruct X8_placer_errors as (_ & _ & Hz & Hneg).
  split; [exact H0|]. split; [exact Hc|].
  split; [exact (Hz _ ex_task_zero ex_two_slots H0 Hc)|].
  split; [exact Hn|]. exact (Hneg _ ex_task_negative ex_two_slots Hn Hcn).
Defined.

(* ------------------------------------------------------------------ *)
(** * Further properties of a scheduling run *)

Lemma run_dates_succ (d : datetime) (n : nat) :
  run_dates d (S n) = d :: run_dates (d + days 1) n.
Proof.
  unfold run_dates. cbn [seq map]. f_equal.
  - unfold days. cbn. ring.
  - rewrite <- seq_shift, map_map. apply map_ext. intro i.
    unfold days. rewrite Nat2Z.inj_succ. ring.
Qed.

Lemma phases_keep_date c sorted ws cs d s :
  (s1 <- _add_fixed_blocks (Schedule_new d) cs ws d ;;
   s2 <- _schedule_assignments_for_day c s1 sorted d ;;
   _add_breaks_and_optimize c s2) = Ok s ->
  date s = d.
Proof.
  intro E. inv_bind E. rename a into s1, Ha into E1.
  inv_bind E. rename a into s2, Ha into E2.
  pose (P := fun x : Schedule => date x = d).
  assert (Padd : forall x b, True -> P x -> P (fst (add_block x b))).
  { intros x b _ Hx. unfold P. rewrite add_block_date. exact Hx. }
  assert (Bv : forall b, valid_block b -> True) by trivial.
  apply (add_breaks_inv P (fun _ => True) Padd Bv c s2 s E).
  apply (schedule_for_day_inv P (fun _ => True) Padd Bv c s1 sorted d s2 E2).
  apply (add_fixed_blocks_inv P (fun _ => True) Padd Bv _ cs ws d s1
           (Forall_True cs) E1).
  reflexivity.
Qed.

Lemma days_loop_dates c sorted ws cs (n : nat) :
  forall d schedules,
    days_loop c sorted ws cs n d = Ok schedules ->
    map date schedules = run_dates d n.
Proof.
  induction n as [|n IH]; intros d schedules E.
  - injection E as <-. reflexivity.
  - rewrite run_dates_succ. cbn [days_loop] in E.
    destruct (_add_fixed_blocks (Schedule_new d) cs ws d) as [s1|e] eqn:E1;
      [|discriminate]. cbn [bind] in E.
    destruct (_schedule_assignments_for_day c s1 sorted d) as [s2|e] eqn:E2;
      [|discriminate]. cbn [bind] in E.
    destruct (_add_breaks_and_optimize c s2) as [s3|e] eqn:E3;
      [|discriminate]. cbn [bind] in E.
    inv_bind E. injection E as <-. cbn [map]. f_equal.
    + apply (phases_keep_date c sorted ws cs d s3).
      rewrite E1. cbn [bind]. rewrite E2. cbn [bind]. exact E3.
    + apply IH. exact Ha.
Qed.

(** X9. A run that returns gives one schedule per day, in day order: for a
    positive [days_ahead] the list has [days_ahead] schedules and the
    schedule at position [i] carries the date [start_date] plus [i] days;
    for [days_ahead] of 0 or less the run returns the empty list, whatever
    the other inputs. *)
Theorem X9_one_schedule_per_day (c : SchedulingConstraints)
    (clock : nat -> datetime) (assignments : list Assignment)
    (work_shifts : list WorkShift) (class_schedule : list TimeBlock)
    (start_date : datetime) (days_ahead : Z) :
  (days_ahead <= 0 ->
   create_schedule c clock assignments work_shifts class_schedule start_date
     days_ahead = Ok []) /\
  (forall schedules,
      create_schedule c clock assignments work_shifts class_schedule
        start_date days_ahead = Ok schedules ->
      Z.of_nat (List.length schedules) = Z.max 0 days_ahead /\
      map date schedules = run_dates start_date (Z.to_nat days_ahead) /\
      (forall i s, nth_error schedules i = Some s ->
                   date s = start_date + days (Z.of_nat i))).
Proof.
  unfold create_schedule. split.
  - intro H. replace (Z.to_nat days_ahead) with O by lia. reflexivity.
  - intros schedules E. apply days_loop_dates in E.
    assert (Hlen : List.length schedules = Z.to_nat days_ahead).
    { rewrite <- (length_map date), E. unfold run_dates.
      rewrite length_map, length_seq. reflexivity. }
    split; [lia|]. split; [exact E|].
    intros i s Hi.
    assert (Hd : nth_error (map date schedules) i = Some (date s)).
    { rewrite nth_error_map, Hi. reflexivity. }
    rewrite E in Hd. unfold run_dates in Hd.
    rewrite nth_error_map, nth_error_seq in Hd.
    destruct (Nat.ltb i (Z.to_nat days_ahead)); [|discriminate].
    cbn [option_map] in Hd. injection Hd as <-. reflexivity.
Qed.

Lemma X9_one_schedule_per_day_witness :
  exists schedules,
    ex_run = Ok schedules /\
    map date schedules = [at_ 5 0 0; at_ 6 0 0] /\
    create_schedule default_constraints (fun _ => at_ 5 7 0) [] [] []
      (at_ 5 0 0) (-3) = Ok [].
Proof.
  assert (E : exists schedules, ex_run = Ok schedules)
    by (eexists; vm_compute; reflexivity).
  destruct E as [schedules E]. exists schedules. split; [exact E|].
  destruct (X9_one_schedule_per_day default_constraints (fun _ => at_ 5 7 0)
              [ex_task 1 "Quiz prep" None MEDIUM 60 false;
               ex_task 2 "Essay" None MEDIUM 200 false]
              [ex_shift (at_ 5 18 0) (at_ 5 20 0)] [ex_lecture]
              (at_ 5 0 0) 2) as [_ H].
  destruct (H schedules E) as (_ & Hd & _).
  split; [exact Hd|].
  apply (proj1 (X9_one_schedule_per_day default_constraints
                  (fun _ => at_ 5 7 0) [] [] [] (at_ 5 0 0) (-3))).
  discriminate.
Defined.

Lemma days_loop_nothing_to_do c sorted (n : nat) :
  Forall (fun a => is_completed a = true) sorted ->
  forall d,
    days_loop c sorted [] [] n d = Ok (map Schedule_new (run_dates d n)).
Proof.
  intro Hdone.
  assert (Hav : filter (fun a => negb (is_completed a)) sorted = []).
  { induction Hdone as [|a l Ha Hl IH]; [reflexivity|].
    cbn [filter]. rewrite Ha. exact IH. }
  induction n as [|n IH]; intro d; [reflexivity|].
  rewrite run_dates_succ. cbn [days_loop map].
  unfold _add_fixed_blocks. cbn [add_class_blocks add_work_blocks bind].
  unfold _schedule_assignments_for_day. rewrite Hav. cbn [bind].
  unfold _add_breaks_and_optimize. cbn [bind].
  rewrite IH. reflexivity.
Qed.

(** X10. A run without fixed commitments and without open tasks (no tasks
    at all, or completed ones only) returns for every day the empty
    schedule of that date: no blocks, study and break time 0, efficiency
    0. *)
Theorem X10_nothing_to_schedule (c : SchedulingConstraints)
    (clock : nat -> datetime) (assignments : list Assignment)
    (start_date : datetime) (days_ahead : Z) :
  Forall (fun a => is_completed a = true) assignments ->
  create_schedule c clock assignments [] [] start_date days_ahead =
  Ok (map Schedule_new (run_dates start_date (Z.to_nat days_ahead))).
Proof.
  intro H. unfold create_schedule. apply days_loop_nothing_to_do.
  unfold _sort_assignments_by_priority.
  apply Forall_forall. intros a Ha. apply in_map_iff in Ha.
  destruct Ha as [[k a'] [<- Ha]]. cbn [snd].
  apply (Permutation_in _
           (Permutation_sym (sorted_by_perm fst sort_key_ltb _))) in Ha.
  assert (Hin : In a' (map snd (decorate clock 0 assignments))).
  { apply in_map_iff. exists (k, a'). auto. }
  rewrite decorate_snd in Hin. rewrite Forall_forall in H. apply H, Hin.
Qed.

Lemma X10_nothing_to_schedule_witness :
  Forall (fun a => is_completed a = true)
    [ex_task 11 "Done" None HIGH 60 true] /\
  create_schedule default_constraints (fun _ => at_ 5 7 0)
    [ex_task 11 "Done" None HIGH 60 true] [] [] (at_ 5 0 0) 2 =
  Ok [Schedule_new (at_ 5 0 0); Schedule_new (at_ 6 0 0)].
Proof.
  assert (H : Forall (fun a => is_completed a = true)
                [ex_task 11 "Done" None HIGH 60 true])
    by (repeat constructor).
  split; [exact H|].
  exact (X10_nothing_to_schedule default_constraints (fun _ => at_ 5 7 0)
           [ex_task 11 "Done" None HIGH 60 true] (at_ 5 0 0) 2 H).
Defined.

Lemma add_class_blocks_origin (cs : list TimeBlock) (d : datetime) :
  forall s,
  exists added,
    time_blocks (add_class_blocks s cs d) = time_blocks s ++ added /\
    Forall (fun b => In b cs /\ on_date d (start_time b) = true) added.
Proof.
  induction cs as [|b cs IH]; intro s.
  - exists []. split; [symmetry; apply app_nil_r | constructor].
  - cbn [add_class_blocks].
    destruct (date_of (start_time b) =? date_of d) eqn:Ed.
    + destruct (IH (fst (add_block s b))) as (added & Hbl & HF).
      rewrite add_block_blocks in Hbl.
      assert (HF' : Forall (fun x => In x (b :: cs) /\
                                     on_date d (start_time x) = true) added).
      { eapply Forall_impl; [|exact HF]. cbn beta. intros x [H1 H2].
        split; [right; exact H1 | exact H2]. }
      destruct (can_add_loop b (time_blocks s)).
      * exists (b :: added). split.
        -- rewrite Hbl, <- app_assoc. reflexivity.
        -- constructor; [|exact HF']. split; [left; reflexivity | exact Ed].
      * exists added. split; [exact Hbl | exact HF'].
    + destruct (IH s) as (added & Hbl & HF). exists added.
      split; [exact Hbl|]. eapply Forall_impl; [|exact HF]. cbn beta.
      intros x [H1 H2]. split; [right; exact H1 | exact H2].
Qed.

Lemma work_block_of_Ok (w : WorkShift) (b : TimeBlock) :
  work_block_of w = Ok b -> b = work_block w.
Proof.
  unfold work_block_of, TimeBlock_new. destruct (_ <=? _); [discriminate|].
  intro H. injection H as <-. reflexivity.
Qed.

Lemma add_work_blocks_origin (ws : list WorkShift) (d : datetime) :
  forall s s',
    add_work_blocks s ws d = Ok s' ->
    exists added,
      time_blocks s' = time_blocks s ++ added /\
      Forall (fun b => exists w, In w ws /\
                                 on_date d (ws_start_time w) = true /\
                                 b = work_block w) added.
Proof.
  induction ws as [|w ws IH]; intros s s' E; cbn [add_work_blocks] in E.
  - injection E as <-. exists []. split; [symmetry; apply app_nil_r|].
    constructor.
  - assert (Hweak : forall added,
               Forall (fun b => exists w0, In w0 ws /\
                                  on_date d (ws_start_time w0) = true /\
                                  b = work_block w0) added ->
               Forall (fun b => exists w0, In w0 (w :: ws) /\
                                  on_date d (ws_start_time w0) = true /\
                                  b = work_block w0) added).
    { intros added HF. eapply Forall_impl; [|exact HF]. cbn beta.
      intros x (w0 & H1 & H2 & H3). exists w0.
      split; [right; exact H1 | auto]. }
    unfold ws_date in E.
    destruct (date_of (ws_start_time w) =? date_of d) eqn:Ed.
    + inv_bind E. apply work_block_of_Ok in Ha. subst a.
      destruct (IH _ _ E) as (added & Hbl & HF).
      rewrite add_block_blocks in Hbl.
      destruct (can_add_loop (work_block w) (time_blocks s)).
      * exists (work_block w :: added). split.
        -- rewrite Hbl, <- app_assoc. reflexivity.
        -- constructor; [|apply Hweak, HF]. exists w.
           split; [left; reflexivity|]. split; [exact Ed | reflexivity].
      * exists added. split; [exact Hbl | apply Hweak, HF].
    + destruct (IH _ _ E) as (added & Hbl & HF). exists added.
      split; [exact Hbl | apply Hweak, HF].
Qed.

Lemma schedule_for_day_origin (c : SchedulingConstraints) (s : Schedule)
    (l : list Assignment) (d : datetime) (s' : Schedule) :
  _schedule_assignments_for_day c s l d = Ok s' ->
  exists added,
    time_blocks s' = time_blocks s ++ added /\
    Forall (fun b => exists a,
                In a l /\ skipped_on d a = false /\ study_block_for a b)
      added.
Proof.
  intro E. unfold _schedule_assignments_for_day in E.
  assert (Hnone : exists added,
             time_blocks s = time_blocks s ++ added /\
             Forall (fun b => exists a,
                         In a l /\ skipped_on d a = false /\
                         study_block_for a b) added).
  { exists []. split; [symmetry; apply app_nil_r | constructor]. }
  destruct (filter (fun a => negb (is_completed a)) l) as [|a0 av0] eqn:Eav;
    [injection E as <-; exact Hnone|].
  destruct (get_available_slots _ _ _ _) as [|x0 sl0];
    [injection E as <-; exact Hnone|].
  inv_bind E. destruct a as [s1 sl1]. injection E as <-.
  destruct (assignments_loop_placed _ _ _ _ _ _ Ha) as (placed & HF & Hbl).
  exists (placed_blocks placed). split; [exact Hbl|].
  assert (Hav : forall a, In a (a0 :: av0) -> In a l).
  { intros a Hin. rewrite <- Eav in Hin. apply filter_In in Hin. tauto. }
  clear Hbl Ha Hnone Eav. revert HF Hav. generalize (a0 :: av0).
  intros tasks HF. induction HF as [|a ob tasks placed Hp HF IH]; intro Hav.
  - constructor.
  - cbn [placed_blocks flat_map]. apply Forall_app. split.
    + destruct ob as [b|]; [|constructor].
      constructor; [|constructor]. destruct Hp as [Hcan Hb].
      exists a. split; [apply Hav; left; reflexivity|]. split; [|exact Hb].
      destruct (skipped_on d a) eqn:Esk; [|reflexivity].
      rewrite (can_schedule_skipped a d Esk) in Hcan. discriminate.
    + apply IH. intros x Hx. apply Hav. right. exact Hx.
Qed.

Lemma break_block_of_Ok (st bd : Z) (b : TimeBlock) :
  break_block_of st bd = Ok b -> b = mk_break st bd /\ 0 < bd.
Proof.
  unfold break_block_of, TimeBlock_new.
  destruct (Z.leb_spec (st + minutes bd) st) as [|H]; [discriminate|].
  intro E. injection E as <-. split; [reflexivity|].
  unfold minutes in H. assert (Hm : 0 < us_per_minute) by reflexivity. nia.
Qed.

Lemma breaks_loop_origin (bd : Z) (l : list TimeBlock) :
  forall s s',
    breaks_loop bd l s = Ok s' ->
    exists added,
      time_blocks s' = time_blocks s ++ added /\
      Forall (fun b => exists x, In x l /\ b = mk_break (end_time x) bd /\
                                 0 < bd) added.
Proof.
  induction l as [|x l IH]; intros s s' E.
  - injection E as <-. exists []. split; [symmetry; apply app_nil_r|].
    constructor.
  - destruct l as [|y l].
    + injection E as <-. exists []. split; [symmetry; apply app_nil_r|].
      constructor.
    + cbn [breaks_loop] in E.
      assert (Hweak : forall added,
                 Forall (fun b => exists z, In z (y :: l) /\
                                    b = mk_break (end_time z) bd /\ 0 < bd)
                   added ->
                 Forall (fun b => exists z, In z (x :: y :: l) /\
                                    b = mk_break (end_time z) bd /\ 0 < bd)
                   added).
      { intros added HF. eapply Forall_impl; [|exact HF]. cbn beta.
        intros b (z & H1 & H2). exists z. split; [right; exact H1 | exact H2]. }
      destruct (Qle_bool _ _).
      * inv_bind E. apply break_block_of_Ok in Ha. destruct Ha as [-> Hbd].
        destruct (IH _ _ E) as (added & Hbl & HF).
        rewrite add_block_blocks in Hbl.
        destruct (can_add_loop _ (time_blocks s)).
        -- exists (mk_break (end_time x) bd :: added). split.
           ++ rewrite Hbl, <- app_assoc. reflexivity.
           ++ constructor; [|apply Hweak, HF]. exists x.
              split; [left; reflexivity | auto].
        -- exists added. split; [exact Hbl | apply Hweak, HF].
      * destruct (IH _ _ E) as (added & Hbl & HF). exists added.
        split; [exact Hbl | apply Hweak, HF].
Qed.

Lemma add_breaks_origin (c : SchedulingConstraints) (s s' : Schedule) :
  _add_breaks_and_optimize c s = Ok s' ->
  exists added,
    time_blocks s' = time_blocks s ++ added /\
    Forall (fun b => exists x, In x (get_study_blocks s) /\
                               b = mk_break (end_time x) (break_duration c) /\
                               0 < break_duration c) added.
Proof.
  unfold _add_breaks_and_optimize. intro E.
  destruct (_ <? 2).
  - injection E as <-. exists []. split; [symmetry; apply app_nil_r|].
    constructor.
  - destruct (breaks_loop_origin _ _ _ _ E) as (added & Hbl & HF).
    exists added. split; [exact Hbl|]. eapply Forall_impl; [|exact HF].
    cbn beta. intros b (x & Hx & H). exists x.
    split; [apply sorted_by_In in Hx; exact Hx | exact H].
Qed.

Lemma days_loop_origin c assignments sorted ws cs (n : nat) :
  (forall a, In a sorted -> In a assignments) ->
  forall d schedules,
    days_loop c sorted ws cs n d = Ok schedules ->
    Forall (fun s => Forall (block_origin c assignments ws cs (date s))
                       (time_blocks s)) schedules.
Proof.
  intro Hsorted. induction n as [|n IH]; intros d schedules E.
  - injection E as <-. constructor.
  - cbn [days_loop] in E.
    destruct (_add_fixed_blocks (Schedule_new d) cs ws d) as [s1|e] eqn:E1;
      [|discriminate]. cbn [bind] in E.
    destruct (_schedule_assignments_for_day c s1 sorted d) as [s2|e] eqn:E2;
      [|discriminate]. cbn [bind] in E.
    destruct (_add_breaks_and_optimize c s2) as [s3|e] eqn:E3;
      [|discriminate]. cbn [bind] in E.
    inv_bind E. injection E as <-. constructor; [|eapply IH; exact Ha].
    assert (Hd : date s3 = d).
    { apply (phases_keep_date c sorted ws cs d s3).
      rewrite E1. cbn [bind]. rewrite E2. cbn [bind]. exact E3. }
    rewrite Hd.
    unfold _add_fixed_blocks in E1.
    destruct (add_class_blocks_origin cs d (Schedule_new d))
      as (a1 & Hb1 & HF1).
    destruct (add_work_blocks_origin _ _ _ _ E1) as (a2 & Hb2 & HF2).
    destruct (schedule_for_day_origin _ _ _ _ _ E2) as (a3 & Hb3 & HF3).
    destruct (add_breaks_origin _ _ _ E3) as (a4 & Hb4 & HF4).
    rewrite Hb4, Hb3, Hb2, Hb1. cbn [Schedule_new time_blocks app].
    repeat (apply Forall_app; split).
    + eapply Forall_impl; [|exact HF1]. intros b H. left. exact H.
    + eapply Forall_impl; [|exact HF2]. intros b H. right. left. exact H.
    + eapply Forall_impl; [|exact HF3]. cbn beta.
      intros b (task & Hin & Hsk & Hb). right. right. left.
      exists task. split; [apply Hsorted, Hin | auto].
    + eapply Forall_impl; [|exact HF4]. cbn beta.
      intros b (x & _ & -> & _). right. right. right. eauto.
Qed.

(** X11. Every block of every schedule that a run returns has a known
    origin: it is a class block of the input that starts on the day of
    the schedule, or the work block of an input shift that starts on that
    day, or the study block of an input task that is not completed and not
    due on an earlier day, or a break of the configured break duration.
    With valid class blocks every block of the result ends after its
    start. *)
Theorem X11_block_origin (c : SchedulingConstraints) (clock : nat -> datetime)
    (assignments : list Assignment) (work_shifts : list WorkShift)
    (class_schedule : list TimeBlock) (start_date : datetime)
    (days_ahead : Z) (schedules : list Schedule) :
  create_schedule c clock assignments work_shifts class_schedule start_date
    days_ahead = Ok schedules ->
  Forall (fun s => Forall (block_origin c assignments work_shifts
                             class_schedule (date s)) (time_blocks s))
    schedules /\
  (Forall valid_block class_schedule ->
   Forall (fun s => Forall valid_block (time_blocks s)) schedules).
Proof.
  intro E. split.
  - unfold create_schedule in E. eapply days_loop_origin; [|exact E].
    intros a Ha. unfold _sort_assignments_by_priority in Ha.
    apply in_map_iff in Ha. destruct Ha as [[k a'] [<- Ha]]. cbn [snd].
    apply (Permutation_in _
             (Permutation_sym (sorted_by_perm fst sort_key_ltb _))) in Ha.
    rewrite <- (decorate_snd clock assignments 0).
    apply in_map_iff. exists (k, a'). auto.
  - intro Hcs.
    eapply (create_schedule_inv
              (fun s => Forall valid_block (time_blocks s)) valid_block);
      [| | | exact Hcs | exact E].
    + intros s b Hb Hs. apply add_block_valid; assumption.
    + trivial.
    + intro d. constructor.
Qed.

Lemma X11_block_origin_witness :
  exists schedules,
    ex_run = Ok schedules /\
    Forall (fun s =>
              Forall (block_origin default_constraints
                        [ex_task 1 "Quiz prep" None MEDIUM 60 false;
                         ex_task 2 "Essay" None MEDIUM 200 false]
                        [ex_shift (at_ 5 18 0) (at_ 5 20 0)] [ex_lecture]
                        (date s)) (time_blocks s)) schedules.
Proof.
  assert (E : exists schedules, ex_run = Ok schedules)
    by (eexists; vm_compute; reflexivity).
  destruct E as [schedules E]. exists schedules. split; [exact E|].
  exact (proj1 (X11_block_origin default_constraints (fun _ => at_ 5 7 0)
                  [ex_task 1 "Quiz prep" None MEDIUM 60 false;
                   ex_task 2 "Essay" None MEDIUM 200 false]
                  [ex_shift (at_ 5 18 0) (at_ 5 20 0)] [ex_lecture]
                  (at_ 5 0 0) 2 schedules E)).
Defined.

(* ------------------------------------------------------------------ *)
(** * Further properties of the Break Inserter *)

Lemma minutes_of_type_app (ty : BlockType) (l1 l2 : list TimeBlock) :
  minutes_of_type ty (l1 ++ l2) =
  minutes_of_type ty l1 + minutes_of_type ty l2.
Proof.
  induction l1 as [|b l1 IH]; cbn [app minutes_of_type fold_right];
    [reflexivity|].
  fold (minutes_of_type ty (l1 ++ l2)). fold (minutes_of_type ty l1).
  rewrite IH. destruct (BlockType_eqb (block_type b) ty); lia.
Qed.

Lemma mk_break_duration (st bd : Z) : duration_minutes (mk_break st bd) = bd.
Proof.
  unfold duration_minutes, mk_break. cbn [start_time end_time].
  replace (st + minutes bd - st) with (bd * 60000000)
    by (unfold minutes, us_per_minute, us_per_second; ring).
  apply Z.quot_mul. discriminate.
Qed.

Lemma breaks_minutes (bd : Z) (added : list TimeBlock) :
  Forall (fun b => exists st, b = mk_break st bd) added ->
  minutes_of_type STUDY added = 0 /\
  minutes_of_type BREAK added = bd * Z.of_nat (List.length added) /\
  filter (fun b => BlockType_eqb (block_type b) STUDY) added = [].
Proof.
  induction 1 as [|b l [st ->] Hl (IH1 & IH2 & IH3)].
  - cbn. repeat split; lia.
  - cbn [minutes_of_type fold_right filter List.length].
    fold (minutes_of_type STUDY l). fold (minutes_of_type BREAK l).
    cbn [mk_break block_type BlockType_eqb].
    fold (mk_break st bd). rewrite mk_break_duration, IH1, IH2, IH3.
    repeat split; lia.
Qed.

(** X12. The Break Inserter leaves the blocks of the container in place
    and appends break blocks only, each of the configured break duration:
    the study blocks are the same afterwards, and with fresh metrics
    before, the study time is unchanged and the break time has grown by
    the break duration for every break inserted. *)
Theorem X12_breaks_keep_study_time (c : SchedulingConstraints)
    (s s' : Schedule) :
  _add_breaks_and_optimize c s = Ok s' ->
  exists added,
    time_blocks s' = time_blocks s ++ added /\
    Forall (fun b => block_type b = BREAK /\
                     duration_minutes b = break_duration c) added /\
    date s' = date s /\
    get_study_blocks s' = get_study_blocks s /\
    (metrics_fresh s ->
     total_study_time s' = total_study_time s /\
     total_break_time s' =
       total_break_time s + break_duration c * Z.of_nat (List.length added)).
Proof.
  intro E.
  destruct (add_breaks_origin _ _ _ E) as (added & Hbl & HF).
  assert (HF' : Forall (fun b => exists st, b = mk_break st (break_duration c))
                  added).
  { eapply Forall_impl; [|exact HF]. cbn beta. intros b (x & _ & -> & _).
    eauto. }
  destruct (breaks_minutes _ _ HF') as (Hst & Hbr & Hfil).
  exists added. split; [exact Hbl|]. split; [|split; [|split]].
  - eapply Forall_impl; [|exact HF']. cbn beta. intros b [st ->].
    split; [reflexivity | apply mk_break_duration].
  - pose (P := fun x : Schedule => date x = date s).
    apply (add_breaks_inv P (fun _ => True)) with (c := c) (s := s);
      [| trivial | exact E | reflexivity].
    intros x b _ Hx. unfold P. rewrite add_block_date. exact Hx.
  - unfold get_study_blocks, get_blocks_by_type.
    rewrite Hbl, filter_app, Hfil. apply app_nil_r.
  - intro Hfresh.
    assert (Hfresh' : metrics_fresh s').
    { apply (add_breaks_inv metrics_fresh (fun _ => True)) with (c := c)
        (s := s); [| trivial | exact E | exact Hfresh].
      intros x b _ Hx. apply add_block_fresh. exact Hx. }
    destruct Hfresh as (H1 & H2 & _). destruct Hfresh' as (H1' & H2' & _).
    rewrite H1', H2', H1, H2, Hbl, !minutes_of_type_app, Hst, Hbr.
    split; lia.
Qed.

Lemma X12_breaks_keep_study_time_witness :
  exists s' added,
    _add_breaks_and_optimize default_constraints ex_two_study_day = Ok s' /\
    time_blocks s' = time_blocks ex_two_study_day ++ added /\
    total_study_time s' = 150 /\ total_break_time s' = 15.
Proof.
  assert (E : exists s',
             _add_breaks_and_optimize default_constraints ex_two_study_day
             = Ok s') by (eexists; vm_compute; reflexivity).
  destruct E as [s' E].
  destruct (X12_breaks_keep_study_time _ _ _ E) as (added & Hbl & _).
  exists s', added. split; [exact E|]. split; [exact Hbl|].
  vm_compute in E. injection E as <-. split; reflexivity.
Defined.

Lemma breaks_loop_all_refused (bd : Z) (l : list TimeBlock) (s : Schedule) :
  0 < bd ->
  Forall (fun p => can_add_loop p (time_blocks s) = false)
    (proposed_breaks bd l) ->
  breaks_loop bd l s = Ok s.
Proof.
  intro Hbd. induction l as [|x l IH]; intro H; [reflexivity|].
  destruct l as [|y l]; [reflexivity|].
  cbn [breaks_loop]. rewrite Qle_minutes.
  rewrite proposed_breaks_cons2 in H. apply Forall_app in H.
  destruct H as [H1 H2].
  destruct (minutes bd <=? start_time y - end_time x).
  - rewrite (break_block_of_pos _ _ Hbd). cbn [bind].
    inversion H1 as [|? ? Hp _]; subst.
    unfold add_block, _can_add_block. rewrite Hp. cbn [fst].
    apply IH. exact H2.
  - apply IH. exact H2.
Qed.

(** X13. Running the Break Inserter a second time changes nothing: with a
    positive break duration and valid blocks, the schedule it returns is
    returned unchanged by a further run, since every break proposed again
    overlaps the break already inserted or the block that made the
    container refuse it the first time. *)
Theorem X13_breaks_idempotent (c : SchedulingConstraints) (s : Schedule) :
  0 < break_duration c -> Forall valid_block (time_blocks s) ->
  exists s',
    _add_breaks_and_optimize c s = Ok s' /\
    _add_breaks_and_optimize c s' = Ok s'.
Proof.
  intros Hbd Hv.
  set (sorted_blocks := sorted_by start_time Z.ltb (get_study_blocks s)).
  assert (Hsv : Forall valid_block sorted_blocks).
  { apply valid_sorted_by. apply Forall_forall. intros b Hb.
    unfold get_study_blocks, get_blocks_by_type in Hb.
    apply filter_In in Hb. rewrite Forall_forall in Hv. apply Hv. tauto. }
  assert (Hfirst : exists s',
             _add_breaks_and_optimize c s = Ok s' /\
             time_blocks s' =
             time_blocks s ++
               filter (fun b => can_add_loop b (time_blocks s))
                 (proposed_breaks (break_duration c) sorted_blocks)).
  { unfold _add_breaks_and_optimize. fold sorted_blocks.
    destruct (Z.ltb_spec (Z.of_nat (List.length (get_study_blocks s))) 2)
      as [Hlt|Hge].
    - exists s. split; [reflexivity|].
      assert (Hl : (List.length sorted_blocks < 2)%nat).
      { unfold sorted_blocks. rewrite sorted_by_length. lia. }
      destruct sorted_blocks as [|x [|y l]]; cbn in Hl |- *;
        try (symmetry; apply app_nil_r). lia.
    - destruct (breaks_loop_spec (break_duration c) (time_blocks s)
                  sorted_blocks Hbd (sorted_by_start_order _) Hsv s [])
        as (s' & Es' & _ & Hs').
      + symmetry. apply app_nil_r.
      + constructor.
      + exists s'. split; [exact Es' | exact Hs']. }
  destruct Hfirst as (s' & E & Hbl). exists s'. split; [exact E|].
  assert (Hstudy : get_study_blocks s' = get_study_blocks s).
  { destruct (add_breaks_origin _ _ _ E) as (added & Hbl' & HF).
    assert (HF' : Forall (fun b => exists st,
                            b = mk_break st (break_duration c)) added).
    { eapply Forall_impl; [|exact HF]. cbn beta. intros b (x & _ & -> & _).
      eauto. }
    unfold get_study_blocks, get_blocks_by_type.
    rewrite Hbl', filter_app, (proj2 (proj2 (breaks_minutes _ _ HF'))).
    apply app_nil_r. }
  unfold _add_breaks_and_optimize. rewrite Hstudy. fold sorted_blocks.
  destruct (_ <? 2); [reflexivity|].
  apply breaks_loop_all_refused; [exact Hbd|].
  apply Forall_forall. intros p Hp. rewrite Hbl, can_add_loop_app.
  destruct (can_add_loop p (time_blocks s)) eqn:Ep; [|reflexivity].
  cbn [andb]. apply can_add_loop_false. exists p. split.
  - apply filter_In. split; [exact Hp | exact Ep].
  - pose proof (proposed_breaks_props (break_duration c) sorted_blocks Hbd)
      as Hprops.
    rewrite Forall_forall in Hprops.
    destruct (Hprops p Hp) as (_ & Hdur & _).
    unfold overlaps_with. rewrite Z.gtb_ltb.
    assert (Hlt : start_time p < end_time p).
    { unfold duration_minutes in Hdur.
      destruct (Z.lt_ge_cases (start_time p) (end_time p)) as [|Hge];
        [assumption|].
      assert (Hq : Z.quot (end_time p - start_time p) us_per_minute <= 0).
      { apply Z.quot_le_upper_bound; [reflexivity | lia]. }
      lia. }
    apply Z.ltb_lt in Hlt. rewrite Hlt. reflexivity.
Qed.

Lemma X13_breaks_idempotent_witness :
  0 < break_duration default_constraints /\
  Forall valid_block (time_blocks ex_two_study_day) /\
  exists s',
    _add_breaks_and_optimize default_constraints ex_two_study_day = Ok s' /\
    _add_breaks_and_optimize default_constraints s' = Ok s'.
Proof.
  assert (Hbd : 0 < break_duration default_constraints) by reflexivity.
  assert (Hv : Forall valid_block (time_blocks ex_two_study_day))
    by (repeat constructor).
  split; [exact Hbd|]. split; [exact Hv|].
  exact (X13_breaks_idempotent default_constraints ex_two_study_day Hbd Hv).
Defined.

(* ------------------------------------------------------------------ *)
(** * Further properties of urgency and ranking *)

Lemma priority_weight_bounds (p : Priority) :
  (1 <= priority_weight p /\ priority_weight p <= 4)%Q.
Proof. destruct p; split; discriminate. Qed.

Lemma time_multiplier_bounds (n : Z) :
  (1 <= time_multiplier n /\ time_multiplier n <= 3)%Q.
Proof.
  unfold time_multiplier.
  destruct (n <=? 3); [split; discriminate|].
  destruct (n <=? 7); [split; discriminate|].
  destruct (n <=? 14); split; discriminate.
Qed.

Lemma time_multiplier_antitone (n m : Z) :
  n <= m -> (time_multiplier m <= time_multiplier n)%Q.
Proof.
  intro H. unfold time_multiplier.
  destruct (Z.leb_spec n 3), (Z.leb_spec m 3); try lia; try discriminate;
  destruct (Z.leb_spec n 7), (Z.leb_spec m 7); try lia; try discriminate;
  destruct (Z.leb_spec n 14), (Z.leb_spec m 14); try lia; discriminate.
Qed.

Lemma priority_weight_order (p : Priority) :
  priority_weight p = inject_Z (priority_order p).
Proof. destruct p; reflexivity. Qed.

Lemma urgency_due_bounds (now : datetime) (a : Assignment) (due : datetime) :
  due_date a = Some due ->
  (1 <= urgency_score now a /\ urgency_score now a <= 12)%Q.
Proof.
  intro Hdue. rewrite urgency_score_spec. unfold urgency_spec. rewrite Hdue.
  destruct (_ =? 0); [split; discriminate|].
  pose proof (priority_weight_bounds (a_priority a)) as [Hp1 Hp2].
  pose proof (time_multiplier_bounds (days_until_due_spec now due))
    as [Hm1 Hm2].
  split; nra.
Qed.

(** X14. The urgency score is 0 exactly for the tasks without a due date
    and lies between 1 and 12 for the others.  Among tasks with the same
    due date a higher priority level never scores lower; among tasks of
    the same priority level that are due at least one day after the clock
    reading, a later due date never scores higher. *)
Theorem X14_urgency_order (now : datetime) (a1 a2 : Assignment) :
  (due_date a1 = None <-> (urgency_score now a1 == 0)%Q) /\
  (forall due, due_date a1 = Some due ->
               (1 <= urgency_score now a1 /\ urgency_score now a1 <= 12)%Q) /\
  (due_date a1 = due_date a2 ->
   priority_order (a_priority a1) <= priority_order (a_priority a2) ->
   (urgency_score now a1 <= urgency_score now a2)%Q) /\
  (forall d1 d2,
      due_date a1 = Some d1 -> due_date a2 = Some d2 ->
      a_priority a1 = a_priority a2 ->
      now + days 1 <= d1 -> d1 <= d2 ->
      (urgency_score now a2 <= urgency_score now a1)%Q).
Proof.
  split; [|split; [|split]].
  - split.
    + intro H. unfold urgency_score, days_until_due. rewrite H. reflexivity.
    + intro H. destruct (due_date a1) as [due|] eqn:Hdue; [|reflexivity].
      pose proof (urgency_due_bounds now a1 due Hdue) as [H1 _]. lra.
  - apply urgency_due_bounds.
  - intros Hd Hp. rewrite !urgency_score_spec. unfold urgency_spec.
    rewrite <- Hd. destruct (due_date a1) as [due|]; [|discriminate].
    destruct (_ =? 0); [discriminate|].
    rewrite !priority_weight_order.
    pose proof (time_multiplier_bounds (days_until_due_spec now due))
      as [Hm _].
    apply Qmult_le_compat_r; [|lra].
    rewrite <- Zle_Qle. exact Hp.
  - intros d1 d2 H1 H2 Hp Hd1 Hd12.
    rewrite !urgency_score_spec. unfold urgency_spec. rewrite H1, H2, Hp.
    unfold days_until_due_spec.
    assert (Hpos : 0 < us_per_day) by reflexivity.
    assert (Hn1 : 1 <= (d1 - now) / us_per_day).
    { apply Z.div_le_lower_bound; [exact Hpos|]. unfold days in Hd1. lia. }
    assert (Hn12 : (d1 - now) / us_per_day <= (d2 - now) / us_per_day).
    { apply Z.div_le_mono; [exact Hpos | lia]. }
    destruct (Z.eqb_spec (Z.max 0 ((d1 - now) / us_per_day)) 0); [lia|].
    destruct (Z.eqb_spec (Z.max 0 ((d2 - now) / us_per_day)) 0); [lia|].
    pose proof (priority_weight_bounds (a_priority a2)) as [Hw _].
    rewrite !(Qmult_comm (priority_weight (a_priority a2))).
    apply Qmult_le_compat_r; [|lra].
    apply time_multiplier_antitone. lia.
Qed.

Lemma X14_urgency_order_witness :
  due_date ex_due_task = Some (at_ 7 10 0) /\
  (1 <= urgency_score (at_ 5 7 0) ex_due_task /\
   urgency_score (at_ 5 7 0) ex_due_task <= 12)%Q.
Proof.
  assert (H : due_date ex_due_task = Some (at_ 7 10 0)) by reflexivity.
  split; [exact H|].
  exact (proj1 (proj2 (X14_urgency_order (at_ 5 7 0) ex_due_task ex_due_task))
           (at_ 7 10 0) H).
Defined.

Lemma in_key_order_fixed {A K : Type} (key : A -> K) (ltb : K -> K -> bool)
    (l : list A) :
  in_key_order key ltb l -> sorted_by key ltb l = l.
Proof.
  unfold in_key_order. induction 1 as [|x l Hl IH Hx]; [reflexivity|].
  cbn [sorted_by fold_right]. fold (sorted_by key ltb l). rewrite IH.
  destruct l as [|y t]; [reflexivity|].
  cbn [insert_by]. inversion Hx as [|? ? Hy _]; subst.
  rewrite Hy. reflexivity.
Qed.

(** X15. With one clock reading for the whole ranking: ranking a ranked
    list gives the same list again, and in the ranked list no task without
    a due date comes before a task with a due date. *)
Theorem X15_ranking_fixed_point (now : datetime) (l : list Assignment) :
  let ranked := _sort_assignments_by_priority (fun _ => now) l in
  _sort_assignments_by_priority (fun _ => now) ranked = ranked /\
  (forall pre x post,
      ranked = pre ++ x :: post -> due_date x = None ->
      Forall (fun y => due_date y = None) post).
Proof.
  intro ranked. unfold ranked. rewrite !sort_const_clock.
  pose proof (sorted_by_order (sort_key now) sort_key_ltb sort_key_ltb_asym
                sort_key_ltb_negtrans l) as Hs.
  split; [apply in_key_order_fixed; exact Hs|].
  intros pre x post E Hx. unfold in_key_order in Hs. rewrite E in Hs.
  apply Forall_forall. intros y Hy.
  assert (Hxy : sort_key_ltb (sort_key now y) (sort_key now x) = false).
  { apply (StronglySorted_app_inv
             (fun a b => sort_key_ltb (sort_key now b) (sort_key now a) = false)
             (pre ++ [x]) post).
    - rewrite <- app_assoc. exact Hs.
    - apply in_or_app. right. left. reflexivity.
    - exact Hy. }
  apply sort_key_ltb_false in Hxy. destruct Hxy as [Hle _].
  unfold sort_key in Hle. cbn [fst] in Hle.
  destruct (due_date y) as [due|] eqn:Hdue; [|reflexivity].
  pose proof (urgency_due_bounds now y due Hdue) as [H1 _].
  assert (H0 : (urgency_score now x == 0)%Q).
  { unfold urgency_score, days_until_due. rewrite Hx. reflexivity. }
  lra.
Qed.

Lemma X15_ranking_fixed_point_witness :
  _sort_assignments_by_priority (fun _ => at_ 5 7 0)
    [ex_task 13 "Open" None LOW 60 false; ex_due_task]
  = [ex_due_task] ++ ex_task 13 "Open" None LOW 60 false :: [] /\
  due_date (ex_task 13 "Open" None LOW 60 false) = None /\
  Forall (fun y => due_date y = None) (@nil Assignment).
Proof.
  assert (E : _sort_assignments_by_priority (fun _ => at_ 5 7 0)
                [ex_task 13 "Open" None LOW 60 false; ex_due_task]
              = [ex_due_task] ++ ex_task 13 "Open" None LOW 60 false :: [])
    by (vm_compute; reflexivity).
  assert (Hn : due_date (ex_task 13 "Open" None LOW 60 false) = None)
    by reflexivity.
  split; [exact E|]. split; [exact Hn|].
  exact (proj2 (X15_ranking_fixed_point (at_ 5 7 0)
                  [ex_task 13 "Open" None LOW 60 false; ex_due_task])
           [ex_due_task] (ex_task 13 "Open" None LOW 60 false) [] E Hn).
Defined.

(** X16. [_can_schedule_assignment] accepts a task for a target datetime
    exactly when the task is not completed and has no due date or a due
    datetime that is not before the target datetime: the test on calendar
    days is implied by the test on the difference, and a task due on the
    target day but at an earlier time of day than the target is refused. *)
Theorem X16_can_schedule (a : Assignment) (date : datetime) :
  _can_schedule_assignment a date = true <->
  is_completed a = false /\
  (due_date a = None \/ exists due, due_date a = Some due /\ date <= due).
Proof.
  unfold _can_schedule_assignment, td_days, date_of.
  assert (Hpos : 0 < us_per_day) by reflexivity.
  destruct (is_completed a).
  - split; [discriminate | intros [H _]; discriminate].
  - destruct (due_date a) as [due|].
    + destruct (Z.ltb_spec (due / us_per_day) (date / us_per_day)) as [H1|H1].
      * split; [discriminate|]. intros [_ [H|[d [Hd Hle]]]]; [discriminate|].
        injection Hd as <-.
        pose proof (Z.div_le_mono date due us_per_day Hpos Hle). lia.
      * destruct (Z.ltb_spec ((due - date) / us_per_day) 0) as [H2|H2].
        -- split; [discriminate|].
           intros [_ [H|[d [Hd Hle]]]]; [discriminate|]. injection Hd as <-.
           assert (0 <= (due - date) / us_per_day)
             by (apply Z.div_pos; lia). lia.
        -- split; [|reflexivity]. intros _. split; [reflexivity|].
           right. exists due. split; [reflexivity|].
           destruct (Z.lt_ge_cases due date) as [Hlt|]; [|assumption].
           assert ((due - date) / us_per_day < 0)
             by (apply Z.div_lt_upper_bound; lia). lia.
    + split; [intros _; split; [reflexivity | left; reflexivity]
             | reflexivity].
Qed.

Lemma X16_can_schedule_witness :
  is_completed ex_due_morning = false /\
  at_ 5 9 0 <= at_ 5 10 0 /\
  _can_schedule_assignment ex_due_morning (at_ 5 9 0) = true /\
  _can_schedule_assignment ex_due_morning (at_ 5 14 0) = false.
Proof.
  assert (Hc : is_completed ex_due_morning = false) by reflexivity.
  assert (Hle : at_ 5 9 0 <= at_ 5 10 0) by discriminate.
  split; [exact Hc|]. split; [exact Hle|]. split.
  - apply (proj2 (X16_can_schedule ex_due_morning (at_ 5 9 0))).
    split; [exact Hc|]. right. exists (at_ 5 10 0).
    split; [reflexivity | exact Hle].
  - reflexivity.
Defined.

(* ------------------------------------------------------------------ *)
(** * Further properties of the slot score *)

Lemma score_candidate (t : Z) (x : slot) :
  0 < t -> (inject_Z t <= slot_minutes x)%Q ->
  (score t x ==
   (6 # 10) * (1 - (slot_minutes x - inject_Z t) * / inject_Z t)
   + (4 # 10) * time_score x)%Q.
Proof.
  intros Ht Hc. unfold score, fit_score.
  rewrite (Qabs_pos (slot_minutes x - inject_Z t)) by lra.
  unfold Qdiv. reflexivity.
Qed.

(** X17. For a task with a positive time needed, the score of a slot that
    can hold it is at most 1, and exactly 1 for a slot of exactly the time
    needed that starts between 09:00 and 12:00.  Of two slots that can
    hold the task and have the same time-of-day score, the shorter one
    scores strictly higher: the Placer prefers the tighter fit. *)
Theorem X17_tighter_fit_scores_higher (t : Z) (x1 x2 : slot) (q1 q2 : Q) :
  0 < t ->
  (inject_Z t <= slot_minutes x1)%Q -> (inject_Z t <= slot_minutes x2)%Q ->
  slot_score t x1 = Ok q1 -> slot_score t x2 = Ok q2 ->
  (q1 <= 1)%Q /\
  ((slot_minutes x1 == inject_Z t)%Q -> 9 <= hour_of (fst x1) < 12 ->
   (q1 == 1)%Q) /\
  ((_calculate_time_preference_score (fst x1) ==
    _calculate_time_preference_score (fst x2))%Q ->
   (slot_minutes x1 < slot_minutes x2)%Q -> (q2 < q1)%Q).
Proof.
  intros Ht Hc1 Hc2 E1 E2.
  destruct (slot_score_ok t x1 ltac:(lia)) as [q1' [E1' Hq1]].
  destruct (slot_score_ok t x2 ltac:(lia)) as [q2' [E2' Hq2]].
  rewrite E1 in E1'. injection E1' as <-.
  rewrite E2 in E2'. injection E2' as <-.
  rewrite (score_candidate t x1 Ht Hc1) in Hq1.
  rewrite (score_candidate t x2 Ht Hc2) in Hq2.
  assert (Hk : (0 < / inject_Z t)%Q).
  { apply Qinv_lt_0_compat. change 0%Q with (inject_Z 0).
    rewrite <- Zlt_Qlt. exact Ht. }
  set (k := (/ inject_Z t)%Q) in *.
  split; [|split].
  - pose proof (time_score_max x1).
    assert (0 <= (slot_minutes x1 - inject_Z t) * k)%Q
      by (apply Qmult_le_0_compat; lra).
    lra.
  - intros Hm Hh. rewrite Hq1.
    assert (Hts : time_score x1 = 1%Q).
    { unfold time_score.
      destruct (Z.leb_spec 9 (hour_of (fst x1))); [|lia].
      destruct (Z.ltb_spec (hour_of (fst x1)) 12); [reflexivity | lia]. }
    rewrite Hts.
    assert (Hz : ((slot_minutes x1 - inject_Z t) * k == 0)%Q).
    { assert (Hd : (slot_minutes x1 - inject_Z t == 0)%Q) by lra.
      rewrite Hd. ring. }
    rewrite Hz. reflexivity.
  - intros Hts Hlt.
    change (_calculate_time_preference_score (fst x1)) with (time_score x1)
      in Hts.
    change (_calculate_time_preference_score (fst x2)) with (time_score x2)
      in Hts.
    assert (Hm : ((slot_minutes x1 - inject_Z t) * k
                  < (slot_minutes x2 - inject_Z t) * k)%Q).
    { apply Qmult_lt_compat_r; [exact Hk | lra]. }
    lra.
Qed.

Lemma X17_tighter_fit_scores_higher_witness :
  exists q1 q2,
    slot_score 90 (at_ 5 9 0, at_ 5 11 0) = Ok q1 /\
    slot_score 90 (at_ 5 10 0, at_ 5 13 0) = Ok q2 /\
    (q2 < q1)%Q /\ (q1 <= 1)%Q.
Proof.
  assert (Ht : 0 < 90) by reflexivity.
  assert (Hc1 : (inject_Z 90 <= slot_minutes (at_ 5 9 0, at_ 5 11 0))%Q)
    by discriminate.
  assert (Hc2 : (inject_Z 90 <= slot_minutes (at_ 5 10 0, at_ 5 13 0))%Q)
    by discriminate.
  destruct (slot_score 90 (at_ 5 9 0, at_ 5 11 0)) as [q1|] eqn:E1;
    [|discriminate E1].
  destruct (slot_score 90 (at_ 5 10 0, at_ 5 13 0)) as [q2|] eqn:E2;
    [|discriminate E2].
  exists q1, q2. split; [reflexivity|]. split; [reflexivity|].
  destruct (X17_tighter_fit_scores_higher 90 _ _ q1 q2 Ht Hc1 Hc2 E1 E2)
    as (Hle & _ & Hlt).
  split; [|exact Hle]. apply Hlt; reflexivity.
Defined.

(* ------------------------------------------------------------------ *)
(** * Study blocks and the daily window; the days of a run *)

Lemma assignments_loop_within (W E : datetime) (l : list Assignment)
    (d : datetime) :
  forall s sl s' sl',
    Forall (fun g : slot => W <= fst g /\ snd g <= E) sl ->
    assignments_loop s l d sl = Ok (s', sl') ->
    exists added,
      time_blocks s' = time_blocks s ++ added /\
      Forall (fun b => W <= start_time b /\ end_time b <= E) added.
Proof.
  induction l as [|a l IH]; intros s sl s' sl' Hsl E0;
    cbn [assignments_loop] in E0.
  - injection E0 as <- _. exists []. split; [symmetry; apply app_nil_r|].
    constructor.
  - destruct (_can_schedule_assignment a d); [|eapply IH; eauto].
    inv_bind E0. destruct a0 as [s1 sl1].
    destruct (schedule_single_Ok _ _ _ _ _ Ha)
      as [[-> ->]|(best & b & pre & post & Hin & Eb & _ & _ & Hs1 & Esl & _
                   & Esl1)].
    + eapply IH; eauto.
    + assert (Hsl1 : Forall (fun g : slot => W <= fst g /\ snd g <= E) sl1).
      { subst sl sl1. apply Forall_app in Hsl. destruct Hsl as [H1 H2].
        inversion H2; subst. apply Forall_app. split; assumption. }
      destruct (IH _ _ _ _ Hsl1 E0) as (added & Hbl & HF).
      exists (b :: added). split.
      * rewrite Hbl, Hs1, <- app_assoc. reflexivity.
      * constructor; [|exact HF].
        pose proof (candidate_fits _ _ _ Hin) as Hfit.
        apply candidates_In in Hin. destruct Hin as [Hin _].
        rewrite Forall_forall in Hsl. specialize (Hsl best Hin).
        destruct (study_block_of_Ok _ _ _ _ Eb) as (_ & -> & -> & _). lia.
Qed.

(** X18. When no block of the container ends before the start of the
    daily window and none starts after its end, every study block that the
    placement of the day adds lies inside the daily window of the
    container's date. *)
Theorem X18_study_within_window (c : SchedulingConstraints) (s : Schedule)
    (l : list Assignment) (d : datetime) (s' : Schedule) :
  let W := combine_date (date_of (date s)) (c_start_time c) in
  let E := combine_date (date_of (date s)) (c_end_time c) in
  Forall (fun y => W <= end_time y /\ start_time y <= E) (time_blocks s) ->
  _schedule_assignments_for_day c s l d = Ok s' ->
  exists added,
    time_blocks s' = time_blocks s ++ added /\
    Forall (fun b => block_type b = STUDY /\
                     W <= start_time b /\ end_time b <= E) added.
Proof.
  intros W E H E0.
  assert (Hsl : Forall (fun g : slot => W <= fst g /\ snd g <= E)
                  (get_available_slots s (min_study_session c)
                     (c_start_time c) (c_end_time c))).
  { rewrite get_available_slots_gaps. fold W E.
    apply Forall_forall. intros [g1 g2] Hg.
    destruct (gaps_In _ _ _ _ _ Hg) as [Hf Hs]. cbn [fst snd] in *.
    rewrite Forall_forall in H. split.
    - destruct Hf as [Hf|[y [Hy Hf]]]; subst g1; [lia|].
      apply sorted_by_In in Hy. apply (H y Hy).
    - destruct Hs as [Hs|[y [Hy Hs]]]; subst g2; [lia|].
      apply sorted_by_In in Hy. apply (H y Hy). }
  destruct (schedule_for_day_origin _ _ _ _ _ E0) as (added & Hbl & Horig).
  assert (Hstudy : Forall (fun b => block_type b = STUDY) added).
  { eapply Forall_impl; [|exact Horig]. cbn beta.
    intros b (a & _ & _ & st & Eb). apply study_block_of_Ok in Eb. tauto. }
  exists added. split; [exact Hbl|].
  unfold _schedule_assignments_for_day in E0.
  destruct (filter (fun a => negb (is_completed a)) l) as [|a0 av0].
  - injection E0 as <-.
    assert (added = []) as ->; [|constructor].
    apply (app_inv_head (time_blocks s)). rewrite app_nil_r. symmetry.
    exact Hbl.
  - destruct (get_available_slots _ _ _ _) as [|x0 sl0].
    + injection E0 as <-.
      assert (added = []) as ->; [|constructor].
      apply (app_inv_head (time_blocks s)). rewrite app_nil_r. symmetry.
      exact Hbl.
    + inv_bind E0. destruct a as [s1 sl1]. injection E0 as <-.
      destruct (assignments_loop_within W E _ _ _ _ _ _ Hsl Ha)
        as (added' & Hbl' & HF').
      assert (added' = added) as ->.
      { apply (app_inv_head (time_blocks s)). rewrite <- Hbl, <- Hbl'.
        reflexivity. }
      rewrite Forall_forall in Hstudy, HF'. apply Forall_forall.
      intros b Hb. split; [apply Hstudy, Hb | apply HF', Hb].
Qed.

Lemma X18_study_within_window_witness :
  Forall (fun y => at_ 5 9 0 <= end_time y /\ start_time y <= at_ 5 22 0)
    (time_blocks ex_fixed_day) /\
  exists s' added,
    _schedule_assignments_for_day default_constraints ex_fixed_day
      ex_mixed_tasks (at_ 5 0 0) = Ok s' /\
    time_blocks s' = time_blocks ex_fixed_day ++ added /\
    Forall (fun b => block_type b = STUDY /\
                     at_ 5 9 0 <= start_time b /\ end_time b <= at_ 5 22 0)
      added.
Proof.
  assert (H : Forall (fun y => at_ 5 9 0 <= end_time y /\
                               start_time y <= at_ 5 22 0)
                (time_blocks ex_fixed_day))
    by (repeat constructor; discriminate).
  split; [exact H|].
  assert (E : exists s',
             _schedule_assignments_for_day default_constraints ex_fixed_day
               ex_mixed_tasks (at_ 5 0 0) = Ok s')
    by (eexists; vm_compute; reflexivity).
  destruct E as [s' E].
  destruct (X18_study_within_window default_constraints ex_fixed_day
              ex_mixed_tasks (at_ 5 0 0) s' H E) as (added & Hbl & HF).
  exists s', added. split; [exact E|]. split; [exact Hbl | exact HF].
Defined.

Lemma days_loop_split c sorted ws cs (n : nat) (d : datetime) s rest :
  days_loop c sorted ws cs (S n) d = Ok (s :: rest) ->
  days_loop c sorted ws cs 1 d = Ok [s] /\
  days_loop c sorted ws cs n (d + days 1) = Ok rest.
Proof.
  cbn [days_loop]. intro E.
  destruct (_add_fixed_blocks (Schedule_new d) cs ws d) as [s1|e];
    [|discriminate]. cbn [bind] in *.
  destruct (_schedule_assignments_for_day c s1 sorted d) as [s2|e];
    [|discriminate]. cbn [bind] in *.
  destruct (_add_breaks_and_optimize c s2) as [s3|e]; [|discriminate].
  cbn [bind] in *.
  destruct (days_loop c sorted ws cs n (d + days 1)) as [r|e];
    [|discriminate]. cbn [bind] in E.
  injection E as <- <-. split; reflexivity.
Qed.

Lemma days_loop_each c sorted ws cs (n : nat) :
  forall d schedules i s,
    days_loop c sorted ws cs n d = Ok schedules ->
    nth_error schedules i = Some s ->
    days_loop c sorted ws cs 1 (d + days (Z.of_nat i)) = Ok [s].
Proof.
  induction n as [|n IH]; intros d schedules i s E Hi.
  - injection E as <-. destruct i; discriminate.
  - destruct schedules as [|s0 rest].
    + destruct i; discriminate.
    + apply days_loop_split in E. destruct E as [E1 En].
      destruct i as [|i].
      * injection Hi as <-.
        replace (d + days (Z.of_nat 0)) with d by (unfold days; cbn; lia).
        exact E1.
      * cbn [nth_error] in Hi.
        replace (d + days (Z.of_nat (S i)))
          with (d + days 1 + days (Z.of_nat i))
          by (unfold days, us_per_day, us_per_hour, us_per_minute,
                us_per_second; lia).
        eapply IH; eauto.
Qed.

(** X19. The days of a run are scheduled independently of each other:
    the schedule at position [i] of a run is the schedule that a run of
    one day gives for the date [start_date] plus [i] days, with the same
    tasks, commitments and clock.  Nothing that is placed on one day is
    carried to a later day, so a task placed on one day is offered again,
    in full, on the next. *)
Theorem X19_days_are_independent (c : SchedulingConstraints)
    (clock : nat -> datetime) (assignments : list Assignment)
    (work_shifts : list WorkShift) (class_schedule : list TimeBlock)
    (start_date : datetime) (days_ahead : Z) (schedules : list Schedule)
    (i : nat) (s : Schedule) :
  create_schedule c clock assignments work_shifts class_schedule start_date
    days_ahead = Ok schedules ->
  nth_error schedules i = Some s ->
  create_schedule c clock assignments work_shifts class_schedule
    (start_date + days (Z.of_nat i)) 1 = Ok [s].
Proof.
  unfold create_schedule. intros E Hi.
  change (Z.to_nat 1) with 1%nat. eapply days_loop_each; eauto.
Qed.

Lemma X19_days_are_independent_witness :
  exists schedules s,
    ex_run = Ok schedules /\ nth_error schedules 1 = Some s /\
    create_schedule default_constraints (fun _ => at_ 5 7 0)
      [ex_task 1 "Quiz prep" None MEDIUM 60 false;
       ex_task 2 "Essay" None MEDIUM 200 false]
      [ex_shift (at_ 5 18 0) (at_ 5 20 0)] [ex_lecture]
      (at_ 5 0 0 + days 1) 1 = Ok [s] /\
    outline s = [(at_ 6 9 0, at_ 6 12 20, STUDY)].
Proof.
  assert (E : exists schedules s,
             ex_run = Ok schedules /\ nth_error schedules 1 = Some s /\
             outline s = [(at_ 6 9 0, at_ 6 12 20, STUDY)]).
  { eexists. eexists. split; [vm_compute; reflexivity|].
    split; reflexivity. }
  destruct E as (schedules & s & E & Hi & Ho).
  exists schedules, s. split; [exact E|]. split; [exact Hi|].
  split; [|exact Ho].
  exact (X19_days_are_independent default_constraints (fun _ => at_ 5 7 0)
           [ex_task 1 "Quiz prep" None MEDIUM 60 false;
            ex_task 2 "Essay" None MEDIUM 200 false]
           [ex_shift (at_ 5 18 0) (at_ 5 20 0)] [ex_lecture]
           (at_ 5 0 0) 2 schedules 1%nat s E Hi).
Defined.
